(** * Valuation API server (Server.js): postcode handling and the
      [POST /api/valuation] route, as a shallow embedding.

    Strings are sequences of code units below 128 (ASCII text): the
    character predicates, [toUpperCase] and the white-space class are the
    JavaScript ones restricted to that range; a code unit of 128 or more is
    treated as a character with no case and no white-space meaning; the
    few message texts of Server.js that hold other characters are kept as
    their UTF-8 bytes.

    Numbers are IEEE 754 binary64 values ([spec_float] at precision 53 and
    maximal exponent 1024), as JavaScript numbers are. *)

From Stdlib Require Import ZArith List Bool Ascii String Lia.
From Stdlib Require Import Floats.SpecFloat.
Import ListNotations.

Local Open Scope list_scope.
Local Open Scope string_scope.

(** ** Characters *)

Module Char.

Definition code (c : ascii) : nat := nat_of_ascii c.

Definition in_range (lo hi c : ascii) : bool :=
  (code lo <=? code c)%nat && (code c <=? code hi)%nat.

Definition is_upper (c : ascii) : bool := in_range "A" "Z" c.
Definition is_lower (c : ascii) : bool := in_range "a" "z" c.
Definition is_digit (c : ascii) : bool := in_range "0" "9" c.

(** [toUpperCase] and [toLowerCase] on one code unit. *)
Definition upper (c : ascii) : ascii :=
  if is_lower c then ascii_of_nat (code c - 32) else c.
Definition lower (c : ascii) : ascii :=
  if is_upper c then ascii_of_nat (code c + 32) else c.

(** The white-space class [\s], which is also what [trim] removes:
    TAB, LF, VT, FF, CR and SPACE. *)
Definition is_space (c : ascii) : bool :=
  ((9 <=? code c)%nat && (code c <=? 13)%nat) || (code c =? 32)%nat.

End Char.

(** ** String primitives of the JavaScript runtime used by Server.js *)

Module Str.

Definition is_empty (s : string) : bool :=
  match s with EmptyString => true | String _ _ => false end.

Fixpoint map (f : ascii -> ascii) (s : string) : string :=
  match s with
  | EmptyString => EmptyString
  | String c t => String (f c) (map f t)
  end.

Fixpoint filter (p : ascii -> bool) (s : string) : string :=
  match s with
  | EmptyString => EmptyString
  | String c t => if p c then String c (filter p t) else filter p t
  end.

Fixpoint forallb (p : ascii -> bool) (s : string) : bool :=
  match s with
  | EmptyString => true
  | String c t => p c && forallb p t
  end.

Fixpoint take (n : nat) (s : string) : string :=
  match n, s with
  | S k, String c t => String c (take k t)
  | _, _ => EmptyString
  end.

Fixpoint drop (n : nat) (s : string) : string :=
  match n, s with
  | S k, String _ t => drop k t
  | _, _ => s
  end.

(** [s.toUpperCase()] *)
Definition toUpperCase (s : string) : string := map Char.upper s.

(** [s.trim()]: strip white space at both ends. *)
Fixpoint trimStart (s : string) : string :=
  match s with
  | String c t => if Char.is_space c then trimStart t else s
  | EmptyString => EmptyString
  end.

Fixpoint trimEnd (s : string) : string :=
  match s with
  | EmptyString => EmptyString
  | String c t =>
      let t' := trimEnd t in
      if Char.is_space c && is_empty t' then EmptyString else String c t'
  end.

Definition trim (s : string) : string := trimEnd (trimStart s).

(** [s.slice(0, -k)] and [s.slice(-k)] for a positive literal [k]:
    a negative index counts from the end and is clamped at 0. *)
Definition slice_0_neg (k : nat) (s : string) : string :=
  take (length s - k) s.
Definition slice_neg (k : nat) (s : string) : string :=
  drop (length s - k) s.

(** [s.split(sep)[0]] for a one-character separator: the text before the
    first separator, the whole string when there is none. *)
Fixpoint split_head (sep : ascii) (s : string) : string :=
  match s with
  | EmptyString => EmptyString
  | String c t => if Ascii.eqb c sep then EmptyString else String c (split_head sep t)
  end.

(** [s.includes(needle)] *)
Fixpoint starts_with (p s : string) : bool :=
  match p, s with
  | EmptyString, _ => true
  | String a p', String b s' => Ascii.eqb a b && starts_with p' s'
  | String _ _, EmptyString => false
  end.

Fixpoint includes (needle s : string) : bool :=
  starts_with needle s ||
  match s with
  | EmptyString => false
  | String _ t => includes needle t
  end.

End Str.

(** ** Regular expressions

    The fragment of JavaScript regular expressions that Server.js uses:
    literal characters, character classes made of ranges (possibly
    negated), concatenation, [r?] and [r{lo,hi}], with the [i] flag. *)

Module Regex.

Inductive regex : Type :=
| Chr (c : ascii)
| Cls (negated : bool) (ranges : list (ascii * ascii))
| Cat (r1 r2 : regex)
| Opt (r : regex)
| Rep (lo hi : nat) (r : regex).

(** A class item: the range [lo-hi], or the single character [c]. *)
Definition range (lo hi : ascii) : ascii * ascii := (lo, hi).
Definition single (c : ascii) : ascii * ascii := (c, c).

Definition in_ranges (rs : list (ascii * ascii)) (c : ascii) : bool :=
  existsb (fun r => Char.in_range (fst r) (snd r) c) rs.

(** Canonicalize of the matching algorithm: with [ignoreCase] a code unit
    is compared through its upper-case form. *)
Definition canonicalize (ignoreCase : bool) (c : ascii) : ascii :=
  if ignoreCase then Char.upper c else c.

(** A class holds [c] when one of its members has the canonical form of
    [c]; with [ignoreCase] the candidates are the upper- and lower-case
    forms of [c]. *)
Definition cls_has (ignoreCase : bool) (rs : list (ascii * ascii)) (c : ascii) : bool :=
  if ignoreCase
  then in_ranges rs (Char.upper c) || in_ranges rs (Char.lower (Char.upper c))
  else in_ranges rs c.

(** Greedy repetition of a matcher between [lo] and [hi] times. *)
Fixpoint rep_match (m : string -> list string) (lo hi : nat) (s : string)
  : list string :=
  match hi with
  | O => match lo with O => [s] | S _ => [] end
  | S hi' =>
      (flat_map (rep_match m (pred lo) hi') (m s)
       ++ match lo with O => [s] | S _ => [] end)%list
  end.

(** Backtracking matcher: every remainder left after matching [r] on a
    prefix of [s], in the order the engine tries them. *)
Fixpoint rmatch (ignoreCase : bool) (r : regex) (s : string) : list string :=
  match r with
  | Chr a =>
      match s with
      | String c t =>
          if Ascii.eqb (canonicalize ignoreCase a) (canonicalize ignoreCase c)
          then [t] else []
      | EmptyString => []
      end
  | Cls neg rs =>
      match s with
      | String c t => if xorb neg (cls_has ignoreCase rs c) then [t] else []
      | EmptyString => []
      end
  | Cat r1 r2 => flat_map (rmatch ignoreCase r2) (rmatch ignoreCase r1 s)
  | Opt r1 => (rmatch ignoreCase r1 s ++ [s])%list
  | Rep lo hi r1 => rep_match (rmatch ignoreCase r1) lo hi s
  end.

(** [/^r$/.test(s)]: some way of matching [r] consumes all of [s]. *)
Definition test (ignoreCase : bool) (r : regex) (s : string) : bool :=
  existsb Str.is_empty (rmatch ignoreCase r s).

(** [s.replace(/[cls]/g, "")] for a one-class pattern: every character the
    class matches is removed. *)
Definition remove_all (ignoreCase : bool) (neg : bool)
  (rs : list (ascii * ascii)) (s : string) : string :=
  Str.filter (fun c => negb (xorb neg (cls_has ignoreCase rs c))) s.

(** [s.replace(/\s+/g, sub)]: every maximal run of white space becomes one
    [sub]. [in_run] tells that the previous character was white space. *)
Fixpoint replace_space_runs (sub : ascii) (in_run : bool) (s : string) : string :=
  match s with
  | EmptyString => EmptyString
  | String c t =>
      if Char.is_space c
      then if in_run then replace_space_runs sub true t
           else String sub (replace_space_runs sub true t)
      else String c (replace_space_runs sub false t)
  end.

(** The language of a regular expression, declaratively. *)
Fixpoint pow (L : string -> Prop) (n : nat) (s : string) : Prop :=
  match n with
  | O => s = EmptyString
  | S k => exists s1 s2, s = s1 ++ s2 /\ L s1 /\ pow L k s2
  end.

Fixpoint lang (ignoreCase : bool) (r : regex) (s : string) : Prop :=
  match r with
  | Chr a =>
      exists c, s = String c EmptyString /\
                canonicalize ignoreCase a = canonicalize ignoreCase c
  | Cls neg rs =>
      exists c, s = String c EmptyString /\
                xorb neg (cls_has ignoreCase rs c) = true
  | Cat r1 r2 =>
      exists s1 s2, s = s1 ++ s2 /\ lang ignoreCase r1 s1 /\ lang ignoreCase r2 s2
  | Opt r1 => s = EmptyString \/ lang ignoreCase r1 s
  | Rep lo hi r1 =>
      exists n, (lo <= n <= hi)%nat /\ pow (lang ignoreCase r1) n s
  end.

End Regex.

(** ** Helper functions of Server.js *)

Import Regex.

(** [function normalizePostcode(pc)] *)
Definition normalizePostcode (pc : string) : string :=
  if Str.is_empty pc then EmptyString
  else replace_space_runs " " false (Str.toUpperCase (Str.trim pc)).

(** [function getOutcode(fullPostcode)] *)
Definition getOutcode (fullPostcode : string) : string :=
  Str.split_head " " fullPostcode.

(** [/^[A-Z]{1,2}[0-9R][0-9A-Z]? [0-9][A-Z]{2}$/i] *)
Definition postcode_regex : regex :=
  Cat (Rep 1 2 (Cls false [range "A" "Z"]))
 (Cat (Cls false [range "0" "9"; single "R"])
 (Cat (Opt (Cls false [range "0" "9"; range "A" "Z"]))
 (Cat (Chr " ")
 (Cat (Cls false [range "0" "9"])
      (Rep 2 2 (Cls false [range "A" "Z"])))))).

(** [function isValidUKPostcode(postcode)] *)
Definition isValidUKPostcode (postcode : string) : bool :=
  test true postcode_regex postcode.

(** [function tryAutoFormatPostcode(input)]; [None] is [null]. *)
Definition tryAutoFormatPostcode (input : string) : option string :=
  let cleaned :=
    Str.toUpperCase (remove_all true true [range "A" "Z"; range "0" "9"] input) in
  if (length cleaned <? 5)%nat || (7 <? length cleaned)%nat then None
  else
    let formatted :=
      Str.slice_0_neg 3 cleaned ++ " " ++ Str.slice_neg 3 cleaned in
    if isValidUKPostcode formatted then Some formatted else None.

(** ** JavaScript numbers and values *)

Module JS.

Definition number : Type := spec_float.

Definition prec : Z := 53.
Definition emax : Z := 1024.

Definition of_Z (n : Z) : number := binary_normalize prec emax n 0 false.
Definition mul : number -> number -> number := SFmul prec emax.
Definition div : number -> number -> number := SFdiv prec emax.

(** A decimal literal with one fractional digit, such as [0.8] = 8/10:
    the binary64 value nearest to it. *)
Definition tenths (n : Z) : number := div (of_Z n) (of_Z 10).

Definition is_nan (x : number) : bool :=
  match x with S754_nan => true | _ => false end.

(** [Math.round(x)]: the integer nearest to [x], a tie going towards
    +infinity; NaN, the infinities, the zeros and integers are returned as
    they are, and a result of zero keeps the sign of [x]. *)
Definition Math_round (x : number) : number :=
  match x with
  | S754_finite s m e =>
      if (0 <=? e)%Z then x
      else
        let sm := if s then Z.neg m else Z.pos m in
        let n := ((2 * sm + 2 ^ (- e)) / 2 ^ (1 - e))%Z in
        if (n =? 0)%Z then S754_zero s else of_Z n
  | _ => x
  end.

Set Warnings "-register-all".

(** JSON-like values, with [undefined] for an absent property. An object
    keeps its properties in order, the first binding of a key being the
    one a read finds. *)
Inductive value : Type :=
| VUndefined
| VNull
| VBool (b : bool)
| VNum (x : number)
| VStr (s : string)
| VArr (items : list value)
| VObj (fields : list (string * value)).

(** What a [throw] carries. [AxiosError] is the rejection of [axios.get]:
    its [code] and, when the server answered, the body [response.data].
    [PlainError] is [new Error(...)], [TypeError] a failed property read or
    method call; neither has a [response] property. *)
Inductive exn : Type :=
| TypeError
| PlainError
| AxiosError (code : option string) (response_data : option value).

Inductive result (A : Type) : Type :=
| Ok (a : A)
| Throw (e : exn).
Arguments Ok {A} a.
Arguments Throw {A} e.

(** ToBoolean *)
Definition truthy (v : value) : bool :=
  match v with
  | VUndefined | VNull => false
  | VBool b => b
  | VNum (S754_zero _) | VNum S754_nan => false
  | VNum _ => true
  | VStr s => negb (Str.is_empty s)
  | VArr _ | VObj _ => true
  end.

(** [a || b] *)
Definition or_else (a b : value) : value := if truthy a then a else b.

(** [v === "s"] *)
Definition is_str (s : string) (v : value) : bool :=
  match v with VStr s' => String.eqb s' s | _ => false end.

(** [[s1, ..., sn].includes(v)] for an array of string literals. *)
Definition includes_str (l : list string) (v : value) : bool :=
  existsb (fun s => is_str s v) l.

Definition nullish (v : value) : bool :=
  match v with VUndefined | VNull => true | _ => false end.

Fixpoint lookup (k : string) (fields : list (string * value)) : value :=
  match fields with
  | [] => VUndefined
  | (k', v) :: rest => if String.eqb k k' then v else lookup k rest
  end.

(** [v.k] on a value that is neither [null] nor [undefined]. None of the
    property names Server.js reads is defined on strings, numbers,
    booleans or arrays, so only an object can answer. *)
Definition prop (v : value) (k : string) : value :=
  match v with VObj fields => lookup k fields | _ => VUndefined end.

(** [v.k], which throws a TypeError on [null] and [undefined]. *)
Definition get (v : value) (k : string) : result value :=
  if nullish v then Throw TypeError else Ok (prop v k).

(** [v?.k] *)
Definition get_opt (v : value) (k : string) : value :=
  if nullish v then VUndefined else prop v k.

(** The object has an own property [k]. *)
Definition has_key (k : string) (fields : list (string * value)) : bool :=
  existsb (fun kv => String.eqb k (fst kv)) fields.

(** ToPrimitive, the first step of ToNumber and ToString on an object,
    calls the object's [valueOf] and [toString]. On an object parsed from
    JSON, [valueOf] is [Object.prototype.valueOf], which gives the object
    back, and [toString] is [Object.prototype.toString] unless the object
    has an own property of that name: that one hides it behind a value
    which is no function, and the conversion throws a TypeError. An array
    converts by joining the string forms of its items, so it converts when
    each of them does. [converts v] tells that the conversion returns. *)
Fixpoint converts (v : value) : bool :=
  match v with
  | VArr items => forallb converts items
  | VObj fields => negb (has_key "toString" fields)
  | _ => true
  end.

(** [parseInt(s, 10)] on a string; [None] is NaN. *)
Definition digit_value (c : ascii) : Z := Z.of_nat (Char.code c - 48).

Fixpoint digits_prefix (acc : option Z) (s : string) : option Z :=
  match s with
  | String c t =>
      if Char.is_digit c
      then digits_prefix
             (Some (10 * match acc with Some a => a | None => 0 end
                    + digit_value c)%Z) t
      else acc
  | EmptyString => acc
  end.

Definition parseInt10 (s : string) : option Z :=
  match Str.trimStart s with
  | String "-" t => option_map Z.opp (digits_prefix None t)
  | String "+" t => digits_prefix None t
  | t => digits_prefix None t
  end.

End JS.

(** ** The route [POST /api/valuation] *)

Import JS.
From Stdlib Require Import DecimalString.

(** The response [axios.get] resolves with. *)
Record response : Type := { status : Z; data : value }.

(** What [axios.get(url, { timeout: 10000 })] does: it resolves with the
    response, or rejects with an error that has a [code] (["ECONNABORTED"]
    on a timeout) and, when the server answered with an error status, the
    response. *)
Inductive axios_outcome : Type :=
| Resolved (r : response)
| Rejected (code : option string) (r : option response).

(** What the handler sends: [res.status(s).json(body)]; [res.json(body)]
    sends status 200. [NoReply] is falling off the end of the handler. *)
Inductive reply : Type :=
| Json (status : nat) (body : value)
| NoReply.

(** Computations of the handler: they append the URLs they request to the
    trace of upstream calls, and return or throw. *)
Definition M (A : Type) : Type := list string -> list string * result A.

Definition ret {A} (a : A) : M A := fun t => (t, Ok a).
Definition throw {A} (e : exn) : M A := fun t => (t, Throw e).
Definition lift {A} (r : result A) : M A := fun t => (t, r).
Definition bind {A B} (m : M A) (k : A -> M B) : M B :=
  fun t => match m t with
           | (t', Ok a) => k a t'
           | (t', Throw e) => (t', Throw e)
           end.
Definition try_catch {A} (m : M A) (handler : exn -> M A) : M A :=
  fun t => match m t with
           | (t', Ok a) => (t', Ok a)
           | (t', Throw e) => handler e t'
           end.

Notation "x <- m ;; k" := (bind m (fun x => k))
  (at level 61, m at next level, right associativity).

Definition quote : string := String (ascii_of_nat 34) EmptyString.

Definition validPropertyTypes : list string :=
  ["detached"; "semi-detached"; "terraced"; "flat"; "maisonette"; "bungalow"].

Definition error_body (msg : string) : value := VObj [("error", VStr msg)].

(** The required-field and enumeration checks at the head of the handler:
    the reply of the first check that fails. *)
Definition validate (postalCode propertyType purpose bedrooms : value)
  : option reply :=
  if negb (truthy postalCode) || negb (truthy propertyType)
     || negb (truthy purpose)
  then Some (Json 400 (error_body
         "Missing required fields: postalCode, propertyType, purpose"))
  else if negb (includes_str validPropertyTypes propertyType)
  then Some (Json 400 (error_body
         ("Invalid property type. Must be one of: "
          ++ String.concat ", " validPropertyTypes)))
  else if negb (includes_str ["sale"; "rent"] purpose)
  then Some (Json 400 (error_body "Purpose must be 'sale' or 'rent'"))
  else if is_str "rent" purpose
          && (negb (truthy bedrooms)
              || negb (includes_str ["1"; "2"; "3"; "4"] bedrooms))
  then Some (Json 400 (error_body
         "Number of bedrooms (1-4) is required for rental estimates"))
  else None.

(** Step 1 of the handler on a string: the postcode the request goes on
    with, [None] when it is rejected. *)
Definition recover_postcode (postalCode : string) : option string :=
  let fullPostcode := normalizePostcode postalCode in
  if isValidUKPostcode fullPostcode then Some fullPostcode
  else tryAutoFormatPostcode postalCode.

(** [const multipliers = { 1: 0.8, 2: 1.0, 3: 1.3, 4: 1.6 }], read at the
    key [bed]. *)
Definition multipliers (bed : option Z) : option number :=
  match bed with
  | Some 1%Z => Some (tenths 8)
  | Some 2%Z => Some (of_Z 1)
  | Some 3%Z => Some (tenths 13)
  | Some 4%Z => Some (tenths 16)
  | _ => None
  end.

(** A template literal's text for the integer [parseInt] returned. *)
Definition int_text (n : option Z) : string :=
  match n with
  | Some z => NilEmpty.string_of_int (Z.to_int z)
  | None => "NaN"
  end.

(** ** Sample requests, upstream behaviours and runtime conversions

    Used by the closed examples at the end. The conversions are stand-ins
    for the JavaScript runtime: they are exact on the empty string, on
    plain runs of decimal digits and on integer-valued numbers, and give
    NaN elsewhere. *)

Module Sample.

Definition StringToNumber (s : string) : number :=
  if Str.is_empty s then S754_zero false
  else if Str.forallb Char.is_digit s
  then match digits_prefix None s with
       | Some z => of_Z z
       | None => S754_nan
       end
  else S754_nan.

Definition parseFloat_string (s : string) : number :=
  if Str.is_empty s then S754_nan else StringToNumber s.

Definition Number_toString (x : number) : string :=
  match x with
  | S754_zero _ => "0"
  | S754_finite s m e =>
      let signed := fun z => if s then Z.opp z else z in
      if (0 <=? e)%Z then int_text (Some (signed (Z.pos m * 2 ^ e)%Z))
      else if (Z.pos m mod 2 ^ (- e) =? 0)%Z
      then int_text (Some (signed (Z.pos m / 2 ^ (- e))%Z))
      else "NaN"
  | _ => "NaN"
  end.

Definition PROPERTYDATA_API_KEY : option string := Some "KEY".

Definition obj (fields : list (string * value)) : response :=
  {| status := 200; data := VObj fields |}.

Definition rent_body : value :=
  VObj [("postalCode", VStr "SW1A 1AA"); ("propertyType", VStr "flat");
        ("purpose", VStr "rent"); ("bedrooms", VStr "3")].

Definition no_bedrooms_body : value :=
  VObj [("postalCode", VStr "SW1A 1AA"); ("propertyType", VStr "flat");
        ("purpose", VStr "rent")].

Definition sale_body : value :=
  VObj [("postalCode", VStr "sw1a1aa"); ("propertyType", VStr "flat");
        ("purpose", VStr "sale")].

Definition bungalow_body : value :=
  VObj [("postalCode", VStr "SW1A 1AA"); ("propertyType", VStr "bungalow");
        ("purpose", VStr "sale")].

(** The postcode typed with stray spaces. *)
Definition spaced_body : value :=
  VObj [("postalCode", VStr " sw1a  1aa "); ("propertyType", VStr "flat");
        ("purpose", VStr "sale")].

(** The postcode sent inside an array. *)
Definition array_postcode_body : value :=
  VObj [("postalCode", VArr [VStr "SW1A 1AA"]); ("propertyType", VStr "flat");
        ("purpose", VStr "sale")].

(** The bedroom count sent as the number 3. *)
Definition bedrooms_number_body : value :=
  VObj [("postalCode", VStr "SW1A 1AA"); ("propertyType", VStr "flat");
        ("purpose", VStr "rent"); ("bedrooms", VNum (of_Z 3))].

(** Every call times out. *)
Definition timeout (url : string) : axios_outcome :=
  Rejected (Some "ECONNABORTED") None.

(** The demand-rent calls time out; the local-market call is answered,
    with status 200, by an error body. *)
Definition local_market_error (url : string) : axios_outcome :=
  if Str.includes "/local-market?" url
  then Resolved (obj [("status", VStr "error"); ("code", VStr "X14");
                      ("message", VStr "No data for this postcode")])
  else timeout url.

(** Only the demand-rent call keyed by the parent outcode SW1 succeeds. *)
Definition parent_outcode_only (url : string) : axios_outcome :=
  if Str.includes "postcode=SW1A" url
  then Rejected (Some "ERR_BAD_REQUEST")
         (Some {| status := 404;
                  data := VObj [("status", VStr "error")] |})
  else Resolved (obj [("status", VStr "success"); ("postcode", VStr "SW1");
                      ("rental_demand_rating", VStr "High");
                      ("days_on_market", VNum (of_Z 21));
                      ("rent", VObj [("average", VNum (of_Z 1000))])]).

(** Every call is answered by a payload whose rent average, days on market
    and sale average are the number 0. *)
Definition zeros (url : string) : axios_outcome :=
  Resolved (obj [("status", VStr "success");
                 ("days_on_market", VNum (of_Z 0));
                 ("rent", VObj [("average", VNum (of_Z 0))]);
                 ("data", VObj [("average", VNum (of_Z 0))])]).

(** Every call is answered by a payload whose rent average is [true]. *)
Definition true_average (url : string) : axios_outcome :=
  Resolved (obj [("status", VStr "success");
                 ("rent", VObj [("average", VBool true)])]).

(** Every call is answered by a payload whose rent average is an object
    with a property [toString]. *)
Definition unprintable_average (url : string) : axios_outcome :=
  Resolved (obj [("status", VStr "success");
                 ("rent",
                    VObj [("average", VObj [("toString", VNum (of_Z 1))])])]).

(** The sold-prices payload of the scenario. *)
Definition sold_prices_payload : value :=
  VObj [("status", VStr "success");
        ("data", VObj [("average", VNum (of_Z 500000));
                       ("70pc_range",
                          VArr [VNum (of_Z 400000); VNum (of_Z 600000)]);
                       ("points_analysed", VNum (of_Z 42))])].

Definition sold_prices_ok (url : string) : axios_outcome :=
  Resolved {| status := 200; data := sold_prices_payload |}.

Definition unsupported_body : value :=
  VObj [("status", VStr "error"); ("code", VStr "902");
        ("message", VStr "Property type not supported in this area")].

(** The "type unsupported" error comes in an answer with status 200. *)
Definition unsupported_in_answer (url : string) : axios_outcome :=
  Resolved {| status := 200; data := unsupported_body |}.

(** The "type unsupported" error comes as a rejection with an error status
    when a type is asked for; the call without a type times out. *)
Definition unsupported_then_timeout (url : string) : axios_outcome :=
  if Str.includes "&type=" url
  then Rejected (Some "ERR_BAD_REQUEST")
         (Some {| status := 400; data := unsupported_body |})
  else timeout url.

(** The same rejection; the call without a type succeeds. *)
Definition unsupported_then_ok (url : string) : axios_outcome :=
  if Str.includes "&type=" url
  then Rejected (Some "ERR_BAD_REQUEST")
         (Some {| status := 400; data := unsupported_body |})
  else sold_prices_ok url.

End Sample.

(** ** The valuation form (App.jsx): what is typed and what is sent *)

Module App.

(** [const [formData, setFormData] = useState({...})]: the text of the
    seven inputs. *)
Record formData : Type := {
  name : string;
  email : string;
  postalCode : string;
  propertyType : string;
  purpose : string;
  bedrooms : string;
  floorArea : string
}.

Definition initial : formData :=
  {| name := EmptyString; email := EmptyString; postalCode := EmptyString;
     propertyType := EmptyString; purpose := EmptyString;
     bedrooms := EmptyString; floorArea := EmptyString |}.

(** [.] in a pattern: any character but a line terminator. *)
Definition is_line_terminator (c : ascii) : bool :=
  (Char.code c =? 10)%nat || (Char.code c =? 13)%nat.

(** [s.replace(/(.{3})$/, " $1")]: when the last three characters exist
    and none is a line terminator, a space is put before them. *)
Definition space_before_last3 (s : string) : string :=
  let n := length s in
  if (3 <=? n)%nat
     && Str.forallb (fun c => negb (is_line_terminator c)) (Str.drop (n - 3) s)
  then Str.take (n - 3) s ++ " " ++ Str.drop (n - 3) s
  else s.

(** What [handleChange] stores for the postcode input:
    [value.toUpperCase().replace(/[^A-Z0-9]/g, "").replace(/(.{3})$/, " $1")],
    trimmed. *)
Definition formatPostcodeInput (value : string) : string :=
  Str.trim
    (space_before_last3
       (remove_all false true [range "A" "Z"; range "0" "9"]
          (Str.toUpperCase value))).

(** [const handleChange = (e) => ...] with [e.target.name] and
    [e.target.value]; the form has no input of another name. *)
Definition handleChange (fd : formData) (field value : string) : formData :=
  if String.eqb field "postalCode" then
    {| name := name fd; email := email fd;
       postalCode := formatPostcodeInput value;
       propertyType := propertyType fd; purpose := purpose fd;
       bedrooms := bedrooms fd; floorArea := floorArea fd |}
  else if String.eqb field "name" then
    {| name := value; email := email fd; postalCode := postalCode fd;
       propertyType := propertyType fd; purpose := purpose fd;
       bedrooms := bedrooms fd; floorArea := floorArea fd |}
  else if String.eqb field "email" then
    {| name := name fd; email := value; postalCode := postalCode fd;
       propertyType := propertyType fd; purpose := purpose fd;
       bedrooms := bedrooms fd; floorArea := floorArea fd |}
  else if String.eqb field "propertyType" then
    {| name := name fd; email := email fd; postalCode := postalCode fd;
       propertyType := value; purpose := purpose fd;
       bedrooms := bedrooms fd; floorArea := floorArea fd |}
  else if String.eqb field "purpose" then
    {| name := name fd; email := email fd; postalCode := postalCode fd;
       propertyType := propertyType fd; purpose := value;
       bedrooms := bedrooms fd; floorArea := floorArea fd |}
  else if String.eqb field "bedrooms" then
    {| name := name fd; email := email fd; postalCode := postalCode fd;
       propertyType := propertyType fd; purpose := purpose fd;
       bedrooms := value; floorArea := floorArea fd |}
  else if String.eqb field "floorArea" then
    {| name := name fd; email := email fd; postalCode := postalCode fd;
       propertyType := propertyType fd; purpose := purpose fd;
       bedrooms := bedrooms fd; floorArea := value |}
  else fd.

(** What [handleSubmit] does before it waits for the answer: an alert, or
    the POST of a payload to /api/valuation. *)
Inductive submission : Type :=
| Alert (msg : string)
| Post (payload : value).

(** [const handleSubmit = async (e) => ...] up to the [fetch]. The payload
    is an object of strings, which [JSON.stringify] and the server's JSON
    parser hand over as it is. *)
Definition handleSubmit (fd : formData) : submission :=
  if negb (test true postcode_regex (postalCode fd)) then
    Alert "Please enter a valid UK postcode (e.g. SW1A 1AA)"
  else if String.eqb (purpose fd) "rent" && Str.is_empty (bedrooms fd) then
    Alert "Please select number of bedrooms for rental estimate"
  else
    Post (VObj
      ([("postalCode", VStr (Str.toUpperCase (Str.trim (postalCode fd))));
        ("propertyType", VStr (propertyType fd));
        ("purpose", VStr (purpose fd))]
       ++ (if String.eqb (purpose fd) "rent"
           then ("bedrooms", VStr (bedrooms fd))
                :: (if negb (Str.is_empty (floorArea fd))
                    then [("floorArea", VStr (floorArea fd))] else [])
           else []))%list).

End App.

(** Forms, as filled in by a visitor. *)
Module SampleForm.

Definition typed_postcode : App.formData :=
  App.handleChange App.initial "postalCode" "sw1a1aa".

Definition rent_form : App.formData :=
  App.handleChange
    (App.handleChange
       (App.handleChange
          (App.handleChange
             (App.handleChange typed_postcode "name" "A. Visitor")
             "propertyType" "flat")
          "purpose" "rent")
       "bedrooms" "3")
    "floorArea" "850".

Definition sale_form : App.formData :=
  App.handleChange (App.handleChange typed_postcode "propertyType" "terraced")
    "purpose" "sale".

End SampleForm.

Section Server.

(** The conversions between strings and numbers of the JavaScript runtime. *)
Variable StringToNumber : string -> number.
Variable parseFloat_string : string -> number.
Variable Number_toString : number -> string.
Variable toLocaleString : number -> string.

(** [process.env.PROPERTYDATA_API_KEY], [None] when it is not set. *)
Variable PROPERTYDATA_API_KEY : option string.

(** The upstream provider, as seen through [axios.get]. *)
Variable axios_get : string -> axios_outcome.

(** ToString, on a value that converts: the text the conversion returns.
    The handler takes the string form of [propertyType] and [bedrooms],
    which are strings once the validator has let them through, and of
    [baseRent] after [isNaN(baseRent)] has returned. *)
Fixpoint ToString (v : value) : string :=
  match v with
  | VUndefined => "undefined"
  | VNull => "null"
  | VBool true => "true"
  | VBool false => "false"
  | VNum x => Number_toString x
  | VStr s => s
  | VArr items =>
      String.concat ","
        (List.map (fun e => if nullish e then EmptyString else ToString e) items)
  | VObj _ => "[object Object]"
  end.

(** ToNumber; an array or an object goes through its string form, and the
    conversion throws a TypeError when it has none. *)
Definition ToNumber (v : value) : result number :=
  match v with
  | VUndefined => Ok S754_nan
  | VNull => Ok (S754_zero false)
  | VBool true => Ok (of_Z 1)
  | VBool false => Ok (S754_zero false)
  | VNum x => Ok x
  | VStr s => Ok (StringToNumber s)
  | VArr _ | VObj _ =>
      if converts v then Ok (StringToNumber (ToString v)) else Throw TypeError
  end.

(** [isNaN(v)] *)
Definition isNaN (v : value) : result bool :=
  match ToNumber v with
  | Ok x => Ok (is_nan x)
  | Throw e => Throw e
  end.

(** [parseFloat(v)] parses the string form of [v]; a number prints to a
    text that reads back as the same number (the zeros as +0). The handler
    calls it on [baseRent] after [isNaN(baseRent)] has returned, so on a
    value that converts. *)
Definition parseFloat (v : value) : number :=
  match v with
  | VNum (S754_zero _) => S754_zero false
  | VNum x => x
  | _ => parseFloat_string (ToString v)
  end.

Definition key_text : string :=
  match PROPERTYDATA_API_KEY with Some k => k | None => "undefined" end.

(** [async function callPropertyDataAPI(url)]: one upstream call, logged,
    its rejection rethrown. *)
Definition callPropertyDataAPI (url : string) : M response :=
  fun t =>
    (t ++ [url],
     match axios_get url with
     | Resolved r => Ok r
     | Rejected code r => Throw (AxiosError code (option_map data r))
     end)%list.

Definition demand_rent_url (postcode : string) : string :=
  "https://api.propertydata.co.uk/demand-rent?key=" ++ key_text
  ++ "&postcode=" ++ postcode.

Definition local_market_url (postcode : string) : string :=
  "https://api.propertydata.co.uk/local-market?key=" ++ key_text
  ++ "&postcode=" ++ postcode.

Definition sold_prices_url (postcode : string) (type : option string) : string :=
  "https://api.propertydata.co.uk/sold-prices?key=" ++ key_text
  ++ "&postcode=" ++ postcode
  ++ match type with Some t => "&type=" ++ t | None => EmptyString end
  ++ "&max_age=12".

(** Tries 1 and 2 of the rent path: one [try { ... } catch (e) { warn }]
    around a demand-rent call; the result is the new content of [data]. *)
Definition try_demand_rent (postcode : string) (data0 : value) : M value :=
  try_catch
    (response <- callPropertyDataAPI (demand_rent_url postcode) ;;
     st <- lift (get (data response) "status") ;;
     ret (if negb (is_str "error" st) then data response else data0))
    (fun _ => ret data0).

(** The bedroom adjustment: [adjustedRent] and [adjustmentNote]. The test
    [baseRent && !isNaN(baseRent)] calls [isNaN] on a truthy [baseRent]
    only, and [parseInt(bedrooms, 10)] takes the string form of
    [bedrooms]; either conversion can throw. *)
Definition adjust (baseRent bedrooms : value) : result (value * string) :=
  if truthy baseRent then
    match isNaN baseRent with
    | Throw e => Throw e
    | Ok true => Ok (VStr "N/A", EmptyString)
    | Ok false =>
        let base := parseFloat baseRent in
        if converts bedrooms then
          let bed := parseInt10 (ToString bedrooms) in
          let multiplier :=
            match multipliers bed with Some m => m | None => of_Z 1 end in
          Ok (VNum (Math_round (mul base multiplier)),
              "Adjusted from area average (£" ++ toLocaleString base
              ++ ") for a " ++ int_text bed ++ "-bedroom property.")
        else Throw TypeError
    end
  else Ok (VStr "N/A", EmptyString).

(** From "Extract base rent" to the result object of the rent path. *)
Definition rent_result (data : value) (fullPostcode : string)
  (bedrooms : value) : result value :=
  match get data "rent" with
  | Throw e => Throw e
  | Ok rent =>
      let baseRent := get_opt rent "average" in
      match adjust baseRent bedrooms with
      | Throw e => Throw e
      | Ok (adjustedRent, adjustmentNote) =>
      Ok (VObj
        [("type", VStr "rent");
         ("postcode", or_else (prop data "postcode") (VStr fullPostcode));
         ("rentalDemand",
            or_else (or_else (prop data "rental_demand_rating")
                             (prop data "demand_rating")) (VStr "N/A"));
         ("totalForRent", or_else (prop data "total_for_rent") (VStr "N/A"));
         ("daysOnMarket", or_else (prop data "days_on_market") (VStr "N/A"));
         ("monthsOfInventory",
            or_else (prop data "months_of_inventory") (VStr "N/A"));
         ("averageRent", adjustedRent);
         ("originalAverageRent", or_else baseRent (VStr "N/A"));
         ("yield",
            or_else (get_opt (prop data "yield") "average") (VStr "N/A"));
         ("note", or_else (VStr adjustmentNote) VNull)])
      end
  end.

Definition no_rental_data : reply :=
  Json 404 (error_body
    "No rental market data available for this area. Try a nearby postcode.").

(** Try 3 of the rent path, [if (!data) { try { ... } catch (e) { return
    res.status(404)... } }]: the content of [data], or the reply of the
    early return. *)
Definition try_local_market (fullPostcode : string) (data0 : value)
  : M (value + reply) :=
  if negb (truthy data0)
  then try_catch
         (response <- callPropertyDataAPI (local_market_url fullPostcode) ;;
          ret (inl (data response)))
         (fun _ => ret (inr no_rental_data))
  else ret (inl data0).

(** The branch [if (purpose === "rent")]. *)
Definition rent_valuation (fullPostcode outcode : string) (bedrooms : value)
  : M reply :=
  (* Try 1: demand-rent with outcode *)
  data1 <- try_demand_rent outcode VNull ;;
  (* Try 2: parent outcode *)
  data2 <- (if negb (truthy data1) && (3 <? length outcode)%nat
            then try_demand_rent (Str.slice_0_neg 1 outcode) data1
            else ret data1) ;;
  (* Try 3: fallback to local-market *)
  data3 <- try_local_market fullPostcode data2 ;;
  match data3 with
  | inr early => ret early
  | inl data =>
      result <- lift (rent_result data fullPostcode bedrooms) ;;
      ret (Json 200 result)
  end.

(** The test of the sale path's catch,
    [error.response?.data?.code === "902" &&
     error.response.data.message.includes("type")],
    on the body [error.response.data]. *)
Definition body_unsupported (body : value) : result bool :=
  if is_str "902" (get_opt body "code") then
    match prop body "message" with
    | VStr s => Ok (Str.includes "type" s)
    | VArr items => Ok (existsb (is_str "type") items)
    | _ => Throw TypeError
    end
  else Ok false.

(** The same test on what was caught: only the rejection of [axios.get]
    has a [response]. *)
Definition type_unsupported (error : exn) : result bool :=
  match error with
  | AxiosError _ (Some body) => body_unsupported body
  | _ => Ok false
  end.

Definition no_sale_data (propertyType : value) (fullPostcode : string) : reply :=
  Json 404 (error_body
    ("No recent sale data for " ++ ToString propertyType ++ " properties in "
     ++ fullPostcode ++ ". This area may not have this property type.")).

(** The result object of the sale path. *)
Definition sale_result (saleData : value) (fullPostcode : string)
  (propertyType usedType : value) : value :=
  VObj
    [("type", VStr "sale");
     ("postcode", or_else (prop saleData "postcode") (VStr fullPostcode));
     ("propertyType",
        if is_str "all" usedType
        then VStr (ToString propertyType
                   ++ " (not found – showing area average)")
        else propertyType);
     ("average",
        or_else (get_opt (prop saleData "data") "average") (VStr "N/A"));
     ("range70",
        or_else (get_opt (prop saleData "data") "70pc_range") (VArr []));
     ("range90",
        or_else (get_opt (prop saleData "data") "90pc_range") (VArr []));
     ("pointsAnalysed",
        or_else (get_opt (prop saleData "data") "points_analysed")
                (VNum (of_Z 0)));
     ("note",
        if is_str "all" usedType
        then VStr ("⚠️ No recent sales for " ++ quote ++ ToString propertyType
                   ++ quote
                   ++ " in this postcode. Showing overall area average.")
        else VNull)].

(** The branch [if (purpose === "sale")]. Each attempt yields [saleData]
    and [usedType], or the reply of an early return. *)
Definition sale_valuation (fullPostcode : string) (propertyType : value)
  : M reply :=
  r <- try_catch
         (response <- callPropertyDataAPI
            (sold_prices_url fullPostcode (Some (ToString propertyType))) ;;
          let saleData := data response in
          st <- lift (get saleData "status") ;;
          if is_str "error" st then throw PlainError
          else ret (inl (saleData, propertyType)))
         (fun error =>
            unsupported <- lift (type_unsupported error) ;;
            if unsupported then
              try_catch
                (fallbackRes <- callPropertyDataAPI
                   (sold_prices_url fullPostcode None) ;;
                 let saleData := data fallbackRes in
                 st <- lift (get saleData "status") ;;
                 if is_str "error" st then throw PlainError
                 else ret (inl (saleData, VStr "all")))
                (fun _ => ret (inr (no_sale_data propertyType fullPostcode)))
            else throw error) ;;
  match r with
  | inr early => ret early
  | inl (saleData, usedType) =>
      ret (Json 200 (sale_result saleData fullPostcode propertyType usedType))
  end.

Definition invalid_postcode : reply :=
  Json 400 (error_body "Invalid UK postcode format. Example: SW1A 1AA").

Definition unexpected_error : reply :=
  Json 500 (error_body "Failed to fetch valuation. Please try again later.").

(** Step 2 of the handler, "handle based on purpose", from the line that
    takes the outcode on. *)
Definition by_purpose (fullPostcode : string)
  (propertyType purpose bedrooms : value) : M reply :=
  let outcode := getOutcode fullPostcode in
  if is_str "rent" purpose
  then rent_valuation fullPostcode outcode bedrooms
  else if is_str "sale" purpose
  then sale_valuation fullPostcode propertyType
  else ret NoReply.

(** The body of the handler's outer [try], after the request body has
    been destructured. *)
Definition valuation_body (postalCode propertyType purpose bedrooms : value)
  : M reply :=
  match validate postalCode propertyType purpose bedrooms with
  | Some rejection => ret rejection
  | None =>
      (* a value that is not a string has no [trim] method *)
      raw <- lift (match postalCode with
                   | VStr s => Ok s
                   | _ => Throw TypeError
                   end) ;;
      match recover_postcode raw with
      | None => ret invalid_postcode
      | Some fullPostcode =>
          by_purpose fullPostcode propertyType purpose bedrooms
      end
  end.

(** The outer [try { ... } catch (error) { res.status(500)... }] run from
    an empty trace: the upstream calls made, in order, and the reply. *)
Definition respond (m : M reply) : list string * reply :=
  let outcome := try_catch m (fun _ => ret unexpected_error) [] in
  (fst outcome,
   match snd outcome with
   | Ok r => r
   | Throw _ => NoReply
   end).

(** [app.post("/api/valuation", async (req, res) => ...)] on the parsed
    request body [req.body]. *)
Definition valuation (req_body : value) : list string * reply :=
  respond
    (postalCode <- lift (get req_body "postalCode") ;;
     valuation_body postalCode (prop req_body "propertyType")
       (prop req_body "purpose") (prop req_body "bedrooms")).


(** ** The postcode grammar, in words

    One or two letters, a digit or R, optionally a digit or a letter, a
    space, a digit and two letters, all in upper case. *)

Definition letter (c : ascii) : Prop := Char.is_upper c = true.
Definition digit (c : ascii) : Prop := Char.is_digit c = true.

Inductive canonical_postcode : string -> Prop :=
| canonical_postcode_intro (area : string) (d : ascii) (opt : string)
    (i u1 u2 : ascii) :
    (length area = 1 \/ length area = 2)%nat ->
    Str.forallb Char.is_upper area = true ->
    (digit d \/ d = "R"%char) ->
    (opt = EmptyString \/
     exists c, opt = String c EmptyString /\ (digit c \/ letter c)) ->
    digit i -> letter u1 -> letter u2 ->
    canonical_postcode
      (area ++ String d opt
       ++ String " " (String i (String u1 (String u2 EmptyString)))).

(** The steps of the auto-format, in words: what is left of the input
    once every character that is not a letter or a digit is removed, and
    a space put three characters before the end. *)
Definition alphanumerics (s : string) : string :=
  Str.filter
    (fun c => Char.is_upper c || Char.is_lower c || Char.is_digit c) s.

Definition insert_space (s : string) : string :=
  Str.take (length s - 3) s ++ " " ++ Str.drop (length s - 3) s.

(** ** Outcomes of one upstream call, as the handler tells them apart *)

(** A demand-rent call yields a usable payload when [axios.get] resolves
    with a body that is not tagged [status: "error"] and that the later
    test [!data] does not take for missing. *)
Definition success (url : string) : option value :=
  match axios_get url with
  | Resolved r =>
      if truthy (data r) && negb (is_str "error" (prop (data r) "status"))
      then Some (data r) else None
  | Rejected _ _ => None
  end.

(** A try block of the sale path: the call, then the read of
    [saleData.status] and the throw on ["error"]. *)
Definition sold_prices_try (url : string) : result value :=
  match axios_get url with
  | Resolved r =>
      if nullish (data r) then Throw TypeError
      else if is_str "error" (prop (data r) "status") then Throw PlainError
      else Ok (data r)
  | Rejected code r => Throw (AxiosError code (option_map data r))
  end.

(** The body of the answer carries the "type unsupported" pattern,
    whichever way the answer came: resolved or rejected. *)
Definition carries_unsupported (o : axios_outcome) : bool :=
  match o with
  | Resolved r | Rejected _ (Some r) =>
      match body_unsupported (data r) with Ok b => b | Throw _ => false end
  | Rejected _ None => false
  end.

(** The end of the rent path once [data] is settled, and its third try. *)
Definition rent_finish (fullPostcode : string) (bedrooms : value)
  (calls : list string) (payload : value) : list string * result reply :=
  (calls,
   match rent_result payload fullPostcode bedrooms with
   | Ok res => Ok (Json 200 res)
   | Throw e => Throw e
   end).

Definition rent_local_market (fullPostcode : string) (bedrooms : value)
  (calls : list string) : list string * result reply :=
  let url := local_market_url fullPostcode in
  match axios_get url with
  | Resolved r => rent_finish fullPostcode bedrooms (calls ++ [url])%list (data r)
  | Rejected _ _ => ((calls ++ [url])%list, Ok no_rental_data)
  end.

(** A request the validator lets through, with its postcode text. *)
Definition accepted (req_body : value) (raw : string) : Prop :=
  prop req_body "postalCode" = VStr raw /\
  validate (prop req_body "postalCode") (prop req_body "propertyType")
           (prop req_body "purpose") (prop req_body "bedrooms") = None.

Definition rent_request (req_body : value) (raw fullPostcode : string) : Prop :=
  accepted req_body raw /\
  is_str "rent" (prop req_body "purpose") = true /\
  recover_postcode raw = Some fullPostcode.

Definition sale_request (req_body : value) (raw fullPostcode : string) : Prop :=
  accepted req_body raw /\
  is_str "sale" (prop req_body "purpose") = true /\
  recover_postcode raw = Some fullPostcode.

(** The multiplier table of the rent adjustment, by bedroom count. *)
Definition multiplier_table : list (string * number) :=
  [("1", tenths 8); ("2", of_Z 1); ("3", tenths 13); ("4", tenths 16)].

(** The validator's conditions, in words. *)
Definition missing (v : value) : Prop := truthy v = false.

Definition one_of (l : list string) (v : value) : Prop :=
  exists s, In s l /\ v = VStr s.

(** No lower-case letter occurs in [s]. *)
Definition no_lower (s : string) : bool :=
  Str.forallb (fun c => negb (Char.is_lower c)) s.

(** A regular expression whose classes and literals name no lower-case
    letter: on a character that is not a lower-case letter they answer the
    same with and without the [i] flag. *)
Fixpoint case_stable (r : regex) : Prop :=
  match r with
  | Chr a =>
      forall c, Char.is_lower c = false ->
                (canonicalize true a = canonicalize true c <-> a = c)
  | Cls _ rs =>
      forall c, Char.is_lower c = false -> cls_has true rs c = cls_has false rs c
  | Cat r1 r2 => case_stable r1 /\ case_stable r2
  | Opt r1 => case_stable r1
  | Rep _ _ r1 => case_stable r1
  end.

(** ** Shapes of strings *)

(** Every character is a letter or a digit. *)
Definition word (s : string) : bool :=
  Str.forallb
    (fun c => Char.is_upper c || Char.is_lower c || Char.is_digit c) s.

(** Every character is an upper-case letter or a digit. *)
Definition upper_word (s : string) : bool :=
  Str.forallb (fun c => Char.is_upper c || Char.is_digit c) s.

(** The first character, if any, is not white space. *)
Definition no_lead (s : string) : bool :=
  match s with
  | EmptyString => true
  | String c _ => negb (Char.is_space c)
  end.

(** The last character, if any, is not white space. *)
Fixpoint no_trail (s : string) : bool :=
  match s with
  | EmptyString => true
  | String c t => if Str.is_empty t then negb (Char.is_space c) else no_trail t
  end.

(** The only white space is the space character, never twice in a row;
    [after_space] tells that the previous character was one. *)
Fixpoint single_spaced (after_space : bool) (s : string) : bool :=
  match s with
  | EmptyString => true
  | String c t =>
      if Char.is_space c
      then negb after_space && Ascii.eqb c " " && single_spaced true t
      else single_spaced false t
  end.

(** A text of ASCII characters only, the range in which the string
    primitives above are the JavaScript ones. *)
Definition ascii_text (s : string) : bool :=
  Str.forallb (fun c => (Char.code c <? 128)%nat) s.

(** ** The replies of the handler, kind by kind *)

(** The first two tries of the rent path yield nothing. *)
Definition tiers_failed (fullPostcode : string) : Prop :=
  let outcode := getOutcode fullPostcode in
  success (demand_rent_url outcode) = None /\
  ((3 < length outcode)%nat ->
   success (demand_rent_url (Str.slice_0_neg 1 outcode)) = None).

(** The rent average of a payload, [data.rent?.average]. *)
Definition rent_average (d : value) : value :=
  get_opt (prop d "rent") "average".

(** The payload the rent path settles on: that of the first of its tries
    that yields one, the body of the local-market answer being taken as it
    comes; [None] when the local-market call is rejected. *)
Definition rent_payload (fullPostcode : string) : option value :=
  let outcode := getOutcode fullPostcode in
  match success (demand_rent_url outcode) with
  | Some d => Some d
  | None =>
      match (if (3 <? length outcode)%nat
             then success (demand_rent_url (Str.slice_0_neg 1 outcode))
             else None) with
      | Some d => Some d
      | None =>
          match axios_get (local_market_url fullPostcode) with
          | Resolved r => Some (data r)
          | Rejected _ _ => None
          end
      end
  end.



(** A reply is an error envelope [{ error: msg }] with one of the three
    error statuses. *)
Definition error_envelope (r : reply) : Prop :=
  exists st msg,
    r = Json st (error_body msg) /\ (st = 400 \/ st = 404 \/ st = 500)%nat.

(** A reply is a result envelope of the given kind. *)
Definition result_envelope (kind : string) (r : reply) : Prop :=
  exists res, r = Json 200 res /\ prop res "type" = VStr kind.

(** * Properties *)

(** ** Strings *)

Lemma append_nil_r (s : string) : s ++ EmptyString = s.
Proof. induction s as [|c s IH]; simpl; [reflexivity | now rewrite IH]. Qed.

Lemma append_assoc (a b c : string) : (a ++ b) ++ c = a ++ (b ++ c).
Proof. induction a as [|x a IH]; simpl; [reflexivity | now rewrite IH]. Qed.


Lemma is_empty_true (s : string) : Str.is_empty s = true <-> s = EmptyString.
Proof. destruct s; simpl; split; congruence. Qed.

Lemma forallb_append (p : ascii -> bool) (a b : string) :
  Str.forallb p (a ++ b) = Str.forallb p a && Str.forallb p b.
Proof.
  induction a as [|x a IH]; simpl; [reflexivity|].
  now rewrite IH, andb_assoc.
Qed.

(** ** The matcher computes the language *)

Lemma existsb_is_empty (l : list string) :
  existsb Str.is_empty l = true <-> In EmptyString l.
Proof.
  rewrite existsb_exists. split.
  - intros [x [Hin Hx]]. apply is_empty_true in Hx. now subst.
  - intros H. exists EmptyString. now split.
Qed.

Lemma rep_match_spec (m : string -> list string) (L : string -> Prop) :
  (forall s rest, In rest (m s) <-> exists pre, s = pre ++ rest /\ L pre) ->
  forall hi lo s rest,
    In rest (rep_match m lo hi s) <->
    exists n pre, (lo <= n <= hi)%nat /\ s = pre ++ rest /\ pow L n pre.
Proof.
  intros Hm. induction hi as [|hi IH]; intros lo s rest; simpl.
  - destruct lo; simpl; split.
    + intros [<-|[]]. exists 0%nat, EmptyString. repeat split; lia.
    + intros (n & pre & Hn & -> & Hp). assert (n = 0)%nat by lia. subst n.
      simpl in Hp. subst pre. now left.
    + intros [].
    + intros (n & _ & Hn & _). lia.
  - rewrite in_app_iff, in_flat_map. split.
    + intros [(mid & Hmid & Hrest) | Hbase].
      * apply Hm in Hmid. destruct Hmid as (p1 & -> & Hp1).
        apply IH in Hrest. destruct Hrest as (n & p2 & Hn & -> & Hp2).
        exists (S n), (p1 ++ p2). repeat split; try lia.
        -- now rewrite append_assoc.
        -- simpl. now exists p1, p2.
      * destruct lo; [|destruct Hbase].
        destruct Hbase as [<-|[]].
        exists 0%nat, EmptyString. repeat split; lia.
    + intros (n & pre & Hn & -> & Hp). destruct n as [|n]; simpl in Hp.
      * subst pre. right. destruct lo; [now left | lia].
      * destruct Hp as (p1 & p2 & -> & Hp1 & Hp2). left.
        exists (p2 ++ rest). split.
        -- apply Hm. exists p1. split; [apply append_assoc | exact Hp1].
        -- apply IH. exists n, p2. repeat split; try lia. exact Hp2.
Qed.

Lemma rmatch_spec (ic : bool) (r : regex) :
  forall s rest,
    In rest (rmatch ic r s) <-> exists pre, s = pre ++ rest /\ lang ic r pre.
Proof.
  induction r as [a | neg rs | r1 IH1 r2 IH2 | r1 IH1 | lo hi r1 IH1];
    intros s rest; simpl.
  - destruct s as [|c t].
    + split; [intros [] | intros (pre & H & c & -> & _); discriminate H].
    + destruct (Ascii.eqb_spec (canonicalize ic a) (canonicalize ic c)) as [E|E].
      * split.
        -- intros [<-|[]]. exists (String c EmptyString). split; [reflexivity|].
           now exists c.
        -- intros (pre & H & c' & -> & _). simpl in H. injection H as _ <-.
           now left.
      * split; [intros [] |].
        intros (pre & H & c' & -> & E'). simpl in H. injection H as <- _.
        contradiction.
  - destruct s as [|c t].
    + split; [intros [] | intros (pre & H & c & -> & _); discriminate H].
    + destruct (xorb neg (cls_has ic rs c)) eqn:E.
      * split.
        -- intros [<-|[]]. exists (String c EmptyString). split; [reflexivity|].
           now exists c.
        -- intros (pre & H & c' & -> & _). simpl in H. injection H as _ <-.
           now left.
      * split; [intros [] |].
        intros (pre & H & c' & -> & E'). simpl in H. injection H as <- _.
        congruence.
  - rewrite in_flat_map. split.
    + intros (mid & Hmid & Hrest). apply IH1 in Hmid. apply IH2 in Hrest.
      destruct Hmid as (p1 & -> & Hp1). destruct Hrest as (p2 & -> & Hp2).
      exists (p1 ++ p2). split; [now rewrite append_assoc|].
      now exists p1, p2.
    + intros (pre & -> & p1 & p2 & -> & Hp1 & Hp2). exists (p2 ++ rest). split.
      * apply IH1. exists p1. split; [apply append_assoc | exact Hp1].
      * apply IH2. now exists p2.
  - rewrite in_app_iff. split.
    + intros [H | [<-|[]]].
      * apply IH1 in H. destruct H as (pre & -> & Hp). exists pre. now split; [|right].
      * exists EmptyString. split; [reflexivity | now left].
    + intros (pre & -> & [-> | Hp]).
      * right. now left.
      * left. apply IH1. now exists pre.
  - rewrite (rep_match_spec _ _ IH1). split.
    + intros (n & pre & Hn & -> & Hp). exists pre. split; [reflexivity|].
      now exists n.
    + intros (pre & -> & n & Hn & Hp). now exists n, pre.
Qed.

Lemma test_spec (ic : bool) (r : regex) (s : string) :
  test ic r s = true <-> lang ic r s.
Proof.
  unfold test. rewrite existsb_is_empty, rmatch_spec. split.
  - intros (pre & -> & H). now rewrite append_nil_r.
  - intros H. exists s. now rewrite append_nil_r.
Qed.

(** ** Characters, case by case *)

Ltac each_char c := destruct c as [[] [] [] [] [] [] [] []].

Lemma upper_not_lower (c : ascii) : Char.is_lower (Char.upper c) = false.
Proof. each_char c; reflexivity. Qed.

Lemma upper_idem (c : ascii) : Char.upper (Char.upper c) = Char.upper c.
Proof. each_char c; reflexivity. Qed.



Lemma in_range_single (a c : ascii) :
  Char.in_range a a c = true <-> c = a.
Proof.
  unfold Char.in_range, Char.code. rewrite andb_true_iff, !Nat.leb_le. split.
  - intros [H1 H2]. rewrite <- (ascii_nat_embedding c), <- (ascii_nat_embedding a).
    f_equal. lia.
  - intros ->. lia.
Qed.

(** ** With and without the [i] flag *)

Lemma no_lower_append (a b : string) :
  no_lower (a ++ b) = true <-> no_lower a = true /\ no_lower b = true.
Proof. unfold no_lower. now rewrite forallb_append, andb_true_iff. Qed.

Lemma no_lower_char (c : ascii) :
  no_lower (String c EmptyString) = true -> Char.is_lower c = false.
Proof.
  unfold no_lower. simpl. rewrite andb_true_r. now destruct (Char.is_lower c).
Qed.

Lemma pow_case_stable (L1 L2 : string -> Prop) :
  (forall s, no_lower s = true -> (L1 s <-> L2 s)) ->
  forall n s, no_lower s = true -> (pow L1 n s <-> pow L2 n s).
Proof.
  intros HL. induction n as [|n IH]; intros s Hs; simpl; [reflexivity|].
  split; intros (s1 & s2 & -> & H1 & H2);
    apply no_lower_append in Hs; destruct Hs as [Hs1 Hs2];
    exists s1, s2; (split; [reflexivity|]); split;
    solve [now apply HL | now apply IH].
Qed.

Lemma lang_case_stable (r : regex) :
  case_stable r ->
  forall s, no_lower s = true -> (lang true r s <-> lang false r s).
Proof.
  induction r as [a | neg rs | r1 IH1 r2 IH2 | r1 IH1 | lo hi r1 IH1];
    simpl; intros Hst s Hs.
  - split; intros (c & -> & E); exists c; (split; [reflexivity|]);
      apply no_lower_char in Hs; now apply (Hst c Hs).
  - split; intros (c & -> & E); exists c; (split; [reflexivity|]);
      apply no_lower_char in Hs; simpl in Hst;
      first [rewrite (Hst c Hs) | rewrite <- (Hst c Hs)]; exact E.
  - destruct Hst as [Hst1 Hst2].
    split; intros (s1 & s2 & -> & H1 & H2);
      apply no_lower_append in Hs; destruct Hs as [Hs1 Hs2];
      exists s1, s2; (split; [reflexivity|]); split;
      solve [now apply IH1 | now apply IH2].
  - split; (intros [-> | H]; [now left | right; now apply IH1]).
  - split; intros (n & Hn & Hp); exists n; (split; [exact Hn|]);
      now apply (pow_case_stable _ _ (IH1 Hst) n s Hs).
Qed.

Lemma postcode_regex_case_stable : case_stable postcode_regex.
Proof.
  simpl. repeat split;
    try (intros c H; each_char c;
         solve [reflexivity | discriminate H]).
  - intros E. each_char c; solve [reflexivity | discriminate H | discriminate E].
  - intros <-. reflexivity.
Qed.

(** ** The language of the pattern is the grammar *)

Lemma cls_upper (c : ascii) :
  xorb false (cls_has false [range "A" "Z"] c) = true <-> letter c.
Proof.
  unfold letter, Char.is_upper. simpl. now rewrite orb_false_r.
Qed.

Lemma cls_digit (c : ascii) :
  xorb false (cls_has false [range "0" "9"] c) = true <-> digit c.
Proof.
  unfold digit, Char.is_digit. simpl. now rewrite orb_false_r.
Qed.

Lemma cls_digit_or_R (c : ascii) :
  xorb false (cls_has false [range "0" "9"; single "R"] c) = true
  <-> digit c \/ c = "R"%char.
Proof.
  unfold digit, Char.is_digit. simpl.
  rewrite orb_false_r, orb_true_iff. now rewrite in_range_single.
Qed.

Lemma cls_digit_or_upper (c : ascii) :
  xorb false (cls_has false [range "0" "9"; range "A" "Z"] c) = true
  <-> digit c \/ letter c.
Proof.
  unfold digit, letter, Char.is_digit, Char.is_upper. simpl.
  now rewrite orb_false_r, orb_true_iff.
Qed.

Lemma lang_postcode_regex (s : string) :
  lang false postcode_regex s <-> canonical_postcode s.
Proof.
  split.
  - intros H. cbn [lang postcode_regex] in H.
    destruct H as (area & s2 & -> & (n & Hn & Harea) & H).
    destruct H as (sd & s3 & -> & (d & -> & Hd) & H).
    destruct H as (opt & s4 & -> & Hopt & H).
    destruct H as (ssp & s5 & -> & (sp & -> & Hsp) & H).
    destruct H as (si & s6 & -> & (i & -> & Hi) & (n2 & Hn2 & Hu)).
    simpl in Hsp. subst sp.
    assert (n2 = 2)%nat by lia. subst n2. simpl in Hu.
    destruct Hu as (a1 & b1 & -> & (u1 & -> & Hu1) & (a2 & b2 & -> & (u2 & -> & Hu2) & ->)).
    apply cls_digit_or_R in Hd. apply cls_digit in Hi.
    apply cls_upper in Hu1. apply cls_upper in Hu2.
    apply (canonical_postcode_intro area d opt i u1 u2); auto.
    + destruct n as [|[|[|n]]]; try lia; simpl in Harea.
      * destruct Harea as (a & b & -> & (c & -> & _) & ->). now left.
      * destruct Harea as (a & b & -> & (c & -> & _) & (a' & b' & -> & (c' & -> & _) & ->)).
        now right.
    + destruct n as [|[|[|n]]]; try lia; simpl in Harea.
      * destruct Harea as (a & b & -> & (c & -> & Hc) & ->).
        apply cls_upper in Hc. simpl. now rewrite Hc.
      * destruct Harea as (a & b & -> & (c & -> & Hc) & (a' & b' & -> & (c' & -> & Hc') & ->)).
        apply cls_upper in Hc. apply cls_upper in Hc'. simpl. now rewrite Hc, Hc'.
    + destruct Hopt as [-> | (c & -> & Hc)]; [now left | right].
      exists c. split; [reflexivity | now apply cls_digit_or_upper].
  - intros H. destruct H as [area d opt i u1 u2 Hlen Harea Hd Hopt Hi Hu1 Hu2].
    cbn [lang postcode_regex].
    exists area, (String d opt ++ String " " (String i (String u1 (String u2 EmptyString)))).
    split; [reflexivity|]. split.
    + destruct area as [|c1 [|c2 [|c3 area]]]; simpl in Hlen, Harea;
        try (destruct Hlen; discriminate).
      * exists 1%nat. split; [lia|]. simpl.
        exists (String c1 EmptyString), EmptyString. repeat split.
        exists c1. split; [reflexivity|]. apply cls_upper.
        now apply andb_true_iff in Harea.
      * exists 2%nat. split; [lia|]. simpl.
        apply andb_true_iff in Harea. destruct Harea as [H1 H2].
        apply andb_true_iff in H2. destruct H2 as [H2 _].
        exists (String c1 EmptyString), (String c2 EmptyString). repeat split.
        -- exists c1. split; [reflexivity | now apply cls_upper].
        -- exists (String c2 EmptyString), EmptyString. repeat split.
           exists c2. split; [reflexivity | now apply cls_upper].
    + exists (String d EmptyString), (opt ++ String " " (String i (String u1 (String u2 EmptyString)))).
      split; [reflexivity|]. split.
      { exists d. split; [reflexivity | now apply cls_digit_or_R]. }
      exists opt, (String " " (String i (String u1 (String u2 EmptyString)))).
      split; [reflexivity|]. split.
      { destruct Hopt as [-> | (c & -> & Hc)]; [now left | right].
        exists c. split; [reflexivity | now apply cls_digit_or_upper]. }
      exists (String " " EmptyString), (String i (String u1 (String u2 EmptyString))).
      split; [reflexivity|]. split.
      { exists " "%char. now split. }
      exists (String i EmptyString), (String u1 (String u2 EmptyString)).
      split; [reflexivity|]. split.
      { exists i. split; [reflexivity | now apply cls_digit]. }
      exists 2%nat. split; [lia|]. simpl.
      exists (String u1 EmptyString), (String u2 EmptyString). repeat split.
      * exists u1. split; [reflexivity | now apply cls_upper].
      * exists (String u2 EmptyString), EmptyString. repeat split.
        exists u2. split; [reflexivity | now apply cls_upper].
Qed.

(** ** Normalised postcodes hold no lower-case letter *)

Lemma no_lower_toUpperCase (s : string) : no_lower (Str.toUpperCase s) = true.
Proof.
  unfold no_lower, Str.toUpperCase.
  induction s as [|c s IH]; simpl; [reflexivity|].
  now rewrite upper_not_lower, IH.
Qed.

Lemma no_lower_replace_space_runs (s : string) :
  forall b, no_lower s = true ->
            no_lower (replace_space_runs " " b s) = true.
Proof.
  unfold no_lower. induction s as [|c s IH]; intros b H; simpl in *;
    [reflexivity|].
  apply andb_true_iff in H. destruct H as [Hc Hs].
  destruct (Char.is_space c), b; simpl; rewrite ?Hc; simpl; now apply IH.
Qed.

Lemma normalizePostcode_steps (pc : string) :
  normalizePostcode pc
  = replace_space_runs " " false (Str.toUpperCase (Str.trim pc)).
Proof. destruct pc; reflexivity. Qed.

Lemma no_lower_normalizePostcode (pc : string) :
  no_lower (normalizePostcode pc) = true.
Proof.
  rewrite normalizePostcode_steps.
  apply no_lower_replace_space_runs, no_lower_toUpperCase.
Qed.

(** ** Upper-casing does not change what the pattern accepts *)

Lemma flat_map_map {A B C} (f : B -> list C) (g : A -> B) (l : list A) :
  flat_map f (List.map g l) = flat_map (fun x => f (g x)) l.
Proof. induction l as [|x l IH]; simpl; [reflexivity | now rewrite IH]. Qed.

Lemma map_flat_map {A B C} (h : B -> C) (f : A -> list B) (l : list A) :
  List.map h (flat_map f l) = flat_map (fun x => List.map h (f x)) l.
Proof.
  induction l as [|x l IH]; simpl; [reflexivity|].
  now rewrite map_app, IH.
Qed.

Lemma rep_match_upper (m : string -> list string) :
  (forall s, m (Str.toUpperCase s) = List.map Str.toUpperCase (m s)) ->
  forall hi lo s,
    rep_match m lo hi (Str.toUpperCase s)
    = List.map Str.toUpperCase (rep_match m lo hi s).
Proof.
  intros Hm. induction hi as [|hi IH]; intros lo s; simpl.
  - now destruct lo.
  - rewrite Hm, flat_map_map, map_app, map_flat_map. f_equal.
    + apply flat_map_ext. intros x. apply IH.
    + now destruct lo.
Qed.

Lemma rmatch_upper (r : regex) :
  forall s,
    rmatch true r (Str.toUpperCase s)
    = List.map Str.toUpperCase (rmatch true r s).
Proof.
  induction r as [a | neg rs | r1 IH1 r2 IH2 | r1 IH1 | lo hi r1 IH1];
    intros s; simpl.
  - destruct s as [|c t]; simpl; [reflexivity|].
    rewrite upper_idem. now destruct Ascii.eqb.
  - destruct s as [|c t]; simpl; [reflexivity|].
    unfold cls_has. rewrite upper_idem. now destruct xorb.
  - rewrite IH1, flat_map_map, map_flat_map.
    apply flat_map_ext. intros x. apply IH2.
  - now rewrite IH1, map_app.
  - now apply rep_match_upper.
Qed.

Lemma isValidUKPostcode_upper (s : string) :
  isValidUKPostcode (Str.toUpperCase s) = isValidUKPostcode s.
Proof.
  unfold isValidUKPostcode, test. rewrite rmatch_upper.
  induction (rmatch true postcode_regex s) as [|x l IH]; simpl;
    [reflexivity|].
  rewrite IH. now destruct x.
Qed.

Lemma map_length (f : ascii -> ascii) (s : string) :
  length (Str.map f s) = length s.
Proof. induction s as [|c s IH]; simpl; [reflexivity | now rewrite IH]. Qed.

Lemma map_append (f : ascii -> ascii) (a b : string) :
  Str.map f (a ++ b) = Str.map f a ++ Str.map f b.
Proof. induction a as [|c a IH]; simpl; [reflexivity | now rewrite IH]. Qed.

Lemma map_take (f : ascii -> ascii) (n : nat) :
  forall s, Str.map f (Str.take n s) = Str.take n (Str.map f s).
Proof.
  induction n as [|n IH]; intros [|c s]; simpl; try reflexivity.
  now rewrite IH.
Qed.

Lemma map_drop (f : ascii -> ascii) (n : nat) :
  forall s, Str.map f (Str.drop n s) = Str.drop n (Str.map f s).
Proof.
  induction n as [|n IH]; intros [|c s]; simpl; try reflexivity.
  apply IH.
Qed.

Lemma insert_space_upper (s : string) :
  insert_space (Str.toUpperCase s) = Str.toUpperCase (insert_space s).
Proof.
  unfold insert_space, Str.toUpperCase.
  now rewrite map_length, !map_append, map_take, map_drop.
Qed.

Lemma filter_ext (p q : ascii -> bool) (s : string) :
  (forall c, p c = q c) -> Str.filter p s = Str.filter q s.
Proof.
  intros H. induction s as [|c s IH]; simpl; [reflexivity|].
  now rewrite H, IH.
Qed.

(** Removing what [/[^A-Z0-9]/gi] matches leaves the letters and digits. *)
Lemma remove_all_alphanumerics (s : string) :
  remove_all true true [range "A" "Z"; range "0" "9"] s = alphanumerics s.
Proof.
  unfold remove_all, alphanumerics. apply filter_ext.
  intros c. each_char c; reflexivity.
Qed.

(** The auto-format, step by step: the letters and digits of the input,
    the length test, the space, the validation; what is returned is the
    formatted text in upper case. *)
Lemma tryAutoFormatPostcode_steps (input : string) :
  tryAutoFormatPostcode input
  = let stripped := alphanumerics input in
    if (length stripped <? 5)%nat || (7 <? length stripped)%nat then None
    else if isValidUKPostcode (insert_space stripped)
         then Some (Str.toUpperCase (insert_space stripped))
         else None.
Proof.
  unfold tryAutoFormatPostcode. rewrite remove_all_alphanumerics. cbv zeta.
  unfold Str.toUpperCase at 1 2. rewrite map_length.
  destruct (_ || _); [reflexivity|].
  change (Str.slice_0_neg 3 (Str.toUpperCase (alphanumerics input)) ++ " "
          ++ Str.slice_neg 3 (Str.toUpperCase (alphanumerics input)))
    with (insert_space (Str.toUpperCase (alphanumerics input))).
  now rewrite insert_space_upper, isValidUKPostcode_upper.
Qed.

(** ** The handler, path by path *)

Lemma respond_run (m : M reply) :
  respond m
  = (fst (m []), match snd (m []) with Ok r => r | Throw _ => unexpected_error end).
Proof.
  unfold respond, try_catch, ret. now destruct (m []) as [t [r|e]].
Qed.

Lemma try_demand_rent_run (postcode : string) (data0 : value) (t : list string) :
  try_demand_rent postcode data0 t
  = ((t ++ [demand_rent_url postcode])%list,
     Ok match axios_get (demand_rent_url postcode) with
        | Resolved r =>
            if nullish (data r) then data0
            else if is_str "error" (prop (data r) "status") then data0
            else data r
        | Rejected _ _ => data0
        end).
Proof.
  unfold try_demand_rent, try_catch, bind, callPropertyDataAPI, lift, ret, get.
  destruct (axios_get (demand_rent_url postcode)) as [r|c r]; [|reflexivity].
  destruct (nullish (data r)); [reflexivity|].
  now destruct (is_str "error" (prop (data r) "status")).
Qed.

Lemma bind_run {A B} (m : M A) (k : A -> M B) (t : list string) :
  bind m k t
  = match m t with
    | (t', Ok a) => k a t'
    | (t', Throw e) => (t', Throw e)
    end.
Proof. reflexivity. Qed.

Lemma truthy_not_nullish (v : value) : truthy v = true -> nullish v = false.
Proof. now destruct v. Qed.

(** What a demand-rent try leaves in [data] when [data] held nothing. *)
Lemma tier_data (url : string) (data0 : value) :
  truthy data0 = false ->
  match success url with
  | Some d =>
      match axios_get url with
      | Resolved r =>
          if nullish (data r) then data0
          else if is_str "error" (prop (data r) "status") then data0
          else data r
      | Rejected _ _ => data0
      end = d /\ truthy d = true
  | None =>
      truthy match axios_get url with
             | Resolved r =>
                 if nullish (data r) then data0
                 else if is_str "error" (prop (data r) "status") then data0
                 else data r
             | Rejected _ _ => data0
             end = false
  end.
Proof.
  intros H0. unfold success.
  destruct (axios_get url) as [r|c r]; [|exact H0].
  destruct (truthy (data r)) eqn:T.
  - rewrite (truthy_not_nullish _ T).
    destruct (is_str "error" (prop (data r) "status")); simpl; auto.
  - simpl. destruct (nullish (data r)); [exact H0|].
    now destruct (is_str "error" (prop (data r) "status")).
Qed.

Lemma rent_tail_run (fullPostcode : string) (bedrooms d : value)
  (calls : list string) :
  (data3 <- try_local_market fullPostcode d ;;
   match data3 with
   | inr early => ret early
   | inl data =>
       result <- lift (rent_result data fullPostcode bedrooms) ;;
       ret (Json 200 result)
   end) calls
  = if truthy d then rent_finish fullPostcode bedrooms calls d
    else rent_local_market fullPostcode bedrooms calls.
Proof.
  unfold try_local_market, rent_local_market, rent_finish.
  destruct (truthy d); simpl.
  - unfold bind, lift, ret.
    now destruct (rent_result d fullPostcode bedrooms).
  - unfold try_catch, bind, callPropertyDataAPI, lift, ret.
    destruct (axios_get (local_market_url fullPostcode)) as [r|c r];
      [|reflexivity].
    now destruct (rent_result (data r) fullPostcode bedrooms).
Qed.

Lemma rent_valuation_run (fullPostcode outcode : string) (bedrooms : value)
  (t : list string) :
  rent_valuation fullPostcode outcode bedrooms t
  = let url1 := demand_rent_url outcode in
    let url2 := demand_rent_url (Str.slice_0_neg 1 outcode) in
    match success url1 with
    | Some d => rent_finish fullPostcode bedrooms (t ++ [url1])%list d
    | None =>
        if (3 <? length outcode)%nat then
          match success url2 with
          | Some d =>
              rent_finish fullPostcode bedrooms ((t ++ [url1]) ++ [url2])%list d
          | None =>
              rent_local_market fullPostcode bedrooms ((t ++ [url1]) ++ [url2])%list
          end
        else rent_local_market fullPostcode bedrooms (t ++ [url1])%list
    end.
Proof.
  cbv zeta. unfold rent_valuation.
  rewrite bind_run, try_demand_rent_run.
  pose proof (tier_data (demand_rent_url outcode) VNull eq_refl) as H1.
  destruct (success (demand_rent_url outcode)) as [d1|].
  - destruct H1 as [-> T1]. rewrite bind_run, T1. simpl.
    unfold ret at 1. now rewrite rent_tail_run, T1.
  - set (v1 := match axios_get (demand_rent_url outcode) with
               | Resolved r =>
                   if nullish (data r) then VNull
                   else if is_str "error" (prop (data r) "status") then VNull
                   else data r
               | Rejected _ _ => VNull
               end) in *.
    rewrite bind_run, H1. simpl.
    destruct (3 <? length outcode)%nat.
    + rewrite try_demand_rent_run.
      pose proof (tier_data (demand_rent_url (Str.slice_0_neg 1 outcode)) v1 H1)
        as H2.
      destruct (success (demand_rent_url (Str.slice_0_neg 1 outcode))) as [d2|].
      * destruct H2 as [-> T2]. now rewrite rent_tail_run, T2.
      * now rewrite rent_tail_run, H2.
    + unfold ret at 1. now rewrite rent_tail_run, H1.
Qed.

Lemma sale_try_run (url : string) (usedType : value) (t : list string) :
  (response <- callPropertyDataAPI url ;;
   let saleData := data response in
   st <- lift (get saleData "status") ;;
   if is_str "error" st then throw PlainError
   else ret (inl (saleData, usedType) : value * value + reply)) t
  = ((t ++ [url])%list,
     match sold_prices_try url with
     | Ok d => Ok (inl (d, usedType))
     | Throw e => Throw e
     end).
Proof.
  unfold sold_prices_try, bind, callPropertyDataAPI, lift, ret, throw, get.
  destruct (axios_get url) as [r|c r]; [|reflexivity].
  destruct (nullish (data r)); [reflexivity|].
  now destruct (is_str "error" (prop (data r) "status")).
Qed.

Lemma sale_valuation_run (fullPostcode : string) (propertyType : value)
  (t : list string) :
  sale_valuation fullPostcode propertyType t
  = let url1 := sold_prices_url fullPostcode (Some (ToString propertyType)) in
    let url2 := sold_prices_url fullPostcode None in
    match sold_prices_try url1 with
    | Ok d =>
        ((t ++ [url1])%list,
         Ok (Json 200 (sale_result d fullPostcode propertyType propertyType)))
    | Throw e =>
        match type_unsupported e with
        | Ok true =>
            (((t ++ [url1]) ++ [url2])%list,
             match sold_prices_try url2 with
             | Ok d =>
                 Ok (Json 200
                       (sale_result d fullPostcode propertyType (VStr "all")))
             | Throw _ => Ok (no_sale_data propertyType fullPostcode)
             end)
        | Ok false => ((t ++ [url1])%list, Throw e)
        | Throw e' => ((t ++ [url1])%list, Throw e')
        end
    end.
Proof.
  cbv zeta. unfold sale_valuation.
  rewrite bind_run. unfold try_catch at 1. rewrite sale_try_run.
  destruct (sold_prices_try _) as [d|e]; [reflexivity|].
  rewrite bind_run. unfold lift at 1.
  destruct (type_unsupported e) as [[|]|e']; try reflexivity.
  unfold try_catch. rewrite sale_try_run.
  now destruct (sold_prices_try _).
Qed.

Lemma is_str_true (s : string) (v : value) :
  is_str s v = true <-> v = VStr s.
Proof.
  destruct v; simpl; try (split; intros H; discriminate H).
  rewrite String.eqb_eq. split; [now intros -> | now intros [= ->]].
Qed.

Lemma includes_str_one_of (l : list string) (v : value) :
  includes_str l v = true <-> one_of l v.
Proof.
  unfold includes_str, one_of. rewrite existsb_exists.
  split; intros (s & Hin & H); exists s; (split; [exact Hin|]);
    now apply is_str_true.
Qed.

Lemma validate_None (postalCode propertyType purpose bedrooms : value) :
  validate postalCode propertyType purpose bedrooms = None <->
  truthy postalCode = true /\ truthy propertyType = true /\
  truthy purpose = true /\
  includes_str validPropertyTypes propertyType = true /\
  includes_str ["sale"; "rent"] purpose = true /\
  (is_str "rent" purpose = true ->
   truthy bedrooms = true /\ includes_str ["1"; "2"; "3"; "4"] bedrooms = true).
Proof.
  unfold validate.
  destruct (truthy postalCode), (truthy propertyType), (truthy purpose),
    (includes_str validPropertyTypes propertyType),
    (includes_str ["sale"; "rent"] purpose), (is_str "rent" purpose),
    (truthy bedrooms), (includes_str ["1"; "2"; "3"; "4"] bedrooms);
    simpl; split; try discriminate; try reflexivity;
    try (intros (? & ? & ? & ? & ? & ?); try discriminate;
         match goal with H : true = true -> _ |- _ =>
           destruct (H eq_refl); discriminate end);
    intros _; repeat split; try discriminate.
Qed.

Lemma validate_Some (postalCode propertyType purpose bedrooms : value)
  (r : reply) :
  validate postalCode propertyType purpose bedrooms = Some r ->
  exists msg, r = Json 400 (error_body msg).
Proof.
  unfold validate.
  repeat match goal with
         | |- context [if ?b then _ else _] => destruct b
         end; intros [= <-]; eauto.
Qed.

Lemma prop_not_nullish (v : value) (k : string) (s : string) :
  prop v k = VStr s -> nullish v = false.
Proof. now destruct v. Qed.

Lemma valuation_rejected (req_body : value) (r : reply) :
  nullish req_body = false ->
  validate (prop req_body "postalCode") (prop req_body "propertyType")
           (prop req_body "purpose") (prop req_body "bedrooms") = Some r ->
  valuation req_body = ([], r).
Proof.
  intros Hb Hv.
  unfold valuation, respond, try_catch, bind, lift, get, valuation_body, ret.
  now rewrite Hb, Hv.
Qed.

Lemma valuation_accepted (req_body : value) (raw : string) :
  accepted req_body raw ->
  valuation req_body
  = match recover_postcode raw with
    | None => ([], invalid_postcode)
    | Some fullPostcode =>
        respond (by_purpose fullPostcode (prop req_body "propertyType")
                   (prop req_body "purpose") (prop req_body "bedrooms"))
    end.
Proof.
  intros [Hpc Hv].
  unfold valuation, respond, try_catch, bind, lift, get, valuation_body, ret.
  rewrite (prop_not_nullish _ _ _ Hpc), Hv, Hpc. unfold bind, lift.
  now destruct (recover_postcode raw).
Qed.

Lemma valuation_rent_request (req_body : value) (raw fullPostcode : string) :
  rent_request req_body raw fullPostcode ->
  valuation req_body
  = respond (rent_valuation fullPostcode (getOutcode fullPostcode)
               (prop req_body "bedrooms")).
Proof.
  intros (Hacc & Hp & Hr). rewrite (valuation_accepted _ _ Hacc), Hr.
  unfold by_purpose. now rewrite Hp.
Qed.

Lemma valuation_sale_request (req_body : value) (raw fullPostcode : string) :
  sale_request req_body raw fullPostcode ->
  valuation req_body
  = respond (sale_valuation fullPostcode (prop req_body "propertyType")).
Proof.
  intros (Hacc & Hp & Hr). rewrite (valuation_accepted _ _ Hacc), Hr.
  unfold by_purpose. rewrite Hp.
  apply is_str_true in Hp. now rewrite Hp.
Qed.

(** * The claims *)

(** C7 — For every input string [pc], [isValid(normalize(pc))] is true
    exactly when [pc], once trimmed, upper-cased and with its runs of
    white space collapsed to single spaces, matches the canonical grammar:
    one or two letters, a digit or R, optionally a digit or a letter, a
    space, a digit and two letters. *)
Theorem isValid_normalize_iff_canonical (pc : string) :
  isValidUKPostcode (normalizePostcode pc) = true <->
  canonical_postcode
    (replace_space_runs " " false (Str.toUpperCase (Str.trim pc))).
Proof.
  rewrite <- normalizePostcode_steps. unfold isValidUKPostcode.
  rewrite test_spec.
  rewrite (lang_case_stable _ postcode_regex_case_stable _
             (no_lower_normalizePostcode pc)).
  apply lang_postcode_regex.
Qed.

(** C5, as amended — A request whose body is null or undefined is
    answered with the 500 error, not by the validator. On every other
    request the validator rejects exactly when one of postalCode,
    propertyType and purpose is missing (falsy), or propertyType is not
    one of the six property types, or purpose is neither "sale" nor
    "rent", or purpose is "rent" and bedrooms is missing or not one of the
    strings "1", "2", "3", "4" (so a count sent as a number is rejected);
    a rejection is a 400 reply sent with no upstream call made, whatever
    the postcode field holds. *)
Theorem validator_rejects_exactly (req_body : value) :
  (nullish req_body = true ->
   valuation req_body
   = ([], Json 500
            (error_body "Failed to fetch valuation. Please try again later."))) /\
  (nullish req_body = false ->
   let postalCode := prop req_body "postalCode" in
   let propertyType := prop req_body "propertyType" in
   let purpose := prop req_body "purpose" in
   let bedrooms := prop req_body "bedrooms" in
   (validate postalCode propertyType purpose bedrooms <> None <->
    missing postalCode \/ missing propertyType \/ missing purpose \/
    ~ one_of validPropertyTypes propertyType \/
    ~ one_of ["sale"; "rent"] purpose \/
    (purpose = VStr "rent" /\
     (missing bedrooms \/ ~ one_of ["1"; "2"; "3"; "4"] bedrooms))) /\
   (forall x, purpose = VStr "rent" -> bedrooms = VNum x ->
              validate postalCode propertyType purpose bedrooms <> None) /\
   (forall r, validate postalCode propertyType purpose bedrooms = Some r ->
              (exists msg, r = Json 400 (error_body msg)) /\
              valuation req_body = ([], r))).
Proof.
  split.
  { intros N. unfold valuation, respond, try_catch, bind, lift, get.
    now rewrite N. }
  intros Hb postalCode propertyType purpose bedrooms.
  assert (Hiff :
    validate postalCode propertyType purpose bedrooms <> None <->
    missing postalCode \/ missing propertyType \/ missing purpose \/
    ~ one_of validPropertyTypes propertyType \/
    ~ one_of ["sale"; "rent"] purpose \/
    (purpose = VStr "rent" /\
     (missing bedrooms \/ ~ one_of ["1"; "2"; "3"; "4"] bedrooms))).
  { rewrite validate_None. unfold missing. split.
    + intros Hne.
      destruct (truthy postalCode) eqn:E1; [|now left].
      destruct (truthy propertyType) eqn:E2; [|now right; left].
      destruct (truthy purpose) eqn:E3; [|now right; right; left].
      destruct (includes_str validPropertyTypes propertyType) eqn:E4.
      2:{ right; right; right; left. intros H.
          apply includes_str_one_of in H. congruence. }
      destruct (includes_str ["sale"; "rent"] purpose) eqn:E5.
      2:{ right; right; right; right; left. intros H.
          apply includes_str_one_of in H. congruence. }
      right; right; right; right; right.
      destruct (is_str "rent" purpose) eqn:E6.
      2:{ exfalso. apply Hne. repeat split. discriminate. discriminate. }
      split; [now apply is_str_true|].
      destruct (truthy bedrooms) eqn:E7; [|now left].
      right. intros H. apply includes_str_one_of in H.
      apply Hne. repeat split; auto.
    + intros H (H1 & H2 & H3 & H4 & H5 & H6).
      destruct H as [H|[H|[H|[H|[H|[Hp H]]]]]]; try congruence.
      * apply H. now apply includes_str_one_of.
      * apply H. now apply includes_str_one_of.
      * apply is_str_true in Hp. destruct (H6 Hp) as [H7 H8].
        destruct H as [H|H]; [congruence|].
        apply H. now apply includes_str_one_of. }
  split; [exact Hiff|]. split.
  - intros x Hp Hx. apply Hiff. right; right; right; right; right.
    split; [exact Hp|]. right. intros (k & _ & Hk). congruence.
  - intros r Hr. split.
    + exact (validate_Some _ _ _ _ _ Hr).
    + now apply valuation_rejected.
Qed.

(** C6, as amended — For every request that passes validation with a
    postalCode that is a string, the postcode the request goes on with is
    [normalize] of the input (trimmed, in upper case, runs of white space
    collapsed) when that is valid; otherwise it is the auto-format of the
    raw input, which keeps the letters and digits only (in upper case),
    fails when fewer than 5 or more than 7 are left, and else puts one
    space three characters before the end and returns that text only if
    it is valid; when both steps fail the reply is the 400 postcode-format
    error and no upstream call is made. A postalCode that passes
    validation without being a string has no [trim]: the reply is the 500
    error, with no upstream call. *)
Theorem postcode_recovery (req_body : value) :
  validate (prop req_body "postalCode") (prop req_body "propertyType")
           (prop req_body "purpose") (prop req_body "bedrooms") = None ->
  (forall raw, prop req_body "postalCode" = VStr raw ->
     let go_on := fun fullPostcode =>
       respond (by_purpose fullPostcode (prop req_body "propertyType")
                  (prop req_body "purpose") (prop req_body "bedrooms")) in
     let normalized :=
       replace_space_runs " " false (Str.toUpperCase (Str.trim raw)) in
     let stripped := alphanumerics raw in
     let cleaned := Str.toUpperCase stripped in
     let formatted := insert_space cleaned in
     normalizePostcode raw = normalized /\
     (length cleaned = length stripped /\
      isValidUKPostcode formatted = isValidUKPostcode (insert_space stripped)) /\
     tryAutoFormatPostcode raw
     = (if (length stripped <? 5)%nat || (7 <? length stripped)%nat then None
        else if isValidUKPostcode formatted then Some formatted else None) /\
     (isValidUKPostcode normalized = true ->
      valuation req_body = go_on normalized) /\
     (isValidUKPostcode normalized = false ->
      forall f, tryAutoFormatPostcode raw = Some f ->
                valuation req_body = go_on f) /\
     (isValidUKPostcode normalized = false ->
      tryAutoFormatPostcode raw = None ->
      valuation req_body
      = ([], Json 400 (error_body
                         "Invalid UK postcode format. Example: SW1A 1AA")))) /\
  ((forall raw, prop req_body "postalCode" <> VStr raw) ->
   valuation req_body
   = ([], Json 500
            (error_body "Failed to fetch valuation. Please try again later."))).
Proof.
  intros V. split.
  - intros raw Hraw go_on normalized stripped cleaned formatted.
    assert (Hacc : accepted req_body raw) by (split; assumption).
    pose proof (valuation_accepted _ _ Hacc) as Hval.
    unfold recover_postcode in Hval. cbv zeta in Hval.
    assert (Hn : normalizePostcode raw = normalized)
      by apply normalizePostcode_steps.
    rewrite Hn in Hval.
    assert (Hvalid : isValidUKPostcode formatted
                     = isValidUKPostcode (insert_space stripped)).
    { unfold formatted, cleaned.
      now rewrite insert_space_upper, isValidUKPostcode_upper. }
    split; [exact Hn|].
    split; [split; [apply map_length | exact Hvalid]|].
    split.
    { rewrite tryAutoFormatPostcode_steps. cbv zeta. fold stripped.
      rewrite <- Hvalid. unfold formatted, cleaned.
      now rewrite insert_space_upper. }
    split; [|split].
    + intros Vn. now rewrite Vn in Hval.
    + intros Vn f Hf. now rewrite Vn, Hf in Hval.
    + intros Vn Hf. now rewrite Vn, Hf in Hval.
  - intros Hno.
    assert (N : nullish req_body = false).
    { apply validate_None in V. destruct V as (T & _).
      destruct req_body; try discriminate T; reflexivity. }
    unfold valuation, respond, try_catch, bind, lift, get, valuation_body, ret.
    rewrite N, V.
    destruct (prop req_body "postalCode"); try reflexivity.
    now contradiction (Hno s).
Qed.

(** ** The rent path, from the request to the reply *)

Lemma success_Some (url : string) (d : value) :
  success url = Some d ->
  truthy d = true /\ is_str "error" (prop d "status") = false /\
  exists r, axios_get url = Resolved r /\ data r = d.
Proof.
  unfold success. destruct (axios_get url) as [r|c r]; [|discriminate].
  destruct (truthy (data r)) eqn:T; [|discriminate].
  destruct (is_str "error" (prop (data r) "status")) eqn:E; [discriminate|].
  intros [= <-]. repeat split; auto. now exists r.
Qed.

Lemma isNaN_defined (v : value) :
  converts v = true -> exists b, isNaN v = Ok b.
Proof.
  intros C. unfold isNaN, ToNumber.
  destruct v as [| |[|]|x|s|items|fields]; try rewrite C; eauto.
Qed.

Lemma isNaN_throws (v : value) :
  converts v = false -> truthy v = true /\ isNaN v = Throw TypeError.
Proof.
  intros C. unfold isNaN, ToNumber.
  destruct v as [| |[|]|x|s|items|fields]; try discriminate C;
    now rewrite C.
Qed.

Lemma adjust_defined (baseRent : value) (k : string) :
  converts baseRent = true -> exists a n, adjust baseRent (VStr k) = Ok (a, n).
Proof.
  intros C. unfold adjust. destruct (truthy baseRent); [|eauto].
  destruct (isNaN_defined _ C) as [[|] ->]; simpl; eauto.
Qed.

Lemma adjust_throws (baseRent bedrooms : value) :
  converts baseRent = false -> adjust baseRent bedrooms = Throw TypeError.
Proof.
  intros C. unfold adjust. destruct (isNaN_throws _ C) as [-> ->].
  reflexivity.
Qed.

Lemma rent_result_fields (d : value) (fullPostcode : string)
  (bedrooms res : value) :
  rent_result d fullPostcode bedrooms = Ok res ->
  let baseRent := get_opt (prop d "rent") "average" in
  nullish d = false /\
  prop res "type" = VStr "rent" /\
  prop res "postcode" = or_else (prop d "postcode") (VStr fullPostcode) /\
  prop res "rentalDemand"
  = or_else (or_else (prop d "rental_demand_rating") (prop d "demand_rating"))
            (VStr "N/A") /\
  prop res "totalForRent" = or_else (prop d "total_for_rent") (VStr "N/A") /\
  prop res "daysOnMarket" = or_else (prop d "days_on_market") (VStr "N/A") /\
  prop res "monthsOfInventory"
  = or_else (prop d "months_of_inventory") (VStr "N/A") /\
  prop res "originalAverageRent" = or_else baseRent (VStr "N/A") /\
  prop res "yield"
  = or_else (get_opt (prop d "yield") "average") (VStr "N/A") /\
  exists a n,
    adjust baseRent bedrooms = Ok (a, n) /\
    prop res "averageRent" = a /\
    prop res "note" = or_else (VStr n) VNull.
Proof.
  unfold rent_result, get. destruct (nullish d); [discriminate|].
  cbv zeta. destruct (adjust _ bedrooms) as [[a n]|e]; [|discriminate].
  intros [= <-]. repeat split. now exists a, n.
Qed.

Lemma rent_result_defined (d : value) (fullPostcode k : string) :
  nullish d = false -> converts (rent_average d) = true ->
  exists res, rent_result d fullPostcode (VStr k) = Ok res.
Proof.
  intros H C. unfold rent_result, get. rewrite H. cbv zeta.
  destruct (adjust_defined _ k C) as (a & n & E).
  unfold rent_average in E. rewrite E. eauto.
Qed.

Lemma rent_result_throws (d : value) (fullPostcode : string)
  (bedrooms : value) :
  converts (rent_average d) = false ->
  rent_result d fullPostcode bedrooms = Throw TypeError.
Proof.
  intros C. unfold rent_result, get. destruct (nullish d); [reflexivity|].
  cbv zeta. pose proof (adjust_throws _ bedrooms C) as E.
  unfold rent_average in E. now rewrite E.
Qed.


Lemma rent_request_bedrooms (req_body : value) (raw fullPostcode : string) :
  rent_request req_body raw fullPostcode ->
  exists k m, prop req_body "bedrooms" = VStr k /\ In (k, m) multiplier_table.
Proof.
  intros ([_ Hv] & Hp & _). apply validate_None in Hv.
  destruct Hv as (_ & _ & _ & _ & _ & Hb). destruct (Hb Hp) as [_ Hin].
  apply includes_str_one_of in Hin. destruct Hin as (k & Hk & ->).
  simpl in Hk.
  destruct Hk as [<-|[<-|[<-|[<-|[]]]]]; eexists _, _;
    (split; [reflexivity|]); simpl; eauto 6.
Qed.

Lemma valuation_rent_run (req_body : value) (raw fullPostcode : string) :
  rent_request req_body raw fullPostcode ->
  forall calls r,
    rent_valuation fullPostcode (getOutcode fullPostcode)
      (prop req_body "bedrooms") [] = (calls, r) ->
    valuation req_body
    = (calls, match r with Ok x => x | Throw _ => unexpected_error end).
Proof.
  intros H calls r E. rewrite (valuation_rent_request _ _ _ H), respond_run.
  now rewrite E.
Qed.

Lemma rent_finish_used (req_body : value) (raw fullPostcode : string)
  (calls : list string) (d : value) :
  rent_request req_body raw fullPostcode ->
  rent_valuation fullPostcode (getOutcode fullPostcode)
    (prop req_body "bedrooms") []
  = rent_finish fullPostcode (prop req_body "bedrooms") calls d ->
  nullish d = false ->
  converts (rent_average d) = true ->
  exists res, rent_result d fullPostcode (prop req_body "bedrooms") = Ok res /\
              valuation req_body = (calls, Json 200 res).
Proof.
  intros H E Hd C.
  destruct (rent_request_bedrooms _ _ _ H) as (k & _ & Hk & _).
  destruct (rent_result_defined d fullPostcode k Hd C) as [res Hres].
  rewrite <- Hk in Hres.
  exists res. split; [exact Hres|].
  unfold rent_finish in E. rewrite Hres in E.
  now rewrite (valuation_rent_run _ _ _ H _ _ E).
Qed.

Lemma rent_finish_thrown (req_body : value) (raw fullPostcode : string)
  (calls : list string) (d : value) :
  rent_request req_body raw fullPostcode ->
  rent_valuation fullPostcode (getOutcode fullPostcode)
    (prop req_body "bedrooms") []
  = rent_finish fullPostcode (prop req_body "bedrooms") calls d ->
  converts (rent_average d) = false ->
  valuation req_body = (calls, unexpected_error).
Proof.
  intros H E C. unfold rent_finish in E.
  rewrite (rent_result_throws _ _ _ C) in E.
  now rewrite (valuation_rent_run _ _ _ H _ _ E).
Qed.



Lemma tiers_failed_run (req_body : value) (raw fullPostcode : string) :
  rent_request req_body raw fullPostcode ->
  let outcode := getOutcode fullPostcode in
  let url1 := demand_rent_url outcode in
  let url2 := demand_rent_url (Str.slice_0_neg 1 outcode) in
  success url1 = None ->
  ((3 < length outcode)%nat -> success url2 = None) ->
  rent_valuation fullPostcode outcode (prop req_body "bedrooms") []
  = rent_local_market fullPostcode (prop req_body "bedrooms")
      (if (3 <? length outcode)%nat then [url1; url2] else [url1]).
Proof.
  intros H outcode url1 url2 S1 S2.
  rewrite rent_valuation_run. cbv zeta. fold outcode url1 url2. rewrite S1.
  destruct (3 <? length outcode)%nat eqn:L; [|reflexivity].
  apply Nat.ltb_lt in L. now rewrite (S2 L).
Qed.

(** When the first two tiers yield nothing and the local-market call is
    rejected (time-out, network failure, error status), the reply is the
    404 "no rental data" error. *)
Lemma no_rental_data_when_local_market_rejects
  (req_body : value) (raw fullPostcode : string) (code : option string)
  (r : option response) :
  rent_request req_body raw fullPostcode ->
  let outcode := getOutcode fullPostcode in
  success (demand_rent_url outcode) = None ->
  ((3 < length outcode)%nat ->
   success (demand_rent_url (Str.slice_0_neg 1 outcode)) = None) ->
  axios_get (local_market_url fullPostcode) = Rejected code r ->
  snd (valuation req_body)
  = Json 404 (error_body
      "No rental market data available for this area. Try a nearby postcode.").
Proof.
  intros H outcode S1 S2 L3.
  pose proof (tiers_failed_run _ _ _ H S1 S2) as Run.
  unfold rent_local_market in Run. rewrite L3 in Run.
  now rewrite (valuation_rent_run _ _ _ H _ _ Run).
Qed.

(** C1 — What the code does where the claim asks for the 404 error: when
    the first two tiers yield nothing and the local-market call is
    answered with a body whose status field says "error", that body is
    taken for the payload and a rent result is sent with status 200.
    (Should the body also hold a rent average that has no primitive form,
    [isNaN] throws and the reply is the 500 error: in no case the 404.) *)
Theorem local_market_error_body_is_used
  (req_body : value) (raw fullPostcode : string) (r : response) :
  rent_request req_body raw fullPostcode ->
  let outcode := getOutcode fullPostcode in
  success (demand_rent_url outcode) = None ->
  ((3 < length outcode)%nat ->
   success (demand_rent_url (Str.slice_0_neg 1 outcode)) = None) ->
  axios_get (local_market_url fullPostcode) = Resolved r ->
  is_str "error" (prop (data r) "status") = true ->
  (converts (rent_average (data r)) = true ->
   exists res,
     rent_result (data r) fullPostcode (prop req_body "bedrooms") = Ok res /\
     snd (valuation req_body) = Json 200 res /\
     prop res "type" = VStr "rent") /\
  (converts (rent_average (data r)) = false ->
   snd (valuation req_body) = unexpected_error).
Proof.
  intros H outcode S1 S2 L3 E.
  pose proof (tiers_failed_run _ _ _ H S1 S2) as Run.
  unfold rent_local_market in Run. rewrite L3 in Run.
  assert (Hd : nullish (data r) = false).
  { destruct (data r); simpl in E; try discriminate E; reflexivity. }
  split.
  - intros C.
    destruct (rent_finish_used _ _ _ _ _ H Run Hd C) as (res & Hres & Hval).
    exists res. split; [exact Hres|]. split; [now rewrite Hval|].
    now apply (rent_result_fields _ _ _ _ Hres).
  - intros C. now rewrite (rent_finish_thrown _ _ _ _ _ H Run C).
Qed.

(** Every run of the rent path ends with a result made from the body of
    one of the answers, or with the 404 reply. *)
Lemma rent_valuation_shape (fullPostcode outcode : string) (bedrooms : value) :
  (exists calls url r,
     In url calls /\ axios_get url = Resolved r /\
     rent_valuation fullPostcode outcode bedrooms []
     = rent_finish fullPostcode bedrooms calls (data r)) \/
  (exists calls,
     rent_valuation fullPostcode outcode bedrooms []
     = (calls, Ok no_rental_data)).
Proof.
  rewrite rent_valuation_run. cbv zeta. simpl app.
  set (url1 := demand_rent_url outcode).
  set (url2 := demand_rent_url (Str.slice_0_neg 1 outcode)).
  assert (Hlm : forall calls,
    (exists calls' url r,
       In url calls' /\ axios_get url = Resolved r /\
       rent_local_market fullPostcode bedrooms calls
       = rent_finish fullPostcode bedrooms calls' (data r)) \/
    (exists calls',
       rent_local_market fullPostcode bedrooms calls
       = (calls', Ok no_rental_data))).
  { intros calls. unfold rent_local_market.
    destruct (axios_get (local_market_url fullPostcode)) as [r|c r] eqn:E.
    - left. exists (calls ++ [local_market_url fullPostcode])%list,
        (local_market_url fullPostcode), r.
      repeat split; auto. apply in_or_app. right. now left.
    - right. eauto. }
  destruct (success url1) as [d1|] eqn:S1.
  - left. destruct (success_Some _ _ S1) as (_ & _ & r & Hr & <-).
    exists [url1], url1, r. repeat split; auto. now left.
  - destruct (3 <? length outcode)%nat; [|apply Hlm].
    destruct (success url2) as [d2|] eqn:S2; [|apply Hlm].
    left. destruct (success_Some _ _ S2) as (_ & _ & r & Hr & <-).
    exists [url1; url2], url2, r. repeat split; auto. right. now left.
Qed.

Lemma rent_reply_payload (req_body : value) (raw fullPostcode : string)
  (res : value) :
  rent_request req_body raw fullPostcode ->
  snd (valuation req_body) = Json 200 res ->
  exists url r,
    In url (fst (valuation req_body)) /\ axios_get url = Resolved r /\
    rent_result (data r) fullPostcode (prop req_body "bedrooms") = Ok res.
Proof.
  intros H Hres.
  destruct (rent_valuation_shape fullPostcode (getOutcode fullPostcode)
              (prop req_body "bedrooms"))
    as [(calls & url & r & Hin & Hr & Run) | (calls & Run)].
  - unfold rent_finish in Run.
    rewrite (valuation_rent_run _ _ _ H _ _ Run) in Hres |- *.
    simpl in Hres |- *. exists url, r. repeat split; auto.
    destruct (rent_result (data r) fullPostcode (prop req_body "bedrooms"));
      [now injection Hres as -> | discriminate Hres].
  - rewrite (valuation_rent_run _ _ _ H _ _ Run) in Hres. discriminate Hres.
Qed.

(** The rent path ends on the payload it has settled on, or with the 404
    reply when there is none. *)
Lemma rent_valuation_payload (fullPostcode : string) (bedrooms : value) :
  exists calls,
    rent_valuation fullPostcode (getOutcode fullPostcode) bedrooms []
    = match rent_payload fullPostcode with
      | Some d => rent_finish fullPostcode bedrooms calls d
      | None => (calls, Ok no_rental_data)
      end.
Proof.
  rewrite rent_valuation_run. unfold rent_payload. cbv zeta. simpl app.
  set (outcode := getOutcode fullPostcode).
  set (url1 := demand_rent_url outcode).
  set (url2 := demand_rent_url (Str.slice_0_neg 1 outcode)).
  assert (Hlm : forall calls,
    exists calls',
      rent_local_market fullPostcode bedrooms calls
      = match match axios_get (local_market_url fullPostcode) with
              | Resolved r => Some (data r)
              | Rejected _ _ => None
              end with
        | Some d => rent_finish fullPostcode bedrooms calls' d
        | None => (calls', Ok no_rental_data)
        end).
  { intros calls. exists (calls ++ [local_market_url fullPostcode])%list.
    unfold rent_local_market.
    now destruct (axios_get (local_market_url fullPostcode)). }
  destruct (success url1) as [d1|]; [now exists [url1]|].
  destruct (3 <? length outcode)%nat; cbv iota; [|apply Hlm].
  destruct (success url2) as [d2|]; [now exists [url1; url2] | apply Hlm].
Qed.

(** A rent result is made from the payload the rent path has settled
    on. *)
Lemma rent_reply_from_payload (req_body : value) (raw fullPostcode : string)
  (res : value) :
  rent_request req_body raw fullPostcode ->
  snd (valuation req_body) = Json 200 res ->
  exists d,
    rent_payload fullPostcode = Some d /\
    rent_result d fullPostcode (prop req_body "bedrooms") = Ok res.
Proof.
  intros H Hres.
  destruct (rent_valuation_payload fullPostcode (prop req_body "bedrooms"))
    as [calls Run].
  destruct (rent_payload fullPostcode) as [d|].
  - exists d. split; [reflexivity|]. unfold rent_finish in Run.
    rewrite (valuation_rent_run _ _ _ H _ _ Run) in Hres. simpl in Hres.
    destruct (rent_result d fullPostcode (prop req_body "bedrooms"));
      [now injection Hres as -> | discriminate Hres].
  - rewrite (valuation_rent_run _ _ _ H _ _ Run) in Hres. discriminate Hres.
Qed.

Lemma adjust_numeric (baseRent : value) (k : string) (m : number) :
  truthy baseRent = true -> isNaN baseRent = Ok false ->
  In (k, m) multiplier_table ->
  adjust baseRent (VStr k)
  = Ok (VNum (Math_round (mul (parseFloat baseRent) m)),
        "Adjusted from area average (£" ++ toLocaleString (parseFloat baseRent)
        ++ ") for a " ++ k ++ "-bedroom property.").
Proof.
  intros T N Hin. unfold adjust. rewrite T, N. simpl in Hin |- *.
  destruct Hin as [E|[E|[E|[E|[]]]]]; injection E as <- <-; reflexivity.
Qed.

Lemma adjust_missing (baseRent bedrooms : value) :
  truthy baseRent = false \/ isNaN baseRent = Ok true ->
  adjust baseRent bedrooms = Ok (VStr "N/A", EmptyString).
Proof.
  intros [H|H]; unfold adjust; rewrite H; [reflexivity|].
  now destruct (truthy baseRent).
Qed.

Lemma parseFloat_number (x : number) :
  truthy (VNum x) = true ->
  parseFloat (VNum x) = x /\ isNaN (VNum x) = Ok false.
Proof. destruct x; simpl; try discriminate; auto. Qed.

(** C4, as amended — Every rent request answered with a result has
    obtained a payload, the one the rent path has settled on, and the
    result is made from it. If the payload's rent average is a number
    other than zero, averageRent is round(baseRent x multiplier[bedrooms])
    with the multipliers 0.8, 1.0, 1.3, 1.6 for 1 to 4 bedrooms (so 800,
    1000, 1300 and 1600 for a base of 1000) and the note is not null. For
    any other truthy value on which [isNaN] is false (true, a string, an
    array), averageRent is round(parseFloat(baseRent) x
    multiplier[bedrooms]), which need not be round(baseRent x multiplier),
    and the note is not null. If the rent average is absent, null, zero,
    the empty string or not numeric ([isNaN] is true), averageRent is
    "N/A" and the note is null. On a truthy rent average [isNaN] has
    returned, so these cases are all. *)
Theorem rent_adjustment (req_body : value) (raw fullPostcode : string)
  (res : value) :
  rent_request req_body raw fullPostcode ->
  snd (valuation req_body) = Json 200 res ->
  (exists d,
     rent_payload fullPostcode = Some d /\
     let baseRent := rent_average d in
     (forall x, baseRent = VNum x -> truthy (VNum x) = true ->
      exists k m note,
        prop req_body "bedrooms" = VStr k /\ In (k, m) multiplier_table /\
        prop res "averageRent" = VNum (Math_round (mul x m)) /\
        prop res "note" = VStr note) /\
     (truthy baseRent = true -> isNaN baseRent = Ok false ->
      exists k m note,
        prop req_body "bedrooms" = VStr k /\ In (k, m) multiplier_table /\
        prop res "averageRent"
        = VNum (Math_round (mul (parseFloat baseRent) m)) /\
        prop res "note" = VStr note) /\
     (truthy baseRent = false \/ isNaN baseRent = Ok true ->
      prop res "averageRent" = VStr "N/A" /\ prop res "note" = VNull) /\
     (truthy baseRent = true -> exists b, isNaN baseRent = Ok b)) /\
  List.map (fun km => Math_round (mul (of_Z 1000) (snd km))) multiplier_table
  = [of_Z 800; of_Z 1000; of_Z 1300; of_Z 1600].
Proof.
  intros H Hres. split; [|reflexivity].
  destruct (rent_reply_from_payload _ _ _ _ H Hres) as (d & Hd & Hrr).
  exists d. split; [exact Hd|].
  destruct (rent_result_fields _ _ _ _ Hrr)
    as (_ & _ & _ & _ & _ & _ & _ & _ & _ & a & n & Hadj & Havg & Hnote).
  destruct (rent_request_bedrooms _ _ _ H) as (k & m & Hk & Hm).
  cbv zeta. unfold rent_average.
  set (baseRent := get_opt (prop d "rent") "average") in *.
  assert (Hnum : truthy baseRent = true -> isNaN baseRent = Ok false ->
    exists k m note,
      prop req_body "bedrooms" = VStr k /\ In (k, m) multiplier_table /\
      prop res "averageRent"
      = VNum (Math_round (mul (parseFloat baseRent) m)) /\
      prop res "note" = VStr note).
  { intros T N. exists k, m. rewrite Hk in Hadj.
    rewrite (adjust_numeric _ _ _ T N Hm) in Hadj. injection Hadj as <- <-.
    unfold or_else in Hnote. simpl in Hnote. eauto 10. }
  split; [|split; [exact Hnum|split]].
  - intros x Ex Tx. destruct (parseFloat_number x Tx) as [Px Nx].
    rewrite Ex in Hnum. rewrite Px in Hnum. now apply Hnum.
  - intros Hm'. rewrite (adjust_missing _ _ Hm') in Hadj.
    injection Hadj as <- <-. now split.
  - intros T. unfold adjust in Hadj. rewrite T in Hadj.
    destruct (isNaN baseRent) as [b|e]; [now exists b | discriminate Hadj].
Qed.

(** ** The sale path, from the request to the reply *)

Lemma sold_prices_try_Ok (url : string) (d : value) :
  sold_prices_try url = Ok d ->
  nullish d = false /\ is_str "error" (prop d "status") = false /\
  exists r, axios_get url = Resolved r /\ data r = d.
Proof.
  unfold sold_prices_try. destruct (axios_get url) as [r|c r]; [|discriminate].
  destruct (nullish (data r)) eqn:N; [discriminate|].
  destruct (is_str "error" (prop (data r) "status")) eqn:E; [discriminate|].
  intros [= <-]. repeat split; auto. now exists r.
Qed.

Lemma valuation_sale_run (req_body : value) (raw fullPostcode : string) :
  sale_request req_body raw fullPostcode ->
  forall calls r,
    sale_valuation fullPostcode (prop req_body "propertyType") []
    = (calls, r) ->
    valuation req_body
    = (calls, match r with Ok x => x | Throw _ => unexpected_error end).
Proof.
  intros H calls r E. rewrite (valuation_sale_request _ _ _ H), respond_run.
  now rewrite E.
Qed.

Lemma sale_request_type (req_body : value) (raw fullPostcode : string) :
  sale_request req_body raw fullPostcode ->
  exists t, In t validPropertyTypes /\ prop req_body "propertyType" = VStr t /\
            is_str "all" (prop req_body "propertyType") = false.
Proof.
  intros ([_ Hv] & _ & _). apply validate_None in Hv.
  destruct Hv as (_ & _ & _ & Ht & _). apply includes_str_one_of in Ht.
  destruct Ht as (t & Hin & ->). exists t. repeat split; auto.
  simpl in Hin. now destruct Hin as [<-|[<-|[<-|[<-|[<-|[<-|[]]]]]]].
Qed.

Lemma sale_result_fields (d : value) (fullPostcode : string)
  (propertyType usedType : value) :
  let res := sale_result d fullPostcode propertyType usedType in
  prop res "type" = VStr "sale" /\
  prop res "postcode" = or_else (prop d "postcode") (VStr fullPostcode) /\
  prop res "average"
  = or_else (get_opt (prop d "data") "average") (VStr "N/A") /\
  prop res "range70"
  = or_else (get_opt (prop d "data") "70pc_range") (VArr []) /\
  prop res "range90"
  = or_else (get_opt (prop d "data") "90pc_range") (VArr []) /\
  prop res "pointsAnalysed"
  = or_else (get_opt (prop d "data") "points_analysed") (VNum (of_Z 0)) /\
  (is_str "all" usedType = false ->
   prop res "note" = VNull /\ prop res "propertyType" = propertyType) /\
  (is_str "all" usedType = true ->
   exists note, prop res "note" = VStr note /\
     prop res "propertyType"
     = VStr (ToString propertyType ++ " (not found – showing area average)")).
Proof.
  cbv zeta. unfold sale_result. do 6 (split; [reflexivity|]). split.
  - intros H. simpl. now rewrite H.
  - intros H. simpl. rewrite H. eauto.
Qed.

(** The first call succeeds: it is the only call, and the result has the
    requested type and a null note. *)
Lemma sale_first_call_succeeds (req_body : value) (raw fullPostcode : string)
  (d : value) :
  sale_request req_body raw fullPostcode ->
  let propertyType := prop req_body "propertyType" in
  let url1 := sold_prices_url fullPostcode (Some (ToString propertyType)) in
  sold_prices_try url1 = Ok d ->
  valuation req_body
  = ([url1], Json 200 (sale_result d fullPostcode propertyType propertyType)) /\
  prop (sale_result d fullPostcode propertyType propertyType) "note" = VNull.
Proof.
  intros H propertyType url1 Hd.
  pose proof (sale_valuation_run fullPostcode propertyType []) as Run.
  cbv zeta in Run. fold url1 in Run. rewrite Hd in Run. split.
  - now rewrite (valuation_sale_run _ _ _ H _ _ Run).
  - destruct (sale_request_type _ _ _ H) as (t & _ & _ & Hall).
    now apply sale_result_fields.
Qed.

(** The first call is rejected with the "type unsupported" pattern in the
    body of the error response: the same endpoint is called again without
    the type, and when that succeeds the result says so. *)
Lemma sale_retry_after_rejection (req_body : value) (raw fullPostcode : string)
  (e : exn) (d : value) :
  sale_request req_body raw fullPostcode ->
  let propertyType := prop req_body "propertyType" in
  let url1 := sold_prices_url fullPostcode (Some (ToString propertyType)) in
  let url2 := sold_prices_url fullPostcode None in
  sold_prices_try url1 = Throw e ->
  type_unsupported e = Ok true ->
  sold_prices_try url2 = Ok d ->
  let res := sale_result d fullPostcode propertyType (VStr "all") in
  valuation req_body = ([url1; url2], Json 200 res) /\
  exists note, prop res "note" = VStr note /\
    prop res "propertyType"
    = VStr (ToString propertyType ++ " (not found – showing area average)").
Proof.
  intros H propertyType url1 url2 He Hu Hd res.
  pose proof (sale_valuation_run fullPostcode propertyType []) as Run.
  cbv zeta in Run. fold url1 url2 in Run. rewrite He, Hu, Hd in Run. split.
  - now rewrite (valuation_sale_run _ _ _ H _ _ Run).
  - now apply sale_result_fields.
Qed.

(** C3 — What the code does where the claim asks for a retry: when the
    first sold-prices call is answered with a body whose status field says
    "error" and which carries the "type unsupported" code and message, the
    error thrown has no response attached, the test of the catch fails,
    and the request ends with the 500 reply after that single call. *)
Theorem unsupported_type_in_answer_not_retried
  (req_body : value) (raw fullPostcode : string) (r : response) :
  sale_request req_body raw fullPostcode ->
  let url1 := sold_prices_url fullPostcode
                (Some (ToString (prop req_body "propertyType"))) in
  axios_get url1 = Resolved r ->
  is_str "error" (prop (data r) "status") = true ->
  carries_unsupported (axios_get url1) = true ->
  valuation req_body
  = ([url1],
     Json 500 (error_body "Failed to fetch valuation. Please try again later.")).
Proof.
  intros H url1 Hr He _.
  pose proof (sale_valuation_run fullPostcode (prop req_body "propertyType") [])
    as Run.
  cbv zeta in Run. fold url1 in Run.
  assert (Ht : sold_prices_try url1 = Throw PlainError).
  { unfold sold_prices_try. rewrite Hr, He.
    destruct (data r); simpl in He; try discriminate He; reflexivity. }
  rewrite Ht in Run. simpl in Run.
  now rewrite (valuation_sale_run _ _ _ H _ _ Run).
Qed.

(** C2, as amended — For every sale request, a failure of the fallback
    call (the one without the type) ends the request with the 404 "no
    recent sale data" error; an error on the first sold-prices call whose
    answer does not carry the "type unsupported" pattern ends the request
    with the generic 500 error, after that single call. *)
Theorem sale_error_classes (req_body : value) (raw fullPostcode : string) :
  sale_request req_body raw fullPostcode ->
  let propertyType := prop req_body "propertyType" in
  let url1 := sold_prices_url fullPostcode (Some (ToString propertyType)) in
  let url2 := sold_prices_url fullPostcode None in
  (forall e e2,
     sold_prices_try url1 = Throw e -> type_unsupported e = Ok true ->
     sold_prices_try url2 = Throw e2 ->
     valuation req_body
     = ([url1; url2],
        Json 404 (error_body
          ("No recent sale data for " ++ ToString propertyType
           ++ " properties in " ++ fullPostcode
           ++ ". This area may not have this property type.")))) /\
  (forall e,
     sold_prices_try url1 = Throw e ->
     carries_unsupported (axios_get url1) = false ->
     valuation req_body
     = ([url1],
        Json 500 (error_body
          "Failed to fetch valuation. Please try again later."))).
Proof.
  intros H propertyType url1 url2.
  pose proof (sale_valuation_run fullPostcode propertyType []) as Run.
  cbv zeta in Run. fold url1 url2 in Run. split.
  - intros e e2 He Hu He2. rewrite He, Hu, He2 in Run.
    now rewrite (valuation_sale_run _ _ _ H _ _ Run).
  - intros e He Hc. rewrite He in Run.
    assert (Hu : type_unsupported e <> Ok true).
    { unfold sold_prices_try in He. unfold carries_unsupported in Hc.
      destruct (axios_get url1) as [r|c [r|]].
      - destruct (nullish (data r)); [now injection He as <-|].
        destruct (is_str "error" (prop (data r) "status"));
          [now injection He as <- | discriminate He].
      - injection He as <-. simpl.
        destruct (body_unsupported (data r)) as [[|]|]; congruence.
      - now injection He as <-. }
    destruct (type_unsupported e) as [[|]|e']; [congruence| |];
      now rewrite (valuation_sale_run _ _ _ H _ _ Run).
Qed.

(** C9 — For the request with postalCode "sw1a1aa", propertyType "flat" and
    purpose "sale", the postcode stage yields "SW1A 1AA" with outcode
    "SW1A"; and when the first sold-prices call succeeds with a payload
    whose data block has average 500000, 70pc_range [400000, 600000] and
    points_analysed 42 (and no postcode of its own other than that one),
    the result has type
    "sale", postcode "SW1A 1AA", that average, that range, 42 points and a
    null note. *)
Theorem sale_scenario (req_body payload : value) (r : response) :
  prop req_body "postalCode" = VStr "sw1a1aa" ->
  prop req_body "propertyType" = VStr "flat" ->
  prop req_body "purpose" = VStr "sale" ->
  let url := sold_prices_url "SW1A 1AA" (Some "flat") in
  axios_get url = Resolved r ->
  data r = payload ->
  is_str "error" (prop payload "status") = false ->
  (truthy (prop payload "postcode") = false \/
   prop payload "postcode" = VStr "SW1A 1AA") ->
  prop (prop payload "data") "average" = VNum (of_Z 500000) ->
  prop (prop payload "data") "70pc_range"
  = VArr [VNum (of_Z 400000); VNum (of_Z 600000)] ->
  prop (prop payload "data") "points_analysed" = VNum (of_Z 42) ->
  recover_postcode "sw1a1aa" = Some "SW1A 1AA" /\
  getOutcode "SW1A 1AA" = "SW1A" /\
  exists res,
    valuation req_body = ([url], Json 200 res) /\
    prop res "type" = VStr "sale" /\
    prop res "postcode" = VStr "SW1A 1AA" /\
    prop res "average" = VNum (of_Z 500000) /\
    prop res "range70" = VArr [VNum (of_Z 400000); VNum (of_Z 600000)] /\
    prop res "pointsAnalysed" = VNum (of_Z 42) /\
    prop res "note" = VNull.
Proof.
  intros Hpc Hpt Hpu url Hr Hd Hst Hpost Havg Hr70 Hpts.
  split; [reflexivity|]. split; [reflexivity|].
  assert (Hreq : sale_request req_body "sw1a1aa" "SW1A 1AA").
  { repeat split; auto.
    - rewrite Hpc, Hpt, Hpu. reflexivity.
    - now rewrite Hpu. }
  assert (Hnn : nullish payload = false).
  { destruct payload; simpl in Havg; try discriminate Havg; reflexivity. }
  assert (Htry : sold_prices_try url = Ok payload).
  { unfold sold_prices_try. now rewrite Hr, Hd, Hnn, Hst. }
  pose proof (sale_first_call_succeeds _ _ _ payload Hreq) as Hfirst.
  cbv zeta in Hfirst. rewrite Hpt in Hfirst. simpl ToString in Hfirst.
  destruct (Hfirst Htry) as [Hval Hnote].
  eexists. split; [exact Hval|].
  pose proof (sale_result_fields payload "SW1A 1AA" (VStr "flat") (VStr "flat"))
    as F.
  cbv zeta in F.
  destruct F as (F1 & F2 & F3 & F4 & _ & F6 & _).
  assert (Hdata : nullish (prop payload "data") = false).
  { destruct (prop payload "data"); simpl in Havg; try discriminate Havg;
      reflexivity. }
  unfold get_opt in F3, F4, F6. rewrite Hdata in F3, F4, F6.
  rewrite Havg in F3. rewrite Hr70 in F4. rewrite Hpts in F6.
  assert (F2' : prop (sale_result payload "SW1A 1AA" (VStr "flat") (VStr "flat"))
                  "postcode" = VStr "SW1A 1AA").
  { unfold or_else in F2. destruct Hpost as [E|E]; now rewrite E in F2. }
  repeat split; auto.
Qed.

Lemma sale_reply_payload (req_body : value) (raw fullPostcode : string)
  (res : value) :
  sale_request req_body raw fullPostcode ->
  snd (valuation req_body) = Json 200 res ->
  exists url r usedType,
    In url (fst (valuation req_body)) /\ axios_get url = Resolved r /\
    res = sale_result (data r) fullPostcode (prop req_body "propertyType")
            usedType.
Proof.
  intros H Hres.
  pose proof (sale_valuation_run fullPostcode (prop req_body "propertyType") [])
    as Run.
  cbv zeta in Run.
  set (url1 := sold_prices_url fullPostcode
                 (Some (ToString (prop req_body "propertyType")))) in *.
  set (url2 := sold_prices_url fullPostcode None) in *.
  destruct (sold_prices_try url1) as [d|e] eqn:T1.
  - rewrite (valuation_sale_run _ _ _ H _ _ Run) in Hres |- *.
    simpl in Hres |- *. injection Hres as <-.
    destruct (sold_prices_try_Ok _ _ T1) as (_ & _ & r & Hr & <-).
    exists url1, r, (prop req_body "propertyType"). repeat split; auto.
  - destruct (type_unsupported e) as [[|]|e'].
    + destruct (sold_prices_try url2) as [d|e2] eqn:T2;
        rewrite (valuation_sale_run _ _ _ H _ _ Run) in Hres |- *;
        simpl in Hres |- *; [|discriminate Hres].
      injection Hres as <-.
      destruct (sold_prices_try_Ok _ _ T2) as (_ & _ & r & Hr & <-).
      exists url2, r, (VStr "all"). repeat split; auto.
    + rewrite (valuation_sale_run _ _ _ H _ _ Run) in Hres. discriminate Hres.
    + rewrite (valuation_sale_run _ _ _ H _ _ Run) in Hres. discriminate Hres.
Qed.

(** C10 — In a result, a field that is read with [||] and a default takes
    the default whenever the payload's value is falsy, so also when it is
    the number 0 or the empty string: daysOnMarket and the other rent
    fields become "N/A", a rent average of 0 gives averageRent "N/A",
    originalAverageRent "N/A" and a null note, and in a sale result
    average becomes "N/A", the ranges empty and pointsAnalysed 0. *)
Theorem falsy_fields_take_the_default :
  (forall req_body raw fullPostcode res,
     rent_request req_body raw fullPostcode ->
     snd (valuation req_body) = Json 200 res ->
     exists url r,
       In url (fst (valuation req_body)) /\ axios_get url = Resolved r /\
       let d := data r in
       (truthy (prop d "postcode") = false ->
        prop res "postcode" = VStr fullPostcode) /\
       (truthy (prop d "rental_demand_rating") = false ->
        truthy (prop d "demand_rating") = false ->
        prop res "rentalDemand" = VStr "N/A") /\
       (truthy (prop d "total_for_rent") = false ->
        prop res "totalForRent" = VStr "N/A") /\
       (truthy (prop d "days_on_market") = false ->
        prop res "daysOnMarket" = VStr "N/A") /\
       (truthy (prop d "months_of_inventory") = false ->
        prop res "monthsOfInventory" = VStr "N/A") /\
       (truthy (get_opt (prop d "yield") "average") = false ->
        prop res "yield" = VStr "N/A") /\
       (truthy (get_opt (prop d "rent") "average") = false ->
        prop res "averageRent" = VStr "N/A" /\
        prop res "originalAverageRent" = VStr "N/A" /\
        prop res "note" = VNull)) /\
  (forall req_body raw fullPostcode res,
     sale_request req_body raw fullPostcode ->
     snd (valuation req_body) = Json 200 res ->
     exists url r,
       In url (fst (valuation req_body)) /\ axios_get url = Resolved r /\
       let d := data r in
       (truthy (prop d "postcode") = false ->
        prop res "postcode" = VStr fullPostcode) /\
       (truthy (get_opt (prop d "data") "average") = false ->
        prop res "average" = VStr "N/A") /\
       (truthy (get_opt (prop d "data") "70pc_range") = false ->
        prop res "range70" = VArr []) /\
       (truthy (get_opt (prop d "data") "90pc_range") = false ->
        prop res "range90" = VArr []) /\
       (truthy (get_opt (prop d "data") "points_analysed") = false ->
        prop res "pointsAnalysed" = VNum (of_Z 0))) /\
  truthy (VNum (of_Z 0)) = false /\ truthy (VStr EmptyString) = false.
Proof.
  split; [|split; [|split; reflexivity]].
  - intros req_body raw fullPostcode res H Hres.
    destruct (rent_reply_payload _ _ _ _ H Hres) as (url & r & Hin & Hr & Hrr).
    exists url, r. split; [exact Hin|]. split; [exact Hr|].
    destruct (rent_result_fields _ _ _ _ Hrr)
      as (_ & _ & F1 & F2 & F3 & F4 & F5 & F7 & F8 & a & n & Ha & F6 & F9).
    cbv zeta. unfold or_else in F1, F2, F3, F4, F5, F7, F8.
    split; [intros E; now rewrite E in F1|].
    split; [intros E1 E2; rewrite E1 in F2; now rewrite E2 in F2|].
    split; [intros E; now rewrite E in F3|].
    split; [intros E; now rewrite E in F4|].
    split; [intros E; now rewrite E in F5|].
    split; [intros E; now rewrite E in F8|].
    intros E. rewrite (adjust_missing _ _ (or_introl E)) in Ha.
    injection Ha as <- <-. rewrite E in F7. auto.
  - intros req_body raw fullPostcode res H Hres.
    destruct (sale_reply_payload _ _ _ _ H Hres)
      as (url & r & used & Hin & Hr & ->).
    exists url, r. split; [exact Hin|]. split; [exact Hr|].
    pose proof (sale_result_fields (data r) fullPostcode
                  (prop req_body "propertyType") used) as F.
    cbv zeta in F. destruct F as (_ & F1 & F2 & F3 & F4 & F5 & _).
    cbv zeta. unfold or_else in *.
    split; [intros E; now rewrite E in F1|].
    split; [intros E; now rewrite E in F2|].
    split; [intros E; now rewrite E in F3|].
    split; [intros E; now rewrite E in F4|].
    intros E. now rewrite E in F5.
Qed.

(** * Further properties of the postcode helpers *)

Lemma upper_keeps_space (c : ascii) :
  Char.is_space (Char.upper c) = Char.is_space c.
Proof. each_char c; reflexivity. Qed.

Lemma no_lead_trimStart (s : string) : no_lead (Str.trimStart s) = true.
Proof.
  induction s as [|c s IH]; simpl; [reflexivity|].
  destruct (Char.is_space c) eqn:E; [exact IH|]. simpl. now rewrite E.
Qed.

Lemma trimStart_fixed (s : string) :
  no_lead s = true -> Str.trimStart s = s.
Proof.
  destruct s as [|c s]; simpl; [reflexivity|].
  now destruct (Char.is_space c).
Qed.


Lemma no_trail_trimEnd (s : string) : no_trail (Str.trimEnd s) = true.
Proof.
  induction s as [|c s IH]; simpl; [reflexivity|].
  destruct (Char.is_space c) eqn:E; simpl.
  - destruct (Str.trimEnd s) as [|d t] eqn:T; simpl; [reflexivity|].
    exact IH.
  - destruct (Str.trimEnd s) as [|d t] eqn:T; simpl;
      [now rewrite E | exact IH].
Qed.

Lemma trimEnd_fixed (s : string) :
  no_trail s = true -> Str.trimEnd s = s.
Proof.
  induction s as [|c s IH]; simpl; [reflexivity|].
  destruct s as [|d t].
  - simpl. intros H. apply negb_true_iff in H. now rewrite H.
  - intros H. change (Str.is_empty (String d t)) with false in H.
    cbv iota in H. rewrite (IH H). simpl. now rewrite andb_false_r.
Qed.

Lemma no_lead_trimEnd (s : string) :
  no_lead s = true -> no_lead (Str.trimEnd s) = true.
Proof.
  destruct s as [|c s]; simpl; [reflexivity|].
  intros H. apply negb_true_iff in H. rewrite H. simpl. now rewrite H.
Qed.

Lemma no_lead_trim (s : string) : no_lead (Str.trim s) = true.
Proof. apply no_lead_trimEnd, no_lead_trimStart. Qed.

Lemma no_trail_trim (s : string) : no_trail (Str.trim s) = true.
Proof. apply no_trail_trimEnd. Qed.

Lemma trim_fixed (s : string) :
  no_lead s = true -> no_trail s = true -> Str.trim s = s.
Proof.
  intros H1 H2. unfold Str.trim. rewrite (trimStart_fixed _ H1).
  now apply trimEnd_fixed.
Qed.

Lemma no_lead_toUpperCase (s : string) :
  no_lead (Str.toUpperCase s) = no_lead s.
Proof. destruct s as [|c s]; simpl; [reflexivity|]. now rewrite upper_keeps_space. Qed.

Lemma is_empty_map (f : ascii -> ascii) (s : string) :
  Str.is_empty (Str.map f s) = Str.is_empty s.
Proof. now destruct s. Qed.

Lemma no_trail_toUpperCase (s : string) :
  no_trail (Str.toUpperCase s) = no_trail s.
Proof.
  unfold Str.toUpperCase. induction s as [|c s IH]; simpl; [reflexivity|].
  now rewrite is_empty_map, upper_keeps_space, IH.
Qed.

Lemma no_lead_replace_space_runs (s : string) :
  no_lead s = true -> no_lead (replace_space_runs " " false s) = true.
Proof.
  destruct s as [|c s]; simpl; [reflexivity|].
  intros H. apply negb_true_iff in H. rewrite H. simpl. now rewrite H.
Qed.

Lemma replace_space_runs_not_empty (s : string) :
  forall b, no_trail s = true -> Str.is_empty s = false ->
            Str.is_empty (replace_space_runs " " b s) = false.
Proof.
  induction s as [|c s IH]; intros b H N; [discriminate N|]. simpl in *.
  destruct s as [|d t].
  - simpl in H. apply negb_true_iff in H. now rewrite H.
  - change (Str.is_empty (String d t)) with false in H. cbv iota in H.
    destruct (Char.is_space c); [|reflexivity].
    destruct b; [|reflexivity]. now apply IH.
Qed.

Lemma no_trail_replace_space_runs (s : string) :
  forall b, no_trail s = true -> no_trail (replace_space_runs " " b s) = true.
Proof.
  induction s as [|c s IH]; intros b H; [reflexivity|]. simpl in *.
  destruct s as [|d t].
  - simpl in H |- *. apply negb_true_iff in H. rewrite H. simpl. now rewrite H.
  - change (Str.is_empty (String d t)) with false in H. cbv iota in H.
    assert (N : forall b', Str.is_empty (replace_space_runs " " b' (String d t))
                           = false)
      by (intros b'; now apply replace_space_runs_not_empty).
    destruct (Char.is_space c).
    + destruct b; [now apply IH|].
      change (no_trail (String " " (replace_space_runs " " true (String d t)))
              = true).
      cbn [no_trail]. rewrite N. now apply IH.
    + change (no_trail (String c (replace_space_runs " " false (String d t)))
              = true).
      cbn [no_trail]. rewrite N. now apply IH.
Qed.

Lemma single_spaced_replace_space_runs (s : string) :
  forall b, single_spaced b (replace_space_runs " " b s) = true.
Proof.
  induction s as [|c s IH]; intros b; simpl; [reflexivity|].
  destruct (Char.is_space c) eqn:E.
  - destruct b; [apply IH|]. simpl. apply IH.
  - simpl. rewrite E. apply IH.
Qed.

Lemma replace_space_runs_fixed (s : string) :
  forall b, single_spaced b s = true -> replace_space_runs " " b s = s.
Proof.
  induction s as [|c s IH]; intros b H; simpl in *; [reflexivity|].
  destruct (Char.is_space c).
  - apply andb_true_iff in H. destruct H as [H Hs].
    apply andb_true_iff in H. destruct H as [Hb Hc].
    apply negb_true_iff in Hb. subst b.
    apply Ascii.eqb_eq in Hc. subst c. now rewrite (IH true Hs).
  - now rewrite (IH false H).
Qed.

Lemma toUpperCase_fixed (s : string) :
  no_lower s = true -> Str.toUpperCase s = s.
Proof.
  unfold no_lower, Str.toUpperCase.
  induction s as [|c s IH]; simpl; [reflexivity|].
  intros H. apply andb_true_iff in H. destruct H as [Hc Hs].
  apply negb_true_iff in Hc. unfold Char.upper at 1. rewrite Hc.
  now rewrite (IH Hs).
Qed.

(** A string that is trimmed, in upper case and single-spaced is left as
    it is by the normaliser. *)
Lemma normalizePostcode_fixed (s : string) :
  no_lead s = true -> no_trail s = true -> no_lower s = true ->
  single_spaced false s = true ->
  normalizePostcode s = s.
Proof.
  intros H1 H2 H3 H4. rewrite normalizePostcode_steps.
  rewrite (trim_fixed _ H1 H2), (toUpperCase_fixed _ H3).
  now apply replace_space_runs_fixed.
Qed.

(** X1 — Normalising twice is normalising once: the output of
    [normalizePostcode] is trimmed, in upper case and single-spaced, and
    such a string is left as it is. *)
Theorem normalizePostcode_idempotent (pc : string) :
  normalizePostcode (normalizePostcode pc) = normalizePostcode pc.
Proof.
  apply normalizePostcode_fixed.
  - rewrite normalizePostcode_steps. apply no_lead_replace_space_runs.
    rewrite no_lead_toUpperCase. apply no_lead_trim.
  - rewrite normalizePostcode_steps. apply no_trail_replace_space_runs.
    rewrite no_trail_toUpperCase. apply no_trail_trim.
  - apply no_lower_normalizePostcode.
  - rewrite normalizePostcode_steps. apply single_spaced_replace_space_runs.
Qed.

(** ** The shape of a valid postcode *)

Lemma upper_word_char (c : ascii) :
  Char.is_upper c || Char.is_digit c = true ->
  Char.is_space c = false /\ Char.is_lower c = false /\
  Ascii.eqb c " " = false /\
  (Char.is_upper c || Char.is_lower c || Char.is_digit c) = true.
Proof. each_char c; intros H; solve [discriminate H | repeat split]. Qed.

Lemma forallb_impl (p q : ascii -> bool) (s : string) :
  (forall c, p c = true -> q c = true) ->
  Str.forallb p s = true -> Str.forallb q s = true.
Proof.
  intros Hpq. induction s as [|c s IH]; simpl; [reflexivity|].
  intros H. apply andb_true_iff in H. destruct H as [Hc Hs].
  now rewrite (Hpq c Hc), (IH Hs).
Qed.

Lemma upper_word_no_lower (w : string) :
  upper_word w = true -> no_lower w = true.
Proof.
  apply forallb_impl. intros c H.
  destruct (upper_word_char c H) as (_ & -> & _). reflexivity.
Qed.

Lemma upper_word_word (w : string) : upper_word w = true -> word w = true.
Proof.
  apply forallb_impl. intros c H.
  now destruct (upper_word_char c H) as (_ & _ & _ & ->).
Qed.

Lemma upper_word_append (a b : string) :
  upper_word (a ++ b) = upper_word a && upper_word b.
Proof. apply forallb_append. Qed.

Lemma take_append (a b : string) : Str.take (length a) (a ++ b) = a.
Proof. induction a as [|c a IH]; simpl; [now destruct b | now rewrite IH]. Qed.

Lemma drop_append (a b : string) : Str.drop (length a) (a ++ b) = b.
Proof. induction a as [|c a IH]; simpl; [now destruct b | exact IH]. Qed.

Lemma string_append_length (a b : string) :
  length (a ++ b) = (length a + length b)%nat.
Proof. induction a as [|c a IH]; simpl; [reflexivity | now rewrite IH]. Qed.

Lemma filter_append (p : ascii -> bool) (a b : string) :
  Str.filter p (a ++ b) = Str.filter p a ++ Str.filter p b.
Proof.
  induction a as [|c a IH]; simpl; [reflexivity|].
  destruct (p c); simpl; now rewrite IH.
Qed.

Lemma filter_all (p : ascii -> bool) (s : string) :
  Str.forallb p s = true -> Str.filter p s = s.
Proof.
  induction s as [|c s IH]; simpl; [reflexivity|].
  intros H. apply andb_true_iff in H. destruct H as [-> Hs].
  now rewrite (IH Hs).
Qed.

Lemma filter_map (p : ascii -> bool) (f : ascii -> ascii) (s : string) :
  (forall c, p (f c) = p c) ->
  Str.filter p (Str.map f s) = Str.map f (Str.filter p s).
Proof.
  intros H. induction s as [|c s IH]; simpl; [reflexivity|].
  rewrite H. destruct (p c); simpl; now rewrite IH.
Qed.

Lemma alphanumerics_upper (s : string) :
  alphanumerics (Str.toUpperCase s) = Str.toUpperCase (alphanumerics s).
Proof.
  apply filter_map. intros c. each_char c; reflexivity.
Qed.

Lemma split_head_word (out rest : string) :
  upper_word out = true ->
  Str.split_head " " (out ++ String " " rest) = out.
Proof.
  induction out as [|c out IH]; simpl; [reflexivity|].
  intros H. apply andb_true_iff in H. destruct H as [Hc Hs].
  destruct (upper_word_char c Hc) as (_ & _ & -> & _).
  now rewrite (IH Hs).
Qed.

Lemma split_head_upper (s : string) :
  Str.split_head " " (Str.toUpperCase s)
  = Str.toUpperCase (Str.split_head " " s).
Proof.
  unfold Str.toUpperCase. induction s as [|c s IH]; simpl; [reflexivity|].
  replace (Ascii.eqb (Char.upper c) " ") with (Ascii.eqb c " ")
    by (each_char c; reflexivity).
  destruct (Ascii.eqb c " "); simpl; [reflexivity | now rewrite IH].
Qed.

(** A string is its head up to the first space, alone or followed by that
    space and the rest. *)
Lemma split_head_rest (s : string) :
  s = Str.split_head " " s \/
  s = Str.split_head " " s
      ++ String " " (Str.drop (S (length (Str.split_head " " s))) s).
Proof.
  induction s as [|c s IH]; simpl; [now left|].
  destruct (Ascii.eqb c " ") eqn:E.
  - right. apply Ascii.eqb_eq in E. subst c. simpl. now destruct s.
  - destruct IH as [IH|IH]; [left | right]; simpl; f_equal; exact IH.
Qed.

(** The two words of a canonical postcode. *)
Lemma canonical_postcode_words (t : string) :
  canonical_postcode t ->
  exists out inw,
    t = out ++ String " " inw /\
    upper_word out = true /\ upper_word inw = true /\
    (2 <= length out <= 4)%nat /\ length inw = 3%nat.
Proof.
  intros [area d opt i u1 u2 Hlen Harea Hd Hopt Hi Hu1 Hu2].
  exists (area ++ String d opt), (String i (String u1 (String u2 EmptyString))).
  assert (Hdw : Char.is_upper d || Char.is_digit d = true).
  { destruct Hd as [Hd | ->]; [|reflexivity].
    unfold digit in Hd. rewrite Hd. apply orb_true_r. }
  assert (Hoptw : upper_word opt = true /\ (length opt <= 1)%nat).
  { destruct Hopt as [-> | (c & -> & Hc)]; [split; [reflexivity | simpl; lia]|].
    split; [|simpl; lia]. unfold upper_word. simpl. rewrite andb_true_r.
    unfold digit, letter in Hc. destruct Hc as [Hc|Hc]; rewrite Hc;
      [apply orb_true_r | reflexivity]. }
  destruct Hoptw as [Hoptw Hoptl].
  split; [now rewrite append_assoc|]. split; [|split; [|split]].
  - rewrite upper_word_append. unfold upper_word in *. simpl.
    rewrite Hdw, Hoptw.
    rewrite (forallb_impl _ _ area
               (fun c H => orb_true_intro _ _ (or_introl H)) Harea).
    reflexivity.
  - unfold upper_word, digit, letter in *. simpl.
    rewrite Hi, Hu1, Hu2. now rewrite orb_true_r.
  - rewrite string_append_length. simpl. lia.
  - reflexivity.
Qed.

Lemma upper_word_no_space_runs (w : string) :
  forall b, upper_word w = true -> single_spaced b w = true.
Proof.
  induction w as [|c w IH]; intros b H; simpl in *; [reflexivity|].
  apply andb_true_iff in H. destruct H as [Hc Hs].
  destruct (upper_word_char c Hc) as (-> & _). now apply IH.
Qed.

Lemma upper_word_no_trail (w : string) :
  upper_word w = true -> no_trail w = true.
Proof.
  induction w as [|c w IH]; simpl; [reflexivity|].
  intros H. apply andb_true_iff in H. destruct H as [Hc Hs].
  destruct (upper_word_char c Hc) as (-> & _).
  destruct (Str.is_empty w); [reflexivity | now apply IH].
Qed.

Lemma no_trail_append (a b : string) :
  Str.is_empty b = false -> no_trail (a ++ b) = no_trail b.
Proof.
  intros N. induction a as [|c a IH]; simpl; [reflexivity|].
  replace (Str.is_empty (a ++ b)) with false; [exact IH|].
  destruct a; simpl; [now rewrite N | reflexivity].
Qed.

Lemma single_spaced_after_word (w rest : string) (b : bool) :
  upper_word w = true ->
  single_spaced b (w ++ rest)
  = single_spaced (if Str.is_empty w then b else false) rest.
Proof.
  revert b. induction w as [|c w IH]; intros b H; [reflexivity|].
  unfold upper_word in H. simpl in H |- *.
  apply andb_true_iff in H. destruct H as [Hc Hw].
  destruct (upper_word_char c Hc) as (-> & _).
  rewrite (IH false Hw). now destruct (Str.is_empty w).
Qed.

(** A canonical postcode is trimmed, in upper case and single-spaced. *)
Lemma canonical_postcode_tidy (t : string) :
  canonical_postcode t ->
  no_lead t = true /\ no_trail t = true /\ no_lower t = true /\
  single_spaced false t = true.
Proof.
  intros H. destruct (canonical_postcode_words t H)
    as (out & inw & -> & Hout & Hinw & Hlo & Hli).
  destruct out as [|c out]; [simpl in Hlo; lia|].
  destruct inw as [|i inw]; [discriminate Hli|].
  split; [|split; [|split]].
  - simpl. unfold upper_word in Hout. simpl in Hout.
    apply andb_true_iff in Hout. destruct Hout as [Hc _].
    now destruct (upper_word_char c Hc) as (-> & _).
  - rewrite no_trail_append by reflexivity.
    change (no_trail (String " " (String i inw)))
      with (no_trail (String i inw)).
    now apply upper_word_no_trail.
  - apply no_lower_append. split; [now apply upper_word_no_lower|].
    change (no_lower (String " " (String i inw)))
      with (no_lower (String i inw)).
    now apply upper_word_no_lower.
  - rewrite (single_spaced_after_word _ _ _ Hout).
    change (single_spaced true (String i inw) = true).
    now apply upper_word_no_space_runs.
Qed.

Lemma canonical_postcode_valid (t : string) :
  canonical_postcode t -> isValidUKPostcode t = true.
Proof.
  intros H. unfold isValidUKPostcode. apply test_spec.
  apply (lang_case_stable _ postcode_regex_case_stable).
  - now apply canonical_postcode_tidy.
  - now apply lang_postcode_regex.
Qed.

Lemma valid_upper_canonical (s : string) :
  isValidUKPostcode s = true -> canonical_postcode (Str.toUpperCase s).
Proof.
  intros H. rewrite <- isValidUKPostcode_upper in H.
  unfold isValidUKPostcode in H. apply test_spec in H.
  apply lang_postcode_regex.
  now apply (lang_case_stable _ postcode_regex_case_stable _
               (no_lower_toUpperCase s)).
Qed.

Lemma canonical_postcode_normalize (t : string) :
  canonical_postcode t -> normalizePostcode t = t.
Proof.
  intros H. destruct (canonical_postcode_tidy t H) as (H1 & H2 & H3 & H4).
  now apply normalizePostcode_fixed.
Qed.

Lemma insert_space_words (out inw : string) :
  length inw = 3%nat -> insert_space (out ++ inw) = out ++ String " " inw.
Proof.
  intros H. unfold insert_space.
  rewrite string_append_length, H.
  replace (length out + 3 - 3)%nat with (length out) by lia.
  now rewrite take_append, drop_append.
Qed.

Lemma canonical_postcode_autoformat (t : string) :
  canonical_postcode t -> tryAutoFormatPostcode t = Some t.
Proof.
  intros H. destruct (canonical_postcode_words t H)
    as (out & inw & E & Hout & Hinw & Hlo & Hli).
  rewrite tryAutoFormatPostcode_steps. cbv zeta.
  assert (Ha : alphanumerics t = out ++ inw).
  { subst t. unfold alphanumerics. rewrite filter_append. simpl.
    fold (alphanumerics out). fold (alphanumerics inw).
    unfold alphanumerics.
    rewrite (filter_all _ out (upper_word_word _ Hout)).
    now rewrite (filter_all _ inw (upper_word_word _ Hinw)). }
  rewrite Ha, string_append_length, Hli, (insert_space_words _ _ Hli), <- E.
  replace ((length out + 3 <? 5)%nat || (7 <? length out + 3)%nat) with false
    by (symmetry; apply orb_false_iff; split;
        [apply Nat.ltb_ge | apply Nat.ltb_ge]; lia).
  rewrite (canonical_postcode_valid t H).
  f_equal. apply toUpperCase_fixed. now apply canonical_postcode_tidy.
Qed.

Lemma tryAutoFormatPostcode_upper (s : string) :
  tryAutoFormatPostcode (Str.toUpperCase s) = tryAutoFormatPostcode s.
Proof.
  rewrite !tryAutoFormatPostcode_steps. cbv zeta.
  rewrite alphanumerics_upper.
  unfold Str.toUpperCase at 1 2. rewrite map_length.
  rewrite insert_space_upper, isValidUKPostcode_upper.
  unfold Str.toUpperCase at 1 2.
  replace (Str.map Char.upper (Str.map Char.upper (insert_space (alphanumerics s))))
    with (Str.map Char.upper (insert_space (alphanumerics s))); [reflexivity|].
  induction (insert_space (alphanumerics s)) as [|c t IH]; simpl;
    [reflexivity | now rewrite upper_idem, <- IH].
Qed.

(** X2 — A string that [isValidUKPostcode] accepts has 6 to 8 characters;
    its outcode, the text before the first space, has 2 to 4 characters,
    and the string is that outcode, one space and its last three
    characters. *)
Theorem valid_postcode_shape (s : string) :
  isValidUKPostcode s = true ->
  (6 <= length s <= 8)%nat /\
  (2 <= length (getOutcode s) <= 4)%nat /\
  length (Str.slice_neg 3 s) = 3%nat /\
  s = getOutcode s ++ " " ++ Str.slice_neg 3 s.
Proof.
  intros H. apply valid_upper_canonical in H.
  destruct (canonical_postcode_words _ H)
    as (out & inw & E & Hout & _ & Hlo & Hli).
  assert (Hlen : length s = (length out + 4)%nat).
  { rewrite <- (map_length Char.upper s).
    change (Str.map Char.upper s) with (Str.toUpperCase s).
    rewrite E, string_append_length. simpl. lia. }
  assert (Hg : length (getOutcode s) = length out).
  { unfold getOutcode. rewrite <- (map_length Char.upper).
    change (Str.map Char.upper (Str.split_head " " s))
      with (Str.toUpperCase (Str.split_head " " s)).
    rewrite <- split_head_upper, E. now rewrite (split_head_word _ _ Hout). }
  unfold getOutcode in *.
  destruct (split_head_rest s) as [R|R].
  { rewrite R in Hlen at 1. lia. }
  assert (Hs : Str.slice_neg 3 s
               = Str.drop (S (length (Str.split_head " " s))) s).
  { unfold Str.slice_neg. f_equal. lia. }
  rewrite Hs. split; [lia|]. split; [lia|]. split; [|exact R].
  apply (f_equal length) in R. rewrite string_append_length in R.
  cbn [length] in R. lia.
Qed.

(** X3 — On a string that [isValidUKPostcode] accepts, [normalizePostcode]
    changes nothing but the case of the letters. *)
Theorem valid_postcode_normalize (s : string) :
  isValidUKPostcode s = true -> normalizePostcode s = Str.toUpperCase s.
Proof.
  intros H. apply valid_upper_canonical in H.
  destruct (canonical_postcode_tidy _ H) as (H1 & H2 & _ & H4).
  rewrite no_lead_toUpperCase in H1. rewrite no_trail_toUpperCase in H2.
  rewrite normalizePostcode_steps, (trim_fixed _ H1 H2).
  now apply replace_space_runs_fixed.
Qed.

(** X4 — On a string that [isValidUKPostcode] accepts,
    [tryAutoFormatPostcode] succeeds and gives it back in upper case:
    stripping the space and putting it back lands on the same place. *)
Theorem valid_postcode_autoformat (s : string) :
  isValidUKPostcode s = true ->
  tryAutoFormatPostcode s = Some (Str.toUpperCase s).
Proof.
  intros H. rewrite <- tryAutoFormatPostcode_upper.
  now apply canonical_postcode_autoformat, valid_upper_canonical.
Qed.

Lemma autoformat_canonical (raw f : string) :
  tryAutoFormatPostcode raw = Some f -> canonical_postcode f.
Proof.
  rewrite tryAutoFormatPostcode_steps. cbv zeta.
  destruct (_ || _); [discriminate|].
  destruct (isValidUKPostcode (insert_space (alphanumerics raw))) eqn:V;
    [|discriminate].
  intros [= <-]. now apply valid_upper_canonical.
Qed.

(** X5 — Whatever [tryAutoFormatPostcode] returns is a canonical postcode
    (upper case, one space before the last three characters), which the
    normaliser leaves as it is and the auto-format returns again. *)
Theorem autoformat_result_canonical (raw f : string) :
  tryAutoFormatPostcode raw = Some f ->
  canonical_postcode f /\ isValidUKPostcode f = true /\
  normalizePostcode f = f /\ tryAutoFormatPostcode f = Some f.
Proof.
  intros H. apply autoformat_canonical in H. split; [exact H|].
  split; [now apply canonical_postcode_valid|].
  split; [now apply canonical_postcode_normalize|].
  now apply canonical_postcode_autoformat.
Qed.

Lemma recover_postcode_canonical (raw fullPostcode : string) :
  recover_postcode raw = Some fullPostcode -> canonical_postcode fullPostcode.
Proof.
  unfold recover_postcode.
  destruct (isValidUKPostcode (normalizePostcode raw)) eqn:V.
  - intros [= <-]. apply valid_upper_canonical in V.
    now rewrite (toUpperCase_fixed _ (no_lower_normalizePostcode raw)) in V.
  - apply autoformat_canonical.
Qed.

(** X6 — The postcode the handler goes on with is always canonical: the
    postcode stage run on it gives it back, and its outcode has 2 to 4
    characters, so that the parent outcode of Try 2, taken when the
    outcode is longer than 3, has exactly 3. *)
Theorem recovered_postcode_stable (raw fullPostcode : string) :
  recover_postcode raw = Some fullPostcode ->
  canonical_postcode fullPostcode /\
  recover_postcode fullPostcode = Some fullPostcode /\
  (2 <= length (getOutcode fullPostcode) <= 4)%nat /\
  ((3 < length (getOutcode fullPostcode))%nat ->
   length (Str.slice_0_neg 1 (getOutcode fullPostcode)) = 3%nat).
Proof.
  intros H. apply recover_postcode_canonical in H. split; [exact H|].
  split.
  { unfold recover_postcode.
    rewrite (canonical_postcode_normalize _ H).
    now rewrite (canonical_postcode_valid _ H). }
  destruct (canonical_postcode_words _ H)
    as (out & inw & -> & Hout & _ & Hlo & _).
  unfold getOutcode. rewrite (split_head_word _ _ Hout).
  split; [exact Hlo|]. intros L. unfold Str.slice_0_neg.
  assert (E : length out = 4%nat) by lia. rewrite E.
  destruct out as [|a [|b [|c [|d [|e out]]]]]; simpl in E; try discriminate E.
  reflexivity.
Qed.

(** X7 — The auto-format looks at the letters and digits of its input
    only, and not at their case: two inputs with the same letters and
    digits up to case get the same answer. *)
Theorem autoformat_ignores_case_and_separators (a b : string) :
  Str.toUpperCase (alphanumerics a) = Str.toUpperCase (alphanumerics b) ->
  tryAutoFormatPostcode a = tryAutoFormatPostcode b.
Proof.
  intros H.
  assert (Hlen : length (alphanumerics a) = length (alphanumerics b)).
  { rewrite <- (map_length Char.upper (alphanumerics a)).
    rewrite <- (map_length Char.upper (alphanumerics b)).
    unfold Str.toUpperCase in H. now rewrite H. }
  rewrite !tryAutoFormatPostcode_steps. cbv zeta. rewrite Hlen.
  rewrite <- (isValidUKPostcode_upper (insert_space (alphanumerics a))).
  rewrite <- (isValidUKPostcode_upper (insert_space (alphanumerics b))).
  now rewrite <- !insert_space_upper, H.
Qed.

(** * Further properties of the handler *)

(** The ways through the handler. *)
Lemma valuation_cases (req_body : value) :
  (nullish req_body = true /\ valuation req_body = ([], unexpected_error)) \/
  (nullish req_body = false /\
   exists r,
     validate (prop req_body "postalCode") (prop req_body "propertyType")
       (prop req_body "purpose") (prop req_body "bedrooms") = Some r /\
     valuation req_body = ([], r)) \/
  (validate (prop req_body "postalCode") (prop req_body "propertyType")
     (prop req_body "purpose") (prop req_body "bedrooms") = None /\
   (forall s, prop req_body "postalCode" <> VStr s) /\
   valuation req_body = ([], unexpected_error)) \/
  (exists raw,
     accepted req_body raw /\ recover_postcode raw = None /\
     valuation req_body = ([], invalid_postcode)) \/
  (exists raw fullPostcode, rent_request req_body raw fullPostcode) \/
  (exists raw fullPostcode, sale_request req_body raw fullPostcode).
Proof.
  destruct (nullish req_body) eqn:N.
  { left. split; [reflexivity|].
    unfold valuation, respond, try_catch, bind, lift, get, ret.
    now rewrite N. }
  right.
  destruct (validate (prop req_body "postalCode") (prop req_body "propertyType")
              (prop req_body "purpose") (prop req_body "bedrooms"))
    as [r|] eqn:V.
  { left. split; [reflexivity|]. exists r. split; [reflexivity|].
    now apply valuation_rejected. }
  right.
  assert (Hstr : (exists raw, prop req_body "postalCode" = VStr raw) \/
                 (forall s, prop req_body "postalCode" <> VStr s)).
  { destruct (prop req_body "postalCode"); try (right; discriminate).
    left. eauto. }
  destruct Hstr as [[raw Hraw] | Hno].
  - right.
    assert (Hacc : accepted req_body raw) by (split; assumption).
    destruct (recover_postcode raw) as [full|] eqn:R.
    + right. apply validate_None in V.
      destruct V as (_ & _ & _ & _ & Hp & _).
      apply includes_str_one_of in Hp. destruct Hp as (p & Hin & Hp).
      simpl in Hin. destruct Hin as [<-|[<-|[]]].
      * right. exists raw, full.
        split; [exact Hacc|]. split; [now rewrite Hp | exact R].
      * left. exists raw, full.
        split; [exact Hacc|]. split; [now rewrite Hp | exact R].
    + left. exists raw. split; [exact Hacc|]. split; [exact R|].
      now rewrite (valuation_accepted _ _ Hacc), R.
  - left. split; [reflexivity|]. split; [exact Hno|].
    unfold valuation, respond, try_catch, bind, lift, get, valuation_body, ret.
    rewrite N, V.
    destruct (prop req_body "postalCode"); try reflexivity.
    now contradiction (Hno s).
Qed.

Lemma rent_payload_tiers_failed (fullPostcode : string) :
  tiers_failed fullPostcode ->
  rent_payload fullPostcode
  = match axios_get (local_market_url fullPostcode) with
    | Resolved r => Some (data r)
    | Rejected _ _ => None
    end.
Proof.
  intros [S1 S2]. unfold rent_payload. cbv zeta in S1, S2 |- *. rewrite S1.
  destruct (3 <? length (getOutcode fullPostcode))%nat eqn:L; [|reflexivity].
  apply Nat.ltb_lt in L. now rewrite (S2 L).
Qed.

Lemma rent_outcome (req_body : value) (raw fullPostcode : string) :
  rent_request req_body raw fullPostcode ->
  let outcode := getOutcode fullPostcode in
  let url1 := demand_rent_url outcode in
  let url2 := demand_rent_url (Str.slice_0_neg 1 outcode) in
  let url3 := local_market_url fullPostcode in
  let failed := if (3 <? length outcode)%nat then [url1; url2] else [url1] in
  (exists calls res d,
     rent_payload fullPostcode = Some d /\ nullish d = false /\
     converts (rent_average d) = true /\
     valuation req_body = (calls, Json 200 res) /\
     prop res "type" = VStr "rent" /\
     (calls = [url1] \/ calls = [url1; url2] \/ calls = (failed ++ [url3])%list)) \/
  (tiers_failed fullPostcode /\
   (exists code r, axios_get url3 = Rejected code r) /\
   valuation req_body = ((failed ++ [url3])%list, no_rental_data)) \/
  (tiers_failed fullPostcode /\
   (exists r, axios_get url3 = Resolved r /\ nullish (data r) = true) /\
   valuation req_body = ((failed ++ [url3])%list, unexpected_error)) \/
  (exists calls d,
     rent_payload fullPostcode = Some d /\ nullish d = false /\
     converts (rent_average d) = false /\
     valuation req_body = (calls, unexpected_error) /\
     (calls = [url1] \/ calls = [url1; url2] \/ calls = (failed ++ [url3])%list)).
Proof.
  intros H outcode url1 url2 url3 failed.
  pose proof (rent_valuation_run fullPostcode outcode
                (prop req_body "bedrooms") []) as Run.
  cbv zeta in Run. fold url1 url2 in Run. simpl app in Run.
  match goal with |- ?G => set (goal := G) end.
  assert (Hfin : forall calls d,
    rent_valuation fullPostcode outcode (prop req_body "bedrooms") []
    = rent_finish fullPostcode (prop req_body "bedrooms") calls d ->
    nullish d = false ->
    rent_payload fullPostcode = Some d ->
    (calls = [url1] \/ calls = [url1; url2]
     \/ calls = (failed ++ [url3])%list) ->
    goal).
  { intros calls d E Hd P Hc. destruct (converts (rent_average d)) eqn:C.
    - left. destruct (rent_finish_used _ _ _ _ _ H E Hd C) as (res & Hres & Hval).
      exists calls, res, d. repeat split; auto.
      now apply (rent_result_fields _ _ _ _ Hres).
    - right. right. right. exists calls, d.
      rewrite (rent_finish_thrown _ _ _ _ _ H E C). repeat split; auto. }
  assert (Hlm : tiers_failed fullPostcode ->
    rent_valuation fullPostcode outcode (prop req_body "bedrooms") []
    = rent_local_market fullPostcode (prop req_body "bedrooms") failed ->
    goal).
  { intros TF E. unfold rent_local_market in E. fold url3 in E.
    pose proof (rent_payload_tiers_failed _ TF) as P. fold url3 in P.
    destruct (axios_get url3) as [r|c r] eqn:A.
    - destruct (nullish (data r)) eqn:Nd.
      + right. right. left. split; [exact TF|]. split; [now exists r|].
        unfold rent_finish, rent_result, get in E. rewrite Nd in E.
        now rewrite (valuation_rent_run _ _ _ H _ _ E).
      + apply (Hfin _ _ E Nd P). auto.
    - right. left. split; [exact TF|]. split; [now exists c, r|].
      now rewrite (valuation_rent_run _ _ _ H _ _ E). }
  assert (P0 : rent_payload fullPostcode
               = match success url1 with
                 | Some d => Some d
                 | None =>
                     match (if (3 <? length outcode)%nat
                            then success url2 else None) with
                     | Some d => Some d
                     | None =>
                         match axios_get url3 with
                         | Resolved r => Some (data r)
                         | Rejected _ _ => None
                         end
                     end
                 end) by reflexivity.
  destruct (success url1) as [d1|] eqn:S1.
  - destruct (success_Some _ _ S1) as (T & _).
    apply (Hfin _ _ Run (truthy_not_nullish _ T) P0). auto.
  - unfold failed in *. destruct (3 <? length outcode)%nat eqn:L.
    + destruct (success url2) as [d2|] eqn:S2.
      * destruct (success_Some _ _ S2) as (T & _).
        apply (Hfin _ _ Run (truthy_not_nullish _ T) P0). auto.
      * apply Hlm; [|exact Run]. split; [exact S1 | intros _; exact S2].
    + apply Hlm; [|exact Run]. split; [exact S1|].
      fold outcode. intros L'. apply Nat.ltb_ge in L. lia.
Qed.

(** The replies of the rent path and the calls behind them. *)
Lemma rent_reply_cases (req_body : value) (raw fullPostcode : string) :
  rent_request req_body raw fullPostcode ->
  let outcode := getOutcode fullPostcode in
  let url1 := demand_rent_url outcode in
  let url2 := demand_rent_url (Str.slice_0_neg 1 outcode) in
  let url3 := local_market_url fullPostcode in
  let failed := if (3 <? length outcode)%nat then [url1; url2] else [url1] in
  exists calls,
    (calls = [url1] \/ calls = [url1; url2]
     \/ calls = (failed ++ [url3])%list) /\
    ((exists res, valuation req_body = (calls, Json 200 res) /\
                  prop res "type" = VStr "rent") \/
     valuation req_body = (calls, no_rental_data) \/
     valuation req_body = (calls, unexpected_error)).
Proof.
  intros H outcode url1 url2 url3 failed.
  destruct (rent_outcome _ _ _ H)
    as [(calls & res & d & _ & _ & _ & E & Hty & Hc)
        | [(_ & _ & E) | [(_ & _ & E) | (calls & d & _ & _ & _ & E & Hc)]]];
    fold outcode url1 url2 url3 failed in E.
  - exists calls. split; [exact Hc|]. left. now exists res.
  - exists (failed ++ [url3])%list. auto.
  - exists (failed ++ [url3])%list. auto.
  - exists calls. auto.
Qed.

Lemma sale_outcome (req_body : value) (raw fullPostcode : string) :
  sale_request req_body raw fullPostcode ->
  let propertyType := prop req_body "propertyType" in
  let url1 := sold_prices_url fullPostcode (Some (ToString propertyType)) in
  let url2 := sold_prices_url fullPostcode None in
  (exists d,
     sold_prices_try url1 = Ok d /\
     valuation req_body
     = ([url1],
        Json 200 (sale_result d fullPostcode propertyType propertyType))) \/
  (exists e d,
     sold_prices_try url1 = Throw e /\ type_unsupported e = Ok true /\
     sold_prices_try url2 = Ok d /\
     valuation req_body
     = ([url1; url2],
        Json 200 (sale_result d fullPostcode propertyType (VStr "all")))) \/
  (exists e e2,
     sold_prices_try url1 = Throw e /\ type_unsupported e = Ok true /\
     sold_prices_try url2 = Throw e2 /\
     valuation req_body = ([url1; url2], no_sale_data propertyType fullPostcode)) \/
  (exists e,
     sold_prices_try url1 = Throw e /\ type_unsupported e <> Ok true /\
     valuation req_body = ([url1], unexpected_error)).
Proof.
  intros H propertyType url1 url2.
  pose proof (sale_valuation_run fullPostcode propertyType []) as Run.
  cbv zeta in Run. fold url1 url2 in Run. simpl app in Run.
  destruct (sold_prices_try url1) as [d|e] eqn:T1.
  - left. exists d. split; [reflexivity|].
    now rewrite (valuation_sale_run _ _ _ H _ _ Run).
  - right. destruct (type_unsupported e) as [[|]|e'] eqn:U.
    + destruct (sold_prices_try url2) as [d|e2] eqn:T2.
      * left. exists e, d. repeat split; auto.
        now rewrite (valuation_sale_run _ _ _ H _ _ Run).
      * right. left. exists e, e2. repeat split; auto.
        now rewrite (valuation_sale_run _ _ _ H _ _ Run).
    + right. right. exists e. split; [reflexivity|]. split; [congruence|].
      now rewrite (valuation_sale_run _ _ _ H _ _ Run).
    + right. right. exists e. split; [reflexivity|]. split; [congruence|].
      now rewrite (valuation_sale_run _ _ _ H _ _ Run).
Qed.

Lemma error_envelope_intro (st : nat) (msg : string) :
  (st = 400 \/ st = 404 \/ st = 500)%nat ->
  error_envelope (Json st (error_body msg)).
Proof. intros H. now exists st, msg. Qed.

(** X8 — Every request is answered, and with a well-formed envelope: an
    error object [{ error: message }] with status 400, 404 or 500, or a
    result with status 200 whose [type] is the purpose of the request. *)
Theorem always_a_well_formed_reply (req_body : value) :
  error_envelope (snd (valuation req_body)) \/
  exists kind,
    (kind = "rent" \/ kind = "sale") /\
    prop req_body "purpose" = VStr kind /\
    result_envelope kind (snd (valuation req_body)).
Proof.
  destruct (valuation_cases req_body)
    as [[_ E] | [(_ & r & V & E) | [(_ & _ & E) | [(raw & _ & _ & E)
        | [(raw & full & H) | (raw & full & H)]]]]].
  - left. rewrite E. apply error_envelope_intro. auto.
  - left. rewrite E. destruct (validate_Some _ _ _ _ _ V) as [msg ->].
    apply error_envelope_intro. auto.
  - left. rewrite E. apply error_envelope_intro. auto.
  - left. rewrite E. apply error_envelope_intro. auto.
  - destruct (rent_reply_cases _ _ _ H)
      as (calls & _ & [(res & E & Hty) | [E | E]]).
    + right. exists "rent". split; [now left|]. split.
      * destruct H as (_ & Hp & _). now apply is_str_true.
      * rewrite E. now exists res.
    + left. rewrite E. apply error_envelope_intro. auto.
    + left. rewrite E. apply error_envelope_intro. auto.
  - destruct (sale_outcome _ _ _ H)
      as [(d & _ & E) | [(e & d & _ & _ & _ & E)
          | [(e & e2 & _ & _ & _ & E) | (e & _ & _ & E)]]].
    + right. exists "sale". split; [now right|]. split.
      * destruct H as (_ & Hp & _). now apply is_str_true.
      * rewrite E. eexists. split; [reflexivity|]. reflexivity.
    + right. exists "sale". split; [now right|]. split.
      * destruct H as (_ & Hp & _). now apply is_str_true.
      * rewrite E. eexists. split; [reflexivity|]. reflexivity.
    + left. rewrite E. apply error_envelope_intro. auto.
    + left. rewrite E. apply error_envelope_intro. auto.
Qed.

(** X9 — A request makes at most three upstream calls, at most two when
    its purpose is sale, and none at all when the reply has status 400. *)
Theorem upstream_calls_bounded (req_body : value) :
  (List.length (fst (valuation req_body)) <= 3)%nat /\
  (prop req_body "purpose" = VStr "sale" ->
   (List.length (fst (valuation req_body)) <= 2)%nat) /\
  (forall body, snd (valuation req_body) = Json 400 body ->
                fst (valuation req_body) = []).
Proof.
  destruct (valuation_cases req_body)
    as [[_ E] | [(_ & r & V & E) | [(_ & _ & E) | [(raw & _ & _ & E)
        | [(raw & full & H) | (raw & full & H)]]]]];
    try (rewrite E; simpl; repeat split; auto; lia).
  - assert (Hp : prop req_body "purpose" = VStr "rent").
    { destruct H as (_ & Hp & _). now apply is_str_true. }
    assert (Hcalls : forall calls,
      calls = [demand_rent_url (getOutcode full)] \/
      calls = [demand_rent_url (getOutcode full);
               demand_rent_url (Str.slice_0_neg 1 (getOutcode full))] \/
      calls = ((if (3 <? length (getOutcode full))%nat
                then [demand_rent_url (getOutcode full);
                      demand_rent_url (Str.slice_0_neg 1 (getOutcode full))]
                else [demand_rent_url (getOutcode full)])
               ++ [local_market_url full])%list ->
      (List.length calls <= 3)%nat).
    { intros calls [-> | [-> | ->]]; simpl; try lia.
      destruct (3 <? length (getOutcode full))%nat; simpl; lia. }
    destruct (rent_reply_cases _ _ _ H)
      as (calls & Hc & [(res & E & _) | [E | E]]);
      rewrite E; simpl; (split; [|split]);
      try (intros; congruence); try discriminate;
      try (apply Hcalls; auto).
  - destruct (sale_outcome _ _ _ H)
      as [(d & _ & E) | [(e & d & _ & _ & _ & E)
          | [(e & e2 & _ & _ & _ & E) | (e & _ & _ & E)]]];
      rewrite E; simpl; repeat split; try lia; intros; discriminate.
Qed.

(** X10 — An accepted request calls only the endpoints of its own purpose,
    keyed by its own postcode: a rent request the demand-rent endpoint with
    the outcode or the parent outcode and the local-market endpoint with
    the full postcode, a sale request the sold-prices endpoint with and
    without the type. *)
Theorem calls_stay_within_purpose (req_body : value) (raw fullPostcode url : string) :
  accepted req_body raw ->
  recover_postcode raw = Some fullPostcode ->
  In url (fst (valuation req_body)) ->
  (prop req_body "purpose" = VStr "rent" /\
   (url = demand_rent_url (getOutcode fullPostcode) \/
    url = demand_rent_url (Str.slice_0_neg 1 (getOutcode fullPostcode)) \/
    url = local_market_url fullPostcode)) \/
  (prop req_body "purpose" = VStr "sale" /\
   (url = sold_prices_url fullPostcode
            (Some (ToString (prop req_body "propertyType"))) \/
    url = sold_prices_url fullPostcode None)).
Proof.
  intros Hacc Hrec Hin.
  assert (Hp : is_str "rent" (prop req_body "purpose") = true \/
               is_str "sale" (prop req_body "purpose") = true).
  { destruct Hacc as [_ V]. apply validate_None in V.
    destruct V as (_ & _ & _ & _ & Hp & _).
    apply includes_str_one_of in Hp. destruct Hp as (p & Hi & ->).
    simpl in Hi. destruct Hi as [<-|[<-|[]]]; auto. }
  destruct Hp as [Hp|Hp].
  - left. split; [now apply is_str_true|].
    assert (H : rent_request req_body raw fullPostcode) by (repeat split; auto; apply Hacc).
    assert (Hin' : exists calls,
      In url calls /\
      (calls = [demand_rent_url (getOutcode fullPostcode)] \/
       calls = [demand_rent_url (getOutcode fullPostcode);
                demand_rent_url (Str.slice_0_neg 1 (getOutcode fullPostcode))] \/
       calls = ((if (3 <? length (getOutcode fullPostcode))%nat
                 then [demand_rent_url (getOutcode fullPostcode);
                       demand_rent_url
                         (Str.slice_0_neg 1 (getOutcode fullPostcode))]
                 else [demand_rent_url (getOutcode fullPostcode)])
                ++ [local_market_url fullPostcode])%list)).
    { destruct (rent_reply_cases _ _ _ H)
        as (calls & Hc & [(res & E & _) | [E | E]]);
        rewrite E in Hin; exists calls; auto. }
    clear Hin. destruct Hin' as (calls & Hin & [-> | [-> | ->]]).
    + destruct Hin as [<-|[]]; auto.
    + destruct Hin as [<-|[<-|[]]]; auto.
    + apply in_app_or in Hin. destruct Hin as [Hin|[<-|[]]]; auto.
      destruct (3 <? length (getOutcode fullPostcode))%nat;
        [destruct Hin as [<-|[<-|[]]] | destruct Hin as [<-|[]]]; auto.
  - right. split; [now apply is_str_true|].
    assert (H : sale_request req_body raw fullPostcode) by (repeat split; auto; apply Hacc).
    destruct (sale_outcome _ _ _ H)
      as [(d & _ & E) | [(e & d & _ & _ & _ & E)
          | [(e & e2 & _ & _ & _ & E) | (e & _ & _ & E)]]];
      rewrite E in Hin; simpl in Hin;
      repeat (destruct Hin as [<-|Hin]; auto); destruct Hin.
Qed.

(** X11 — A request body that is null or undefined, or one that passes the
    validator with a postalCode that is not a string (a number, say, which
    has no [trim]), ends in the 500 reply without any upstream call. *)
Theorem malformed_request_is_500 (req_body : value) :
  nullish req_body = true \/
  (validate (prop req_body "postalCode") (prop req_body "propertyType")
     (prop req_body "purpose") (prop req_body "bedrooms") = None /\
   forall s, prop req_body "postalCode" <> VStr s) ->
  valuation req_body
  = ([], Json 500
           (error_body "Failed to fetch valuation. Please try again later.")).
Proof.
  intros H.
  destruct (valuation_cases req_body)
    as [[N E] | [(N & r & V & E) | [(_ & _ & E) | [(raw & Hacc & _ & E)
        | [(raw & full & Hr) | (raw & full & Hr)]]]]].
  - exact E.
  - destruct H as [H | [H _]]; congruence.
  - exact E.
  - destruct H as [H | [_ H]].
    + destruct Hacc as [Hp _]. apply prop_not_nullish in Hp. congruence.
    + destruct Hacc as [Hp _]. now contradiction (H raw).
  - destruct Hr as ([Hp _] & _). destruct H as [H | [_ H]].
    + apply prop_not_nullish in Hp. congruence.
    + now contradiction (H raw).
  - destruct Hr as ([Hp _] & _). destruct H as [H | [_ H]].
    + apply prop_not_nullish in Hp. congruence.
    + now contradiction (H raw).
Qed.

Lemma validate_same_class (pc pt1 pt2 pu bd1 bd2 : value) :
  includes_str validPropertyTypes pt1 = includes_str validPropertyTypes pt2 ->
  truthy pt1 = truthy pt2 ->
  (is_str "rent" pu = true -> bd1 = bd2) ->
  validate pc pt1 pu bd1 = validate pc pt2 pu bd2.
Proof.
  intros Hi Ht Hbd. unfold validate. rewrite <- Hi, <- Ht.
  destruct (negb (truthy pc) || negb (truthy pt1) || negb (truthy pu));
    [reflexivity|].
  destruct (negb (includes_str validPropertyTypes pt1)); [reflexivity|].
  destruct (negb (includes_str ["sale"; "rent"] pu)); [reflexivity|].
  destruct (is_str "rent" pu); [|reflexivity].
  now rewrite (Hbd eq_refl).
Qed.

Lemma includes_str_truthy (l : list string) (v : value) :
  includes_str l v = true -> ~ In EmptyString l -> truthy v = true.
Proof.
  intros H N. apply includes_str_one_of in H. destruct H as (s & Hin & ->).
  simpl. destruct s; [contradiction | reflexivity].
Qed.

Lemma valuation_unfold (req_body : value) :
  nullish req_body = false ->
  valuation req_body
  = match validate (prop req_body "postalCode") (prop req_body "propertyType")
            (prop req_body "purpose") (prop req_body "bedrooms") with
    | Some r => ([], r)
    | None =>
        match prop req_body "postalCode" with
        | VStr raw =>
            match recover_postcode raw with
            | Some fullPostcode =>
                respond (by_purpose fullPostcode (prop req_body "propertyType")
                           (prop req_body "purpose") (prop req_body "bedrooms"))
            | None => ([], invalid_postcode)
            end
        | _ => ([], unexpected_error)
        end
    end.
Proof.
  intros N.
  destruct (validate _ _ _ _) as [r|] eqn:V;
    [now apply valuation_rejected|].
  destruct (prop req_body "postalCode") eqn:P;
    unfold valuation, respond, try_catch, bind, lift, get, valuation_body, ret;
    rewrite N, P, V; unfold bind, lift; try reflexivity.
  now destruct (recover_postcode s).
Qed.

(** X12 — The reply to a sale request does not depend on its bedrooms
    field, and the reply to a rent request does not depend on which of the
    six property types it names: two requests that differ in nothing else
    the handler reads get the same calls and the same reply. *)
Theorem reply_ignores_the_other_purpose_field (body1 body2 : value) :
  nullish body1 = false -> nullish body2 = false ->
  prop body1 "postalCode" = prop body2 "postalCode" ->
  prop body1 "purpose" = prop body2 "purpose" ->
  (prop body1 "purpose" = VStr "sale" /\
   prop body1 "propertyType" = prop body2 "propertyType") \/
  (prop body1 "purpose" = VStr "rent" /\
   prop body1 "bedrooms" = prop body2 "bedrooms" /\
   includes_str validPropertyTypes (prop body1 "propertyType") = true /\
   includes_str validPropertyTypes (prop body2 "propertyType") = true) ->
  valuation body1 = valuation body2.
Proof.
  intros N1 N2 Hpc Hpu H.
  rewrite (valuation_unfold _ N1), (valuation_unfold _ N2), <- Hpc, <- Hpu.
  assert (Hnot : ~ In EmptyString validPropertyTypes).
  { simpl. intros [E|[E|[E|[E|[E|[E|[]]]]]]]; discriminate E. }
  destruct H as [[Hs Hpt] | (Hr & Hbd & H1 & H2)].
  - rewrite <- Hpt.
    rewrite (validate_same_class (prop body1 "postalCode")
               (prop body1 "propertyType") (prop body1 "propertyType")
               (prop body1 "purpose")
               (prop body1 "bedrooms") (prop body2 "bedrooms"));
      try reflexivity.
    2:{ rewrite Hs. discriminate. }
    destruct (validate _ _ _ (prop body2 "bedrooms")); [reflexivity|].
    destruct (prop body1 "postalCode"); try reflexivity.
    destruct (recover_postcode s); [|reflexivity].
    unfold by_purpose. now rewrite Hs.
  - rewrite <- Hbd.
    rewrite (validate_same_class (prop body1 "postalCode")
               (prop body1 "propertyType") (prop body2 "propertyType")
               (prop body1 "purpose")
               (prop body1 "bedrooms") (prop body1 "bedrooms"));
      try reflexivity.
    2:{ now rewrite H1, H2. }
    2:{ now rewrite (includes_str_truthy _ _ H1 Hnot),
                    (includes_str_truthy _ _ H2 Hnot). }
    destruct (validate _ (prop body2 "propertyType") _ _); [reflexivity|].
    destruct (prop body1 "postalCode"); try reflexivity.
    destruct (recover_postcode s); [|reflexivity].
    unfold by_purpose. now rewrite Hr.
Qed.

(** X13 — A rent request gets a result, the 404 "no rental data" reply
    or the 500 reply. It gets the 404 exactly when the first two tries
    yield nothing and the local-market call is rejected. It gets the 500
    exactly when the first two tries yield nothing and the local-market
    call is answered with a null body, or the payload the rent path has
    settled on holds a rent average that has no primitive form (an object
    with a property [toString], or an array holding one), on which
    [isNaN] throws. *)
Theorem rent_errors_classified (req_body : value) (raw fullPostcode : string) :
  rent_request req_body raw fullPostcode ->
  let url3 := local_market_url fullPostcode in
  (snd (valuation req_body)
   = Json 404 (error_body
       "No rental market data available for this area. Try a nearby postcode.")
   <-> tiers_failed fullPostcode /\
       exists code r, axios_get url3 = Rejected code r) /\
  (snd (valuation req_body)
   = Json 500 (error_body "Failed to fetch valuation. Please try again later.")
   <-> (tiers_failed fullPostcode /\
        exists r, axios_get url3 = Resolved r /\ nullish (data r) = true) \/
       (exists d, rent_payload fullPostcode = Some d /\
                  converts (rent_average d) = false)) /\
  ((exists res, snd (valuation req_body) = Json 200 res) \/
   snd (valuation req_body)
   = Json 404 (error_body
       "No rental market data available for this area. Try a nearby postcode.") \/
   snd (valuation req_body)
   = Json 500 (error_body "Failed to fetch valuation. Please try again later.")).
Proof.
  intros H url3.
  assert (Prej : forall c r, tiers_failed fullPostcode ->
            axios_get url3 = Rejected c r -> rent_payload fullPostcode = None).
  { intros c r TF A. rewrite (rent_payload_tiers_failed _ TF).
    fold url3. now rewrite A. }
  assert (Pres : forall r, tiers_failed fullPostcode ->
            axios_get url3 = Resolved r ->
            rent_payload fullPostcode = Some (data r)).
  { intros r TF A. rewrite (rent_payload_tiers_failed _ TF).
    fold url3. now rewrite A. }
  destruct (rent_outcome _ _ _ H)
    as [(calls & res & d & P & Hd & C & E & _)
        | [(TF & Hrej & E) | [(TF & Hres & E)
        | (calls & d & P & Hd & C & E & _)]]];
    fold url3 in Hrej || fold url3 in Hres || idtac;
    rewrite E; simpl snd.
  - split; [|split].
    + split; [discriminate|]. intros (TF & c & r & A).
      rewrite (Prej _ _ TF A) in P. discriminate P.
    + split; [discriminate|].
      intros [(TF & r & A & Nd) | (d' & P' & C')].
      * rewrite (Pres _ TF A) in P. injection P as <-. congruence.
      * rewrite P in P'. injection P' as <-. congruence.
    + left. now exists res.
  - destruct Hrej as (c & r & A). split; [|split].
    + split; eauto.
    + split; [discriminate|].
      intros [(_ & r' & A' & _) | (d' & P' & _)]; [congruence|].
      rewrite (Prej _ _ TF A) in P'. discriminate P'.
    + right. left. reflexivity.
  - destruct Hres as (r & A & Nd). split; [|split].
    + split; [discriminate|]. intros (_ & c & r' & A'). congruence.
    + split; [|reflexivity]. intros _. left. eauto.
    + right. right. reflexivity.
  - split; [|split].
    + split; [discriminate|]. intros (TF & c & r & A).
      rewrite (Prej _ _ TF A) in P. discriminate P.
    + split; [|reflexivity]. intros _. right. eauto.
    + right. right. reflexivity.
Qed.

(** X14 — A sale request ends in one of four ways: one call and a result
    with the requested type and a null note; two calls and a result that
    names the substitution and carries a note; two calls and the 404
    reply; one call and the 500 reply. So the note is there exactly when
    the fallback call was made and succeeded. *)
Theorem sale_outcomes_classified (req_body : value) (raw fullPostcode : string) :
  sale_request req_body raw fullPostcode ->
  let propertyType := prop req_body "propertyType" in
  let url1 := sold_prices_url fullPostcode (Some (ToString propertyType)) in
  let url2 := sold_prices_url fullPostcode None in
  (exists res,
     valuation req_body = ([url1], Json 200 res) /\
     prop res "note" = VNull /\ prop res "propertyType" = propertyType) \/
  (exists res note,
     valuation req_body = ([url1; url2], Json 200 res) /\
     prop res "note" = VStr note /\
     prop res "propertyType"
     = VStr (ToString propertyType ++ " (not found – showing area average)")) \/
  valuation req_body
  = ([url1; url2],
     Json 404 (error_body
       ("No recent sale data for " ++ ToString propertyType
        ++ " properties in " ++ fullPostcode
        ++ ". This area may not have this property type."))) \/
  valuation req_body
  = ([url1],
     Json 500 (error_body "Failed to fetch valuation. Please try again later.")).
Proof.
  intros H propertyType url1 url2.
  destruct (sale_request_type _ _ _ H) as (t & _ & _ & Hall).
  destruct (sale_outcome _ _ _ H)
    as [(d & _ & E) | [(e & d & _ & _ & _ & E)
        | [(e & e2 & _ & _ & _ & E) | (e & _ & _ & E)]]].
  - left. eexists. split; [exact E|].
    now apply sale_result_fields.
  - right. left.
    pose proof (sale_result_fields d fullPostcode propertyType (VStr "all"))
      as F.
    cbv zeta in F. destruct F as (_ & _ & _ & _ & _ & _ & _ & F).
    destruct (F eq_refl) as (note & Hn & Hp).
    eexists _, note. split; [exact E|]. split; assumption.
  - right. right. left. exact E.
  - right. right. right. exact E.
Qed.

Lemma adjust_shape (baseRent bedrooms a : value) (n : string) :
  adjust baseRent bedrooms = Ok (a, n) ->
  (a = VStr "N/A" /\ n = EmptyString) \/
  (exists x note, a = VNum x /\ n = String "A" note).
Proof.
  unfold adjust. destruct (truthy baseRent); [|intros [= <- <-]; now left].
  destruct (isNaN baseRent) as [[|]|e];
    [intros [= <- <-]; now left | | discriminate].
  destruct (converts bedrooms); [|discriminate].
  intros [= <- <-]. right. simpl. eauto.
Qed.

(** X15 — In every rent result the adjusted figure and the note go
    together: averageRent is either "N/A", and then the note is null, or a
    number, and then the note is a text. *)
Theorem rent_note_goes_with_adjustment (req_body : value)
  (raw fullPostcode : string) (res : value) :
  rent_request req_body raw fullPostcode ->
  snd (valuation req_body) = Json 200 res ->
  (prop res "averageRent" = VStr "N/A" /\ prop res "note" = VNull) \/
  (exists x note,
     prop res "averageRent" = VNum x /\ prop res "note" = VStr note).
Proof.
  intros H Hres.
  destruct (rent_reply_payload _ _ _ _ H Hres) as (url & r & _ & _ & Hrr).
  destruct (rent_result_fields _ _ _ _ Hrr)
    as (_ & _ & _ & _ & _ & _ & _ & _ & _ & a & n & Hadj & Havg & Hnote).
  destruct (adjust_shape _ _ _ _ Hadj)
    as [[E1 E2] | (x & note & E1 & E2)];
    rewrite E1 in Havg; rewrite E2 in Hnote.
  - left. now split.
  - right. exists x, (String "A" note). now split.
Qed.

(** * The form and the server *)

Lemma filter_map_through (p q : ascii -> bool) (f : ascii -> ascii) (s : string) :
  (forall c, p (f c) = q c) ->
  Str.filter p (Str.map f s) = Str.map f (Str.filter q s).
Proof.
  intros H. induction s as [|c s IH]; simpl; [reflexivity|].
  rewrite H. destruct (q c); simpl; now rewrite IH.
Qed.

(** What the form keeps of the typed text: its letters and digits, in
    upper case. *)
Lemma form_strip (v : string) :
  remove_all false true [range "A" "Z"; range "0" "9"] (Str.toUpperCase v)
  = Str.toUpperCase (alphanumerics v).
Proof.
  unfold remove_all, alphanumerics, Str.toUpperCase.
  apply filter_map_through. intros c. each_char c; reflexivity.
Qed.

Lemma cleaned_upper_word (v : string) :
  upper_word (Str.toUpperCase (alphanumerics v)) = true.
Proof.
  unfold upper_word, Str.toUpperCase, alphanumerics.
  induction v as [|c v IH]; simpl; [reflexivity|].
  destruct (Char.is_upper c || Char.is_lower c || Char.is_digit c) eqn:E;
    [|exact IH].
  simpl. rewrite IH, andb_true_r. revert E. each_char c; intros E;
    solve [reflexivity | discriminate E].
Qed.

Lemma forallb_drop (p : ascii -> bool) (n : nat) :
  forall s, Str.forallb p s = true -> Str.forallb p (Str.drop n s) = true.
Proof.
  induction n as [|n IH]; intros [|c s] H; simpl; auto.
  simpl in H. apply andb_true_iff in H. now apply IH.
Qed.

Lemma forallb_take (p : ascii -> bool) (n : nat) :
  forall s, Str.forallb p s = true -> Str.forallb p (Str.take n s) = true.
Proof.
  induction n as [|n IH]; intros [|c s] H; simpl; auto.
  simpl in H. apply andb_true_iff in H. destruct H as [-> H]. now apply IH.
Qed.

Lemma take_drop (n : nat) : forall s, Str.take n s ++ Str.drop n s = s.
Proof.
  induction n as [|n IH]; intros [|c s]; simpl; try reflexivity.
  now rewrite IH.
Qed.

Lemma take_length (n : nat) :
  forall s, (n <= length s)%nat -> length (Str.take n s) = n.
Proof.
  induction n as [|n IH]; intros [|c s] H; simpl in *; try reflexivity; try lia.
  rewrite IH; [reflexivity | lia].
Qed.

Lemma insert_space_length (s : string) :
  length (insert_space s) = S (length s).
Proof.
  unfold insert_space.
  rewrite <- (take_drop (length s - 3) s) at 5.
  rewrite !string_append_length. simpl. lia.
Qed.

Lemma upper_word_no_lead (w : string) : upper_word w = true -> no_lead w = true.
Proof.
  destruct w as [|c w]; [reflexivity|]. unfold upper_word. simpl.
  intros H. apply andb_true_iff in H. destruct H as [Hc _].
  now destruct (upper_word_char c Hc) as (-> & _).
Qed.

Lemma upper_word_trim (w : string) : upper_word w = true -> Str.trim w = w.
Proof.
  intros H. apply trim_fixed;
    [now apply upper_word_no_lead | now apply upper_word_no_trail].
Qed.

Lemma upper_word_line (w : string) :
  upper_word w = true ->
  Str.forallb (fun c => negb (App.is_line_terminator c)) w = true.
Proof.
  apply forallb_impl. intros c. each_char c; intros H;
    solve [reflexivity | discriminate H].
Qed.

(** What the form stores for the postcode: the letters and digits typed,
    in upper case, with a space before the last three once there are more
    than three. *)
Lemma formatPostcodeInput_cases (v : string) :
  let cleaned := Str.toUpperCase (alphanumerics v) in
  App.formatPostcodeInput v
  = if (length cleaned <=? 3)%nat then cleaned else insert_space cleaned.
Proof.
  cbv zeta. unfold App.formatPostcodeInput. rewrite form_strip.
  set (c := Str.toUpperCase (alphanumerics v)).
  assert (Hc : upper_word c = true) by apply cleaned_upper_word.
  unfold App.space_before_last3.
  rewrite (forallb_drop _ _ _ (upper_word_line _ Hc)), andb_true_r.
  destruct (length c <=? 3)%nat eqn:L3.
  - apply Nat.leb_le in L3.
    destruct (3 <=? length c)%nat eqn:G3; [|now apply upper_word_trim].
    apply Nat.leb_le in G3.
    assert (E : length c = 3%nat) by lia. rewrite E. simpl.
    unfold Str.trim. simpl.
    rewrite (trimStart_fixed _ (upper_word_no_lead _ Hc)).
    now apply trimEnd_fixed, upper_word_no_trail.
  - apply Nat.leb_gt in L3.
    replace (3 <=? length c)%nat with true
      by (symmetry; apply Nat.leb_le; lia).
    change (Str.take (length c - 3) c ++ " " ++ Str.drop (length c - 3) c)
      with (insert_space c).
    apply trim_fixed.
    + unfold insert_space.
      destruct c as [|a c']; [simpl in L3; lia|].
      replace (length (String a c') - 3)%nat with (S (length c' - 3))
        by (cbn [length] in L3 |- *; lia).
      simpl. unfold upper_word in Hc. simpl in Hc.
      apply andb_true_iff in Hc. destruct Hc as [Ha _].
      now destruct (upper_word_char a Ha) as (-> & _).
    + unfold insert_space.
      assert (Hd : length (Str.drop (length c - 3) c) = 3%nat).
      { pose proof (take_drop (length c - 3) c) as TD.
        apply (f_equal length) in TD. rewrite string_append_length in TD.
        rewrite take_length in TD by lia. lia. }
      rewrite no_trail_append by reflexivity.
      destruct (Str.drop (length c - 3) c) as [|d rest] eqn:D;
        [discriminate Hd|].
      change (no_trail (" " ++ String d rest)) with (no_trail (String d rest)).
      apply upper_word_no_trail. rewrite <- D.
      unfold upper_word. now apply forallb_drop.
Qed.

Lemma valid_postcode_length (s : string) :
  isValidUKPostcode s = true -> (6 <= length s <= 8)%nat.
Proof.
  intros H. apply valid_upper_canonical in H.
  destruct (canonical_postcode_words _ H) as (out & inw & E & _ & _ & Hlo & Hli).
  rewrite <- (map_length Char.upper s).
  change (Str.map Char.upper s) with (Str.toUpperCase s).
  rewrite E, string_append_length. simpl. lia.
Qed.

(** X16 — The form and the server agree on auto-formatting: for any typed
    ASCII text, the server's [tryAutoFormatPostcode] succeeds exactly when
    what the form's postcode box shows for that text is a valid postcode,
    and it then returns that very text. (The form upper-cases before it
    strips and the server strips before it upper-cases; outside ASCII
    [toUpperCase] can make ASCII letters of a character the server has
    already dropped, hence the condition.) *)
Theorem form_and_server_format_alike (v : string) :
  ascii_text v = true ->
  tryAutoFormatPostcode v
  = if isValidUKPostcode (App.formatPostcodeInput v)
    then Some (App.formatPostcodeInput v) else None.
Proof.
  intros _.
  rewrite tryAutoFormatPostcode_steps, formatPostcodeInput_cases. cbv zeta.
  rewrite <- (isValidUKPostcode_upper (insert_space (alphanumerics v))).
  rewrite <- insert_space_upper.
  set (c := Str.toUpperCase (alphanumerics v)).
  assert (Hlen : length (alphanumerics v) = length c)
    by (symmetry; apply map_length).
  rewrite Hlen.
  destruct (length c <? 5)%nat eqn:L5; simpl.
  - apply Nat.ltb_lt in L5.
    destruct (length c <=? 3)%nat eqn:L3.
    + destruct (isValidUKPostcode c) eqn:V; [|reflexivity].
      apply valid_postcode_length in V. apply Nat.leb_le in L3. lia.
    + destruct (isValidUKPostcode (insert_space c)) eqn:V; [|reflexivity].
      apply valid_postcode_length in V. rewrite insert_space_length in V. lia.
  - apply Nat.ltb_ge in L5.
    replace (length c <=? 3)%nat with false
      by (symmetry; apply Nat.leb_gt; lia).
    destruct (7 <? length c)%nat eqn:L7; [|reflexivity].
    apply Nat.ltb_lt in L7.
    destruct (isValidUKPostcode (insert_space c)) eqn:V; [|reflexivity].
    apply valid_postcode_length in V. rewrite insert_space_length in V. lia.
Qed.

Lemma alphanumerics_insert_space (c : string) :
  upper_word c = true -> alphanumerics (insert_space c) = c.
Proof.
  intros H. unfold insert_space, alphanumerics.
  rewrite !filter_append. simpl.
  rewrite (filter_all _ (Str.take (length c - 3) c)),
          (filter_all _ (Str.drop (length c - 3) c)).
  - apply take_drop.
  - apply forallb_drop. now apply upper_word_word.
  - apply forallb_take. now apply upper_word_word.
Qed.

(** X17 — Formatting what the postcode box already shows changes nothing:
    the form's formatter is idempotent, so retyping or pasting a formatted
    postcode is harmless. *)
Theorem formatPostcodeInput_idempotent (v : string) :
  App.formatPostcodeInput (App.formatPostcodeInput v)
  = App.formatPostcodeInput v.
Proof.
  rewrite (formatPostcodeInput_cases (App.formatPostcodeInput v)).
  rewrite (formatPostcodeInput_cases v). cbv zeta.
  set (c := Str.toUpperCase (alphanumerics v)).
  assert (Hc : upper_word c = true) by apply cleaned_upper_word.
  assert (Hfix : Str.toUpperCase (alphanumerics c) = c).
  { unfold alphanumerics. rewrite (filter_all _ c (upper_word_word _ Hc)).
    now apply toUpperCase_fixed, upper_word_no_lower. }
  destruct (length c <=? 3)%nat eqn:L3.
  - now rewrite Hfix, L3.
  - rewrite (alphanumerics_insert_space _ Hc).
    rewrite (toUpperCase_fixed _ (upper_word_no_lower _ Hc)).
    now rewrite L3.
Qed.

Lemma valid_postcode_trim (s : string) :
  isValidUKPostcode s = true -> Str.trim s = s.
Proof.
  intros H. apply valid_upper_canonical, canonical_postcode_tidy in H.
  destruct H as (H1 & H2 & _).
  rewrite no_lead_toUpperCase in H1. rewrite no_trail_toUpperCase in H2.
  now apply trim_fixed.
Qed.

(** What a submission that is posted holds: the form's postcode passed the
    pattern, and the payload carries the upper-cased postcode, the type,
    the purpose and, for a rent request only, the bedrooms. *)
Lemma posted_payload (fd : App.formData) (payload : value) :
  App.handleSubmit fd = App.Post payload ->
  isValidUKPostcode (App.postalCode fd) = true /\
  nullish payload = false /\
  prop payload "postalCode" = VStr (Str.toUpperCase (App.postalCode fd)) /\
  prop payload "propertyType" = VStr (App.propertyType fd) /\
  prop payload "purpose" = VStr (App.purpose fd) /\
  prop payload "bedrooms"
  = (if String.eqb (App.purpose fd) "rent"
     then VStr (App.bedrooms fd) else VUndefined) /\
  (App.purpose fd = "rent" -> Str.is_empty (App.bedrooms fd) = false).
Proof.
  unfold App.handleSubmit. fold (isValidUKPostcode (App.postalCode fd)).
  destruct (isValidUKPostcode (App.postalCode fd)) eqn:V; [|discriminate].
  rewrite (valid_postcode_trim _ V). simpl negb. cbv iota.
  destruct (String.eqb (App.purpose fd) "rent") eqn:R.
  - destruct (Str.is_empty (App.bedrooms fd)) eqn:B; [discriminate|].
    simpl. intros [= <-].
    destruct (Str.is_empty (App.floorArea fd)); simpl; repeat split;
      intros _; reflexivity.
  - simpl. intros [= <-]. simpl. repeat split.
    intros E. rewrite E in R. discriminate R.
Qed.

(** A 400 reply comes from the validator or from the postcode stage, and
    from nowhere else. *)
Lemma status_400_origin (req_body b : value) :
  snd (valuation req_body) = Json 400 b ->
  (exists r,
     validate (prop req_body "postalCode") (prop req_body "propertyType")
       (prop req_body "purpose") (prop req_body "bedrooms") = Some r) \/
  (exists raw,
     prop req_body "postalCode" = VStr raw /\ recover_postcode raw = None).
Proof.
  intros H.
  destruct (valuation_cases req_body)
    as [(_ & E) | [(_ & r & V & _) | [(_ & _ & E) | [(raw & (P & _) & R & _) |
        [(raw & full & Q) | (raw & full & Q)]]]]].
  - rewrite E in H. discriminate H.
  - left. now exists r.
  - rewrite E in H. discriminate H.
  - right. now exists raw.
  - destruct (rent_reply_cases _ _ _ Q)
      as (calls & _ & [(res & E & _) | [E | E]]);
      rewrite E in H; discriminate H.
  - destruct (sale_outcome _ _ _ Q)
      as [(d & _ & E) | [(e & d & _ & _ & _ & E) | [(e & e2 & _ & _ & _ & E) |
          (e & _ & _ & E)]]];
      rewrite E in H; discriminate H.
Qed.

Lemma validate_messages (pc pt pu bd : value) (r : reply) :
  validate pc pt pu bd = Some r -> r <> invalid_postcode.
Proof.
  unfold validate, invalid_postcode.
  destruct (negb (truthy pc) || negb (truthy pt) || negb (truthy pu));
    [intros [= <-]; discriminate|].
  destruct (negb (includes_str validPropertyTypes pt));
    [intros [= <-]; vm_compute; discriminate|].
  destruct (negb (includes_str ["sale"; "rent"] pu));
    [intros [= <-]; discriminate|].
  destruct (is_str "rent" pu &&
            (negb (truthy bd) || negb (includes_str ["1"; "2"; "3"; "4"] bd)));
    [intros [= <-]; discriminate | discriminate].
Qed.

Lemma includes_str_in (l : list string) (s : string) :
  In s l -> includes_str l (VStr s) = true.
Proof.
  intros H. unfold includes_str. apply existsb_exists. exists s.
  split; [exact H|]. simpl. apply String.eqb_refl.
Qed.

Lemma in_not_empty (l : list string) (s : string) :
  In s l -> ~ In EmptyString l -> Str.is_empty s = false.
Proof. intros H N. destruct s; [contradiction | reflexivity]. Qed.

(** X18 — A postcode the form lets through is never turned down by the
    server. When [handleSubmit] posts a payload, its postcode is the
    form's postcode in upper case, it is in canonical form, the server's
    postcode stage keeps it as it is, and the reply is never the 400
    "Invalid UK postcode format" error. If moreover the type and purpose
    are options of the form's menus and, for a rent request, the bedrooms
    are one of "1" to "4", the validator accepts the payload and the reply
    is no 400 at all. (The payload reaches the handler as posted: its
    fields are strings, which the JSON encoding hands over unchanged.) *)
Theorem posted_postcode_is_accepted (fd : App.formData) (payload : value) :
  App.handleSubmit fd = App.Post payload ->
  let p := Str.toUpperCase (App.postalCode fd) in
  prop payload "postalCode" = VStr p /\
  canonical_postcode p /\
  recover_postcode p = Some p /\
  snd (valuation payload) <> invalid_postcode /\
  (In (App.propertyType fd) validPropertyTypes ->
   In (App.purpose fd) ["sale"; "rent"] ->
   (App.purpose fd = "rent" -> In (App.bedrooms fd) ["1"; "2"; "3"; "4"]) ->
   accepted payload p /\
   forall b, snd (valuation payload) <> Json 400 b).
Proof.
  intros H p. destruct (posted_payload _ _ H) as (V & N & Pc & Pt & Pu & Pb & B).
  fold p in Pc.
  assert (C : canonical_postcode p) by now apply valid_upper_canonical.
  assert (R : recover_postcode p = Some p).
  { unfold recover_postcode. cbv zeta. rewrite (canonical_postcode_normalize _ C).
    now rewrite (canonical_postcode_valid _ C). }
  split; [exact Pc|]. split; [exact C|]. split; [exact R|]. split.
  - rewrite (valuation_unfold _ N).
    destruct (validate _ _ _ _) as [r|] eqn:Va.
    + simpl. now apply (validate_messages _ _ _ _ _ Va).
    + rewrite Pc, R. intros E.
      destruct (status_400_origin payload
                  (error_body "Invalid UK postcode format. Example: SW1A 1AA"))
        as [(r & Va') | (raw & Pr & Rr)].
      * rewrite (valuation_unfold _ N), Va, Pc, R. exact E.
      * rewrite Va in Va'. discriminate Va'.
      * rewrite Pc in Pr. injection Pr as <-. rewrite R in Rr. discriminate Rr.
  - intros Ht Hp Hb.
    assert (A : accepted payload p).
    { split; [exact Pc|]. rewrite Pc, Pt, Pu, Pb. unfold validate.
      assert (Tp : truthy (VStr p) = true).
      { unfold truthy, p, Str.toUpperCase. rewrite is_empty_map.
        destruct (App.postalCode fd); [discriminate V | reflexivity]. }
      rewrite Tp.
      rewrite (includes_str_in _ _ Ht), (includes_str_in _ _ Hp).
      assert (Tt : truthy (VStr (App.propertyType fd)) = true).
      { unfold truthy. rewrite (in_not_empty _ _ Ht); [reflexivity|].
        simpl. intuition discriminate. }
      assert (Tu : truthy (VStr (App.purpose fd)) = true).
      { unfold truthy. rewrite (in_not_empty _ _ Hp); [reflexivity|].
        simpl. intuition discriminate. }
      rewrite Tt, Tu. cbn [negb orb].
      unfold is_str.
      destruct (String.eqb (App.purpose fd) "rent") eqn:Er; [|reflexivity].
      apply String.eqb_eq in Er. specialize (Hb Er).
      rewrite (includes_str_in _ _ Hb).
      assert (Tb : truthy (VStr (App.bedrooms fd)) = true).
      { unfold truthy. rewrite (in_not_empty _ _ Hb); [reflexivity|].
        simpl. intuition discriminate. }
      now rewrite Tb. }
    split; [exact A|]. intros b E.
    destruct (status_400_origin _ _ E) as [(r & Va) | (raw & Pr & Rr)].
    + destruct A as (_ & A). rewrite A in Va. discriminate Va.
    + rewrite Pc in Pr. injection Pr as <-. rewrite R in Rr. discriminate Rr.
Qed.

(** X19 — The server's answer does not depend on the name, the e-mail
    address or the floor area typed into the form: two submissions that
    agree on postcode, type, purpose and bedrooms, and are both posted,
    make the handler issue the same upstream calls and give the same
    reply. *)
Theorem reply_ignores_contact_details (fd1 fd2 : App.formData)
  (payload1 payload2 : value) :
  App.postalCode fd1 = App.postalCode fd2 ->
  App.propertyType fd1 = App.propertyType fd2 ->
  App.purpose fd1 = App.purpose fd2 ->
  App.bedrooms fd1 = App.bedrooms fd2 ->
  App.handleSubmit fd1 = App.Post payload1 ->
  App.handleSubmit fd2 = App.Post payload2 ->
  valuation payload1 = valuation payload2.
Proof.
  intros Epc Ept Epu Ebd H1 H2.
  destruct (posted_payload _ _ H1) as (_ & N1 & Pc1 & Pt1 & Pu1 & Pb1 & _).
  destruct (posted_payload _ _ H2) as (_ & N2 & Pc2 & Pt2 & Pu2 & Pb2 & _).
  rewrite (valuation_unfold _ N1), (valuation_unfold _ N2).
  rewrite Pc1, Pt1, Pu1, Pb1, Pc2, Pt2, Pu2, Pb2.
  now rewrite Epc, Ept, Epu, Ebd.
Qed.

End Server.

(** * Closed examples *)

Local Notation "'run' up 'on' body" :=
  (valuation Sample.StringToNumber Sample.parseFloat_string
     Sample.Number_toString Sample.Number_toString
     Sample.PROPERTYDATA_API_KEY up body)
  (at level 10, up at level 9, body at level 9).

Local Notation "'instance_of' thm 'against' up" :=
  (thm Sample.StringToNumber Sample.parseFloat_string
     Sample.Number_toString Sample.Number_toString
     Sample.PROPERTYDATA_API_KEY up)
  (at level 10, thm at level 9, up at level 9).

Example normalizePostcode_example :
  normalizePostcode "  sw1a   1aa " = "SW1A 1AA".
Proof. reflexivity. Qed.

Example tryAutoFormatPostcode_example :
  List.map tryAutoFormatPostcode ["sw1a-1aa"; "m11ae"; "sw1a"; "12345678"; "abcde"]
  = [Some "SW1A 1AA"; Some "M1 1AE"; None; None; None].
Proof. reflexivity. Qed.

Example isValidUKPostcode_example :
  List.map isValidUKPostcode
    ["SW1A 1AA"; "m1 1ae"; "GIR 0AA"; "SW1A1AA"; "ABC 1AA"; "A1 1A"]
  = [true; true; true; false; false; false].
Proof. reflexivity. Qed.

Example Math_round_example :
  List.map Math_round [tenths 25; tenths (-25); tenths 14; tenths (-7); tenths 3]
  = [of_Z 3; of_Z (-2); of_Z 1; of_Z (-1); S754_zero false].
Proof. reflexivity. Qed.

(** C7, at a concrete input. *)
Lemma isValid_normalize_iff_canonical_witness :
  isValidUKPostcode (normalizePostcode " m1   1ae ") = true /\
  canonical_postcode
    (replace_space_runs " " false (Str.toUpperCase (Str.trim " m1   1ae "))).
Proof.
  split; [reflexivity|].
  exact (proj1 (isValid_normalize_iff_canonical " m1   1ae ") eq_refl).
Defined.

(** The retry of the sale path at work: the rejection carries the pattern
    and the call without a type succeeds. *)
Example sale_retry_example :
  exists res,
    run Sample.unsupported_then_ok on Sample.bungalow_body
    = (["https://api.propertydata.co.uk/sold-prices?key=KEY&postcode=SW1A 1AA&type=bungalow&max_age=12";
        "https://api.propertydata.co.uk/sold-prices?key=KEY&postcode=SW1A 1AA&max_age=12"],
       Json 200 res) /\
    prop res "propertyType"
    = VStr "bungalow (not found – showing area average)" /\
    prop res "average" = VNum (of_Z 500000) /\
    exists note, prop res "note" = VStr note.
Proof. eexists. repeat split. eexists. reflexivity. Qed.

(** C1, at a concrete input: the rent request for SW1A 1AA, both
    demand-rent calls timing out and the local-market call answered by an
    error body. The reply is a 200 rent result, every field "N/A". *)
Lemma local_market_error_body_is_used_witness :
  rent_request Sample.rent_body "SW1A 1AA" "SW1A 1AA" /\
  Sample.local_market_error
    "https://api.propertydata.co.uk/local-market?key=KEY&postcode=SW1A 1AA"
  = Resolved (Sample.obj [("status", VStr "error"); ("code", VStr "X14");
                          ("message", VStr "No data for this postcode")]) /\
  exists res,
    snd (run Sample.local_market_error on Sample.rent_body) = Json 200 res /\
    prop res "type" = VStr "rent".
Proof.
  assert (H : rent_request Sample.rent_body "SW1A 1AA" "SW1A 1AA")
    by (repeat split; reflexivity).
  split; [exact H|]. split; [reflexivity|].
  destruct (proj1 (instance_of local_market_error_body_is_used
                     against Sample.local_market_error
                     Sample.rent_body "SW1A 1AA" "SW1A 1AA" _ H
                     eq_refl (fun _ => eq_refl) eq_refl eq_refl)
              eq_refl)
    as (res & _ & Hval & Htype).
  exists res. split; assumption.
Defined.

(** C2, counterexample: the first sold-prices call times out, which is not
    the "type unsupported" error, and the reply is the generic 500 error,
    not the 404 "no sale data" error. *)
Lemma first_call_timeout_is_500 :
  sold_prices_try Sample.timeout
    "https://api.propertydata.co.uk/sold-prices?key=KEY&postcode=SW1A 1AA&type=flat&max_age=12"
  = Throw (AxiosError (Some "ECONNABORTED") None) /\
  type_unsupported (AxiosError (Some "ECONNABORTED") None) = Ok false /\
  run Sample.timeout on Sample.sale_body
  = (["https://api.propertydata.co.uk/sold-prices?key=KEY&postcode=SW1A 1AA&type=flat&max_age=12"],
     Json 500
       (error_body "Failed to fetch valuation. Please try again later.")) /\
  snd (run Sample.timeout on Sample.sale_body)
  <> Json 404
       (error_body
          "No recent sale data for flat properties in SW1A 1AA. This area may not have this property type.").
Proof. repeat split. discriminate. Qed.

(** C2 as amended, at a concrete input: the first call is rejected with
    the "type unsupported" pattern and the fallback call times out. *)
Lemma sale_error_classes_witness :
  sale_request Sample.bungalow_body "SW1A 1AA" "SW1A 1AA" /\
  run Sample.unsupported_then_timeout on Sample.bungalow_body
  = (["https://api.propertydata.co.uk/sold-prices?key=KEY&postcode=SW1A 1AA&type=bungalow&max_age=12";
      "https://api.propertydata.co.uk/sold-prices?key=KEY&postcode=SW1A 1AA&max_age=12"],
     Json 404
       (error_body
          "No recent sale data for bungalow properties in SW1A 1AA. This area may not have this property type.")).
Proof.
  assert (H : sale_request Sample.bungalow_body "SW1A 1AA" "SW1A 1AA")
    by (repeat split; reflexivity).
  split; [exact H|].
  exact (proj1 (instance_of sale_error_classes against Sample.unsupported_then_timeout
                  Sample.bungalow_body "SW1A 1AA" "SW1A 1AA" H)
           _ _ eq_refl eq_refl eq_refl).
Defined.

(** C3, at a concrete input: the sale request for a bungalow in SW1A 1AA,
    the first call answered with status 200 by the body
    [{status: "error", code: "902", message: "Property type not supported
    in this area"}]. One call is made and the reply is the 500 error. *)
Lemma unsupported_type_in_answer_not_retried_witness :
  sale_request Sample.bungalow_body "SW1A 1AA" "SW1A 1AA" /\
  body_unsupported Sample.unsupported_body = Ok true /\
  run Sample.unsupported_in_answer on Sample.bungalow_body
  = (["https://api.propertydata.co.uk/sold-prices?key=KEY&postcode=SW1A 1AA&type=bungalow&max_age=12"],
     Json 500
       (error_body "Failed to fetch valuation. Please try again later.")).
Proof.
  assert (H : sale_request Sample.bungalow_body "SW1A 1AA" "SW1A 1AA")
    by (repeat split; reflexivity).
  split; [exact H|]. split; [reflexivity|].
  exact (instance_of unsupported_type_in_answer_not_retried against Sample.unsupported_in_answer
           Sample.bungalow_body "SW1A 1AA" "SW1A 1AA" _ H
           eq_refl eq_refl eq_refl).
Defined.

(** C4, counterexample: the payload's rent average is the number 0, which
    is present and numeric, and yet averageRent is "N/A", not
    round(0 x 1.3) = 0, and the note is null. *)
Lemma zero_rent_average_is_not_adjusted :
  Sample.zeros
    "https://api.propertydata.co.uk/demand-rent?key=KEY&postcode=SW1A"
  = Resolved (Sample.obj [("status", VStr "success");
                          ("days_on_market", VNum (of_Z 0));
                          ("rent", VObj [("average", VNum (of_Z 0))]);
                          ("data", VObj [("average", VNum (of_Z 0))])]) /\
  run Sample.zeros on Sample.rent_body
  = (["https://api.propertydata.co.uk/demand-rent?key=KEY&postcode=SW1A"],
     Json 200
       (VObj [("type", VStr "rent"); ("postcode", VStr "SW1A 1AA");
              ("rentalDemand", VStr "N/A"); ("totalForRent", VStr "N/A");
              ("daysOnMarket", VStr "N/A"); ("monthsOfInventory", VStr "N/A");
              ("averageRent", VStr "N/A");
              ("originalAverageRent", VStr "N/A");
              ("yield", VStr "N/A"); ("note", VNull)])) /\
  VStr "N/A" <> VNum (Math_round (mul (of_Z 0) (tenths 13))).
Proof. repeat split. discriminate. Qed.

(** C4 as amended, at a concrete input: three bedrooms and a rent average
    of 1000 found at the parent outcode give 1300. *)
Lemma rent_adjustment_witness :
  rent_request Sample.rent_body "SW1A 1AA" "SW1A 1AA" /\
  exists res,
    snd (run Sample.parent_outcode_only on Sample.rent_body) = Json 200 res /\
    prop res "averageRent" = VNum (of_Z 1300) /\
    List.map (fun km => Math_round (mul (of_Z 1000) (snd km))) multiplier_table
    = [of_Z 800; of_Z 1000; of_Z 1300; of_Z 1600].
Proof.
  assert (H : rent_request Sample.rent_body "SW1A 1AA" "SW1A 1AA")
    by (repeat split; reflexivity).
  split; [exact H|]. eexists. split; [reflexivity|].
  destruct (instance_of rent_adjustment against Sample.parent_outcode_only
              Sample.rent_body "SW1A 1AA" "SW1A 1AA" _ H eq_refl)
    as [(d & Hd & Hnum & _) Htable].
  split; [|exact Htable].
  injection Hd as <-.
  destruct (Hnum (of_Z 1000) eq_refl eq_refl)
    as (k & m & note & Hk & Hm & Havg & _).
  injection Hk as <-.
  destruct Hm as [E|[E|[E|[E|[]]]]]; try discriminate E.
  injection E as <-. exact Havg.
Defined.

(** C4 as amended: a rent average of [true] is truthy and [isNaN(true)]
    is false, yet [parseFloat(true)] is NaN, and so is averageRent: not
    round(baseRent x multiplier), which would be 1. *)
Example true_rent_average_gives_NaN :
  exists res,
    snd (run Sample.true_average on Sample.rent_body) = Json 200 res /\
    prop res "averageRent" = VNum S754_nan /\
    prop res "originalAverageRent" = VBool true /\
    exists note, prop res "note" = VStr note.
Proof. eexists. repeat split. eexists. reflexivity. Qed.

(** C5 as amended, at a concrete input: a rent request without bedrooms
    is rejected with a 400 reply and no upstream call. *)
Lemma validator_rejects_exactly_witness :
  nullish Sample.no_bedrooms_body = false /\
  run Sample.timeout on Sample.no_bedrooms_body
  = ([], Json 400 (error_body
           "Number of bedrooms (1-4) is required for rental estimates")).
Proof.
  split; [reflexivity|].
  exact (proj2 (proj2 (proj2 (proj2 (instance_of validator_rejects_exactly
                                       against Sample.timeout
                                       Sample.no_bedrooms_body)
                                eq_refl))
                  _ eq_refl)).
Defined.

(** C5, counterexamples: a rent request with all fields present and the
    bedroom count 3, sent as a number, is rejected with the 400 reply
    although 3 is one of 1, 2, 3, 4; and a request without a body, in
    which the three required fields are missing, gets the 500 reply and
    not the validator's 400. *)
Lemma bedrooms_as_number_is_rejected :
  prop Sample.bedrooms_number_body "bedrooms" = VNum (of_Z 3) /\
  run Sample.zeros on Sample.bedrooms_number_body
  = ([], Json 400 (error_body
           "Number of bedrooms (1-4) is required for rental estimates")) /\
  run Sample.zeros on VUndefined
  = ([], Json 500
           (error_body "Failed to fetch valuation. Please try again later.")).
Proof. repeat split. Qed.

(** C6 as amended, at concrete inputs: " sw1a  1aa " is valid once
    normalised and the request goes on with "SW1A 1AA"; "sw1a1aa" is not,
    and the auto-format of the raw text gives "SW1A 1AA". *)
Lemma postcode_recovery_witness :
  (validate (VStr " sw1a  1aa ") (VStr "flat") (VStr "sale") VUndefined = None /\
   normalizePostcode " sw1a  1aa " = "SW1A 1AA" /\
   isValidUKPostcode "SW1A 1AA" = true /\
   run Sample.sold_prices_ok on Sample.spaced_body
   = respond (by_purpose Sample.StringToNumber Sample.parseFloat_string
                Sample.Number_toString Sample.Number_toString
                Sample.PROPERTYDATA_API_KEY Sample.sold_prices_ok "SW1A 1AA"
                (VStr "flat") (VStr "sale") VUndefined)) /\
  (validate (VStr "sw1a1aa") (VStr "flat") (VStr "sale") VUndefined = None /\
   isValidUKPostcode (normalizePostcode "sw1a1aa") = false /\
   tryAutoFormatPostcode "sw1a1aa" = Some "SW1A 1AA" /\
   run Sample.sold_prices_ok on Sample.sale_body
   = respond (by_purpose Sample.StringToNumber Sample.parseFloat_string
                Sample.Number_toString Sample.Number_toString
                Sample.PROPERTYDATA_API_KEY Sample.sold_prices_ok "SW1A 1AA"
                (VStr "flat") (VStr "sale") VUndefined)).
Proof.
  split.
  - split; [reflexivity|]. split; [reflexivity|]. split; [reflexivity|].
    exact (proj1 (proj2 (proj2 (proj2
             (proj1 (instance_of postcode_recovery against Sample.sold_prices_ok
                       Sample.spaced_body eq_refl)
                " sw1a  1aa " eq_refl))))
             eq_refl).
  - split; [reflexivity|]. split; [reflexivity|]. split; [reflexivity|].
    exact (proj1 (proj2 (proj2 (proj2 (proj2
             (proj1 (instance_of postcode_recovery against Sample.sold_prices_ok
                       Sample.sale_body eq_refl)
                "sw1a1aa" eq_refl)))))
             eq_refl _ eq_refl).
Defined.

(** C6, counterexample: a postcode sent inside an array passes the
    validator, which only asks for a truthy value; it is neither
    recovered nor rejected with the 400 postcode-format error: the reply
    is the 500 error. *)
Lemma array_postcode_is_500 :
  validate (prop Sample.array_postcode_body "postalCode")
    (prop Sample.array_postcode_body "propertyType")
    (prop Sample.array_postcode_body "purpose")
    (prop Sample.array_postcode_body "bedrooms") = None /\
  run Sample.sold_prices_ok on Sample.array_postcode_body
  = ([], Json 500
           (error_body "Failed to fetch valuation. Please try again later.")) /\
  snd (run Sample.sold_prices_ok on Sample.array_postcode_body)
  <> Json 400 (error_body "Invalid UK postcode format. Example: SW1A 1AA").
Proof. repeat split. discriminate. Qed.


(** C9, at a concrete input: the payload of the scenario. *)
Lemma sale_scenario_witness :
  exists res,
    run Sample.sold_prices_ok on Sample.sale_body
    = (["https://api.propertydata.co.uk/sold-prices?key=KEY&postcode=SW1A 1AA&type=flat&max_age=12"],
       Json 200 res) /\
    prop res "type" = VStr "sale" /\
    prop res "postcode" = VStr "SW1A 1AA" /\
    prop res "average" = VNum (of_Z 500000) /\
    prop res "range70" = VArr [VNum (of_Z 400000); VNum (of_Z 600000)] /\
    prop res "pointsAnalysed" = VNum (of_Z 42) /\
    prop res "note" = VNull.
Proof.
  exact (proj2 (proj2
    (instance_of sale_scenario against Sample.sold_prices_ok
       Sample.sale_body Sample.sold_prices_payload _
       eq_refl eq_refl eq_refl eq_refl eq_refl eq_refl (or_introl eq_refl)
       eq_refl eq_refl eq_refl))).
Defined.

(** C10, at a concrete input: a payload whose days on market and rent
    average are 0. *)
Lemma falsy_fields_take_the_default_witness :
  rent_request Sample.rent_body "SW1A 1AA" "SW1A 1AA" /\
  exists res,
    snd (run Sample.zeros on Sample.rent_body) = Json 200 res /\
    exists url r,
      Sample.zeros url = Resolved r /\
      (truthy (prop (data r) "days_on_market") = false ->
       prop res "daysOnMarket" = VStr "N/A").
Proof.
  assert (H : rent_request Sample.rent_body "SW1A 1AA" "SW1A 1AA")
    by (repeat split; reflexivity).
  split; [exact H|]. eexists. split; [reflexivity|].
  destruct (proj1 (instance_of falsy_fields_take_the_default against Sample.zeros)
              _ _ _ _ H eq_refl)
    as (url & r & _ & Hr & _ & _ & _ & Hdays & _).
  exists url, r. split; [exact Hr | exact Hdays].
Defined.

(** ** The further properties, at concrete inputs *)

(** X2, at a concrete input. *)
Lemma valid_postcode_shape_witness :
  isValidUKPostcode "m1 1ae" = true /\
  (6 <= length "m1 1ae" <= 8)%nat /\
  (2 <= length (getOutcode "m1 1ae") <= 4)%nat /\
  length (Str.slice_neg 3 "m1 1ae") = 3%nat /\
  "m1 1ae" = getOutcode "m1 1ae" ++ " " ++ Str.slice_neg 3 "m1 1ae".
Proof. exact (conj eq_refl (valid_postcode_shape "m1 1ae" eq_refl)). Defined.

(** X3, at a concrete input. *)
Lemma valid_postcode_normalize_witness :
  isValidUKPostcode "m1 1ae" = true /\ normalizePostcode "m1 1ae" = "M1 1AE".
Proof. exact (conj eq_refl (valid_postcode_normalize "m1 1ae" eq_refl)). Defined.

(** X4, at a concrete input. *)
Lemma valid_postcode_autoformat_witness :
  isValidUKPostcode "m1 1ae" = true /\
  tryAutoFormatPostcode "m1 1ae" = Some "M1 1AE".
Proof. exact (conj eq_refl (valid_postcode_autoformat "m1 1ae" eq_refl)). Defined.

(** X5, at a concrete input. *)
Lemma autoformat_result_canonical_witness :
  tryAutoFormatPostcode "sw1a-1aa" = Some "SW1A 1AA" /\
  canonical_postcode "SW1A 1AA" /\
  isValidUKPostcode "SW1A 1AA" = true /\
  normalizePostcode "SW1A 1AA" = "SW1A 1AA" /\
  tryAutoFormatPostcode "SW1A 1AA" = Some "SW1A 1AA".
Proof.
  exact (conj eq_refl
           (autoformat_result_canonical "sw1a-1aa" "SW1A 1AA" eq_refl)).
Defined.

(** X6, at a concrete input: a postcode typed with stray spaces. *)
Lemma recovered_postcode_stable_witness :
  recover_postcode " sw1a  1aa " = Some "SW1A 1AA" /\
  canonical_postcode "SW1A 1AA" /\
  recover_postcode "SW1A 1AA" = Some "SW1A 1AA" /\
  (2 <= length (getOutcode "SW1A 1AA") <= 4)%nat /\
  ((3 < length (getOutcode "SW1A 1AA"))%nat ->
   length (Str.slice_0_neg 1 (getOutcode "SW1A 1AA")) = 3%nat).
Proof.
  exact (conj eq_refl
           (recovered_postcode_stable " sw1a  1aa " "SW1A 1AA" eq_refl)).
Defined.

(** X7, at a concrete input: the same postcode typed in two ways. *)
Lemma autoformat_ignores_case_and_separators_witness :
  Str.toUpperCase (alphanumerics "sw1a-1aa")
  = Str.toUpperCase (alphanumerics "SW1A 1AA") /\
  tryAutoFormatPostcode "sw1a-1aa" = tryAutoFormatPostcode "SW1A 1AA".
Proof.
  exact (conj eq_refl
           (autoformat_ignores_case_and_separators "sw1a-1aa" "SW1A 1AA"
              eq_refl)).
Defined.

(** X9, at a concrete input: a sale request while every call times out. *)
Lemma upstream_calls_bounded_witness :
  prop Sample.sale_body "purpose" = VStr "sale" /\
  (List.length (fst (run Sample.timeout on Sample.sale_body)) <= 2)%nat.
Proof.
  split; [reflexivity|].
  exact (proj1 (proj2 (instance_of upstream_calls_bounded against Sample.timeout
                         Sample.sale_body))
           eq_refl).
Defined.

(** X10, at a concrete input: the one call of a rent request that is
    answered at once. *)
Lemma calls_stay_within_purpose_witness :
  accepted Sample.rent_body "SW1A 1AA" /\
  recover_postcode "SW1A 1AA" = Some "SW1A 1AA" /\
  In "https://api.propertydata.co.uk/demand-rent?key=KEY&postcode=SW1A"
     (fst (run Sample.zeros on Sample.rent_body)) /\
  ((prop Sample.rent_body "purpose" = VStr "rent" /\
    ("https://api.propertydata.co.uk/demand-rent?key=KEY&postcode=SW1A"
     = demand_rent_url Sample.PROPERTYDATA_API_KEY (getOutcode "SW1A 1AA") \/
     "https://api.propertydata.co.uk/demand-rent?key=KEY&postcode=SW1A"
     = demand_rent_url Sample.PROPERTYDATA_API_KEY
         (Str.slice_0_neg 1 (getOutcode "SW1A 1AA")) \/
     "https://api.propertydata.co.uk/demand-rent?key=KEY&postcode=SW1A"
     = local_market_url Sample.PROPERTYDATA_API_KEY "SW1A 1AA")) \/
   (prop Sample.rent_body "purpose" = VStr "sale" /\
    ("https://api.propertydata.co.uk/demand-rent?key=KEY&postcode=SW1A"
     = sold_prices_url Sample.PROPERTYDATA_API_KEY "SW1A 1AA"
         (Some (ToString Sample.Number_toString
                  (prop Sample.rent_body "propertyType"))) \/
     "https://api.propertydata.co.uk/demand-rent?key=KEY&postcode=SW1A"
     = sold_prices_url Sample.PROPERTYDATA_API_KEY "SW1A 1AA" None))).
Proof.
  assert (A : accepted Sample.rent_body "SW1A 1AA") by (split; reflexivity).
  assert (I : In "https://api.propertydata.co.uk/demand-rent?key=KEY&postcode=SW1A"
                 (fst (run Sample.zeros on Sample.rent_body)))
    by (left; reflexivity).
  split; [exact A|]. split; [reflexivity|]. split; [exact I|].
  exact (instance_of calls_stay_within_purpose against Sample.zeros
           Sample.rent_body "SW1A 1AA" "SW1A 1AA" _ A eq_refl I).
Defined.

(** X11, at a concrete input: a postcode sent as a number. *)
Lemma malformed_request_is_500_witness :
  validate (VNum (of_Z 12345)) (VStr "flat") (VStr "sale") VUndefined = None /\
  run Sample.zeros on
    (VObj [("postalCode", VNum (of_Z 12345)); ("propertyType", VStr "flat");
           ("purpose", VStr "sale")])
  = ([], Json 500
           (error_body "Failed to fetch valuation. Please try again later.")).
Proof.
  split; [reflexivity|].
  apply (instance_of malformed_request_is_500 against Sample.zeros).
  right. split; [reflexivity|]. intros s. simpl. discriminate.
Defined.

(** X12, at a concrete input: two rent requests that differ in the
    property type only. *)
Lemma reply_ignores_the_other_purpose_field_witness :
  run Sample.parent_outcode_only on Sample.rent_body
  = run Sample.parent_outcode_only on
      (VObj [("postalCode", VStr "SW1A 1AA"); ("propertyType", VStr "bungalow");
             ("purpose", VStr "rent"); ("bedrooms", VStr "3")]).
Proof.
  apply (instance_of reply_ignores_the_other_purpose_field
           against Sample.parent_outcode_only);
    try reflexivity.
  right. repeat split; reflexivity.
Defined.

(** X13, at concrete inputs: every call times out, and the 404 reply tells
    that all three sources failed; the first call is answered with a rent
    average that has no primitive form, and the reply is the 500 error. *)
Lemma rent_errors_classified_witness :
  rent_request Sample.rent_body "SW1A 1AA" "SW1A 1AA" /\
  snd (run Sample.timeout on Sample.rent_body)
  = Json 404
      (error_body
         "No rental market data available for this area. Try a nearby postcode.") /\
  (tiers_failed Sample.PROPERTYDATA_API_KEY Sample.timeout "SW1A 1AA" /\
   exists code r,
     Sample.timeout (local_market_url Sample.PROPERTYDATA_API_KEY "SW1A 1AA")
     = Rejected code r) /\
  converts
    (rent_average
       (VObj [("status", VStr "success");
              ("rent",
                 VObj [("average", VObj [("toString", VNum (of_Z 1))])])]))
  = false /\
  snd (run Sample.unprintable_average on Sample.rent_body)
  = Json 500 (error_body "Failed to fetch valuation. Please try again later.").
Proof.
  assert (H : rent_request Sample.rent_body "SW1A 1AA" "SW1A 1AA")
    by (repeat split; reflexivity).
  split; [exact H|]. split; [reflexivity|]. split.
  - exact (proj1 (proj1 (instance_of rent_errors_classified
                           against Sample.timeout
                           Sample.rent_body "SW1A 1AA" "SW1A 1AA" H))
             eq_refl).
  - split; [reflexivity|].
    apply (proj2 (proj1 (proj2 (instance_of rent_errors_classified
                                  against Sample.unprintable_average
                                  Sample.rent_body "SW1A 1AA" "SW1A 1AA" H)))).
    right. eexists. split; reflexivity.
Defined.

(** X14, at a concrete input: the type is refused for the area and the
    call without a type succeeds; of the four outcomes it is the second. *)
Lemma sale_outcomes_classified_witness :
  sale_request Sample.bungalow_body "SW1A 1AA" "SW1A 1AA" /\
  exists res note,
    run Sample.unsupported_then_ok on Sample.bungalow_body
    = (["https://api.propertydata.co.uk/sold-prices?key=KEY&postcode=SW1A 1AA&type=bungalow&max_age=12";
        "https://api.propertydata.co.uk/sold-prices?key=KEY&postcode=SW1A 1AA&max_age=12"],
       Json 200 res) /\
    prop res "note" = VStr note /\
    prop res "propertyType"
    = VStr "bungalow (not found – showing area average)".
Proof.
  assert (H : sale_request Sample.bungalow_body "SW1A 1AA" "SW1A 1AA")
    by (repeat split; reflexivity).
  split; [exact H|].
  destruct (instance_of sale_outcomes_classified against Sample.unsupported_then_ok
              Sample.bungalow_body "SW1A 1AA" "SW1A 1AA" H)
    as [(res & E & _) | [K | [E | E]]];
    [discriminate E | exact K | discriminate E | discriminate E].
Defined.

(** X15, at a concrete input: a rent average of 1000 is adjusted, and the
    result carries a number and a note. *)
Lemma rent_note_goes_with_adjustment_witness :
  rent_request Sample.rent_body "SW1A 1AA" "SW1A 1AA" /\
  exists res,
    snd (run Sample.parent_outcode_only on Sample.rent_body) = Json 200 res /\
    (prop res "averageRent" = VStr "N/A" /\ prop res "note" = VNull \/
     exists x note,
       prop res "averageRent" = VNum x /\ prop res "note" = VStr note).
Proof.
  assert (H : rent_request Sample.rent_body "SW1A 1AA" "SW1A 1AA")
    by (repeat split; reflexivity).
  split; [exact H|]. eexists. split; [reflexivity|].
  exact (instance_of rent_note_goes_with_adjustment against Sample.parent_outcode_only
           Sample.rent_body "SW1A 1AA" "SW1A 1AA" _ H eq_refl).
Defined.

(** X18, at a concrete input: the rent form of a visitor who typed
    "sw1a1aa" is posted, and the server accepts it. *)
Lemma posted_postcode_is_accepted_witness :
  App.handleSubmit SampleForm.rent_form
  = App.Post (VObj [("postalCode", VStr "SW1A 1AA");
                    ("propertyType", VStr "flat"); ("purpose", VStr "rent");
                    ("bedrooms", VStr "3"); ("floorArea", VStr "850")]) /\
  accepted (VObj [("postalCode", VStr "SW1A 1AA");
                  ("propertyType", VStr "flat"); ("purpose", VStr "rent");
                  ("bedrooms", VStr "3"); ("floorArea", VStr "850")])
    "SW1A 1AA" /\
  forall b,
    snd (run Sample.timeout on
           (VObj [("postalCode", VStr "SW1A 1AA");
                  ("propertyType", VStr "flat"); ("purpose", VStr "rent");
                  ("bedrooms", VStr "3"); ("floorArea", VStr "850")]))
    <> Json 400 b.
Proof.
  split; [reflexivity|].
  destruct (instance_of posted_postcode_is_accepted against Sample.timeout
              SampleForm.rent_form _ eq_refl)
    as (_ & _ & _ & _ & K).
  apply K.
  - right. right. right. left. reflexivity.
  - right. left. reflexivity.
  - intros _. right. right. left. reflexivity.
Defined.

(** X19, at a concrete input: the same rent form, once with another name
    and no floor area. *)
Lemma reply_ignores_contact_details_witness :
  App.handleSubmit SampleForm.rent_form
  = App.Post (VObj [("postalCode", VStr "SW1A 1AA");
                    ("propertyType", VStr "flat"); ("purpose", VStr "rent");
                    ("bedrooms", VStr "3"); ("floorArea", VStr "850")]) /\
  App.handleSubmit
    (App.handleChange
       (App.handleChange SampleForm.rent_form "name" "B. Other")
       "floorArea" EmptyString)
  = App.Post Sample.rent_body /\
  run Sample.parent_outcode_only on
    (VObj [("postalCode", VStr "SW1A 1AA");
           ("propertyType", VStr "flat"); ("purpose", VStr "rent");
           ("bedrooms", VStr "3"); ("floorArea", VStr "850")])
  = run Sample.parent_outcode_only on Sample.rent_body.
Proof.
  split; [reflexivity|]. split; [reflexivity|].
  exact (instance_of reply_ignores_contact_details against Sample.parent_outcode_only
           SampleForm.rent_form
           (App.handleChange
              (App.handleChange SampleForm.rent_form "name" "B. Other")
              "floorArea" EmptyString)
           _ _ eq_refl eq_refl eq_refl eq_refl eq_refl eq_refl).
Defined.

(** X16, at a concrete input: what the form shows for "sw1a-1aa" is what
    the server makes of it. *)
Lemma form_and_server_format_alike_witness :
  ascii_text "sw1a-1aa" = true /\
  App.formatPostcodeInput "sw1a-1aa" = "SW1A 1AA" /\
  tryAutoFormatPostcode "sw1a-1aa" = Some "SW1A 1AA".
Proof.
  split; [reflexivity|]. split; [reflexivity|].
  exact (form_and_server_format_alike "sw1a-1aa" eq_refl).
Defined.
